(** * pebble-iCloud: the watch-side message engine of [main.c]

    A shallow embedding of the AppMessage handler of the C watch app
    ([src/pebble-app/src/c-legacy/main.c]): the inbound dictionary, the
    global session and cache variables, the request encoders and
    [inbox_received_callback], followed by the properties of the protocol
    engine that the specification states about them.

    Conventions of the embedding.
    - A C [int] / [int32_t] is a [Z].  The handler reads a tuple through
      the pointer [t->value], four bytes for an integer and up to the
      first zero byte for a string, without looking at the length of the
      tuple; so the values it reads are decoded from the memory at the
      payload, which holds the payload, then the tuples that follow in the
      buffer, then what comes after the dictionary.
    - A C string is the [list byte] of its characters, terminator left out;
      a [char buf[n]] global holds such a list of at most [n-1] bytes.
    - The globals the handler touches are the fields of [Globals]; the
      handler runs in a small state monad that also records, in order, the
      calls made into the Pebble SDK ([Call]), and that stops with
      [Fault] when an array element outside its array is written.
    - SDK functions are not part of the repository.  They are modelled by
      what the handler observes of them: [dict_find] returns the first
      tuple with the key, the tuples of a dictionary are packed one after
      the other, [snprintf] with a ["%s"] format keeps at most [size-1]
      bytes, window and menu calls only leave a trace, and the outbox is
      taken to accept the message that is sent. *)

From Stdlib Require Import ZArith List Bool Lia.
From Stdlib Require Import Strings.Byte Strings.String.
From stdpp Require Import base tactics option list.

Import ListNotations.
Local Open Scope Z_scope.

(** ** Constants of [main.c] *)

Definition KEY_CMD : Z := 0.
Definition KEY_ACTION : Z := 1.
Definition KEY_USERNAME : Z := 2.
Definition KEY_APPLE_ID : Z := 3.
Definition KEY_APPLE_PASSWORD : Z := 4.
Definition KEY_TOKEN : Z := 5.
Definition KEY_LIST_ID : Z := 6.
Definition KEY_LIST_TITLE : Z := 7.
Definition KEY_REMINDER_ID : Z := 8.
Definition KEY_REMINDER_TITLE : Z := 9.
Definition KEY_REMINDER_COMPLETED : Z := 10.
Definition KEY_REMINDER_INDEX : Z := 11.
Definition KEY_STATUS : Z := 12.
Definition KEY_ERROR : Z := 13.
Definition KEY_COUNT : Z := 14.

Definition CMD_LOGIN : Z := 1.
Definition CMD_GET_LISTS : Z := 2.
Definition CMD_GET_REMINDERS : Z := 3.
Definition CMD_COMPLETE_REMINDER : Z := 4.

Definition STATUS_SUCCESS : Z := 1.
Definition STATUS_ERROR : Z := 0.

Definition MAX_LISTS : Z := 20.
Definition MAX_REMINDERS : Z := 50.

Definition PERSIST_KEY_TOKEN : Z := 1.
Definition PERSIST_KEY_USERNAME : Z := 2.
Definition PERSIST_KEY_APPLE_ID : Z := 3.
Definition PERSIST_KEY_APPLE_PASSWORD : Z := 4.

(** ** C strings *)

Definition cstr := list byte.

(** The characters of a NUL-terminated string that starts at the first
    byte of [bs]: everything before the first zero byte. *)
Fixpoint c_string (bs : list byte) : cstr :=
  match bs with
  | [] => []
  | b :: rest => if Byte.eqb b x00 then [] else b :: c_string rest
  end.

(** [snprintf(buf, size, "%s", s)]: at most [size - 1] characters are
    stored, the terminator takes the last place. *)
Definition snprintf (size : nat) (s : cstr) : cstr := take (size - 1)%nat s.

(** [strlen(s) > 0] *)
Definition nonempty (s : cstr) : bool :=
  match s with [] => false | _ :: _ => true end.

Definition lit (s : string) : cstr := list_byte_of_string s.

(** ** Dictionary tuples (the SDK's [Tuple] and [DictionaryIterator]) *)

Inductive TupleType := TUPLE_BYTE_ARRAY | TUPLE_CSTRING | TUPLE_UINT | TUPLE_INT.

(** A tuple is its key, its type tag and its payload bytes; the [length]
    member of the C struct is the length of [data]. *)
Record Tuple := mkTuple { key : Z; type : TupleType; data : list byte }.

(** A dictionary is the sequence of its tuples, which lie one after the
    other in a buffer, followed by [trailing]: the bytes that come after
    the last tuple in memory, as far as a read can go.  Past [trailing] a
    read sees zero bytes, so every memory content that a read of the
    handler can meet is that of some [trailing]. *)
Record DictionaryIterator := mkDictionaryIterator {
  tuples : list Tuple;
  trailing : list byte
}.

(** A dictionary given by its tuples alone has nothing but zero bytes
    after it. *)
Definition dictionary_of (ts : list Tuple) : DictionaryIterator :=
  mkDictionaryIterator ts [].

#[warning="-uniform-inheritance"]
Coercion dictionary_of : list >-> DictionaryIterator.

Definition byte_of_Z (z : Z) : byte :=
  match Byte.of_N (Z.to_N (z mod 256)) with Some b => b | None => x00 end.

(** Little-endian bytes of an integer, [width] bytes wide. *)
Fixpoint le_bytes (width : nat) (z : Z) : list byte :=
  match width with
  | O => []
  | S w => byte_of_Z z :: le_bytes w (z / 256)
  end.

Fixpoint le_value (bs : list byte) : Z :=
  match bs with
  | [] => 0
  | b :: rest => Z.of_N (Byte.to_N b) + 256 * le_value rest
  end.

Definition type_code (ty : TupleType) : Z :=
  match ty with
  | TUPLE_BYTE_ARRAY => 0
  | TUPLE_CSTRING => 1
  | TUPLE_UINT => 2
  | TUPLE_INT => 3
  end.

(** A tuple as it lies in the buffer.  The C struct of the SDK is packed
    ([uint32_t key; TupleType type:8; uint16_t length;] and the [value]
    union as a flexible member): the key (4 bytes), the type (1 byte) and
    the length (2 bytes), little-endian (the watch is a little-endian
    ARM), then the payload; the next tuple starts right after the
    payload. *)
Definition tuple_bytes (t : Tuple) : list byte :=
  le_bytes 4 (key t) ++ [byte_of_Z (type_code (type t))] ++
  le_bytes 2 (Z.of_nat (length (data t))) ++ data t.

(** [dict_find(iter, key)]: the first tuple carrying [key], [None] for the
    NULL pointer. *)
Fixpoint find_tuple (ts : list Tuple) (k : Z) : option Tuple :=
  match ts with
  | [] => None
  | t :: rest => if key t =? k then Some t else find_tuple rest k
  end.

Definition dict_find (iter : DictionaryIterator) (k : Z) : option Tuple :=
  find_tuple (tuples iter) k.

(** The memory that starts at the payload of the first tuple with key [k]:
    the payload, then the tuples that follow it, then what comes after
    the dictionary. *)
Fixpoint memory_from (ts : list Tuple) (after : list byte) (k : Z) : list byte :=
  match ts with
  | [] => after
  | t :: rest =>
      if key t =? k
      then data t ++ flat_map tuple_bytes rest ++ after
      else memory_from rest after k
  end.

(** [t->value], for a tuple [t] that [dict_find] found in [iter]: the
    memory from the first payload byte of [t] on.  The pointer is the one
    to the first tuple with the key of [t].  A read through it is not
    stopped by the length of the tuple. *)
Definition value (iter : DictionaryIterator) (t : Tuple) : list byte :=
  memory_from (tuples iter) (trailing iter) (key t).

(** [t->value->int32]: the four bytes at [t->value] as a little-endian
    two's complement integer, whatever the length of the tuple is.  When
    the payload is shorter than four bytes, the bytes that follow it in
    memory (the header of the next tuple first) are read with it. *)
Definition value_int32 (iter : DictionaryIterator) (t : Tuple) : Z :=
  let u := le_value (take 4 (value iter t)) in
  if u <? 2 ^ 31 then u else u - 2 ^ 32.

(** [t->value->cstring], read as a C string: the bytes at [t->value] up to
    the first zero byte in memory, be it inside the payload or after it. *)
Definition value_cstring (iter : DictionaryIterator) (t : Tuple) : cstr :=
  c_string (value iter t).

(** [dict_write_int(iter, key, &v, width, is_signed)] and
    [dict_write_cstring(iter, key, s)] put one tuple after the last one,
    over the bytes that were there. *)
Definition dict_write_tuple (iter : DictionaryIterator) (t : Tuple) : DictionaryIterator :=
  mkDictionaryIterator (tuples iter ++ [t])
    (drop (length (tuple_bytes t)) (trailing iter)).

Definition dict_write_int (iter : DictionaryIterator) (k : Z) (v : Z)
    (width : nat) (is_signed : bool) : DictionaryIterator :=
  dict_write_tuple iter
    (mkTuple k (if is_signed then TUPLE_INT else TUPLE_UINT) (le_bytes width v)).

Definition dict_write_cstring (iter : DictionaryIterator) (k : Z) (s : cstr)
    : DictionaryIterator :=
  dict_write_tuple iter (mkTuple k TUPLE_CSTRING (s ++ [x00])).

(** The two typed views of a field of a message: what the handler reads
    through the pointer that [dict_find] gives for the key. *)
Definition field_int32 (m : DictionaryIterator) (k : Z) : option Z :=
  value_int32 m <$> dict_find m k.

Definition field_cstring (m : DictionaryIterator) (k : Z) : option cstr :=
  value_cstring m <$> dict_find m k.

(** ** Data structures and global state *)

Module ReminderList.
Record t := mk { id : cstr; title : cstr }.
Definition set_id (v : cstr) (l : t) : t := mk v (title l).
Definition set_title (v : cstr) (l : t) : t := mk (id l) v.
End ReminderList.

Module Reminder.
Record t := mk { id : cstr; title : cstr; list_id : cstr; completed : bool }.
Definition set_id (v : cstr) (r : t) : t := mk v (title r) (list_id r) (completed r).
Definition set_title (v : cstr) (r : t) : t := mk (id r) v (list_id r) (completed r).
Definition set_list_id (v : cstr) (r : t) : t := mk (id r) (title r) v (completed r).
Definition set_completed (v : bool) (r : t) : t := mk (id r) (title r) (list_id r) v.
End Reminder.

(** A [Window *]: [None] is NULL. *)
Definition Window := nat.

Record Globals := mkGlobals {
  s_settings_window : option Window;
  s_reminders_window : option Window;
  s_detail_window : option Window;
  s_token : cstr;
  s_lists : list ReminderList.t;
  s_list_count : Z;
  s_reminders : list Reminder.t;
  s_reminder_count : Z;
  s_current_list_index : Z;
  s_current_reminder_index : Z;
  s_username : cstr;
  s_apple_id : cstr;
  s_apple_password : cstr;
  s_is_logged_in : bool
}.

Definition set_s_token (v : cstr) (g : Globals) : Globals :=
  mkGlobals (s_settings_window g) (s_reminders_window g) (s_detail_window g)
    v (s_lists g) (s_list_count g) (s_reminders g) (s_reminder_count g)
    (s_current_list_index g) (s_current_reminder_index g)
    (s_username g) (s_apple_id g) (s_apple_password g) (s_is_logged_in g).

Definition set_s_lists (v : list ReminderList.t) (g : Globals) : Globals :=
  mkGlobals (s_settings_window g) (s_reminders_window g) (s_detail_window g)
    (s_token g) v (s_list_count g) (s_reminders g) (s_reminder_count g)
    (s_current_list_index g) (s_current_reminder_index g)
    (s_username g) (s_apple_id g) (s_apple_password g) (s_is_logged_in g).

Definition set_s_list_count (v : Z) (g : Globals) : Globals :=
  mkGlobals (s_settings_window g) (s_reminders_window g) (s_detail_window g)
    (s_token g) (s_lists g) v (s_reminders g) (s_reminder_count g)
    (s_current_list_index g) (s_current_reminder_index g)
    (s_username g) (s_apple_id g) (s_apple_password g) (s_is_logged_in g).

Definition set_s_reminders (v : list Reminder.t) (g : Globals) : Globals :=
  mkGlobals (s_settings_window g) (s_reminders_window g) (s_detail_window g)
    (s_token g) (s_lists g) (s_list_count g) v (s_reminder_count g)
    (s_current_list_index g) (s_current_reminder_index g)
    (s_username g) (s_apple_id g) (s_apple_password g) (s_is_logged_in g).

Definition set_s_reminder_count (v : Z) (g : Globals) : Globals :=
  mkGlobals (s_settings_window g) (s_reminders_window g) (s_detail_window g)
    (s_token g) (s_lists g) (s_list_count g) (s_reminders g) v
    (s_current_list_index g) (s_current_reminder_index g)
    (s_username g) (s_apple_id g) (s_apple_password g) (s_is_logged_in g).

Definition set_s_username (v : cstr) (g : Globals) : Globals :=
  mkGlobals (s_settings_window g) (s_reminders_window g) (s_detail_window g)
    (s_token g) (s_lists g) (s_list_count g) (s_reminders g) (s_reminder_count g)
    (s_current_list_index g) (s_current_reminder_index g)
    v (s_apple_id g) (s_apple_password g) (s_is_logged_in g).

Definition set_s_apple_id (v : cstr) (g : Globals) : Globals :=
  mkGlobals (s_settings_window g) (s_reminders_window g) (s_detail_window g)
    (s_token g) (s_lists g) (s_list_count g) (s_reminders g) (s_reminder_count g)
    (s_current_list_index g) (s_current_reminder_index g)
    (s_username g) v (s_apple_password g) (s_is_logged_in g).

Definition set_s_apple_password (v : cstr) (g : Globals) : Globals :=
  mkGlobals (s_settings_window g) (s_reminders_window g) (s_detail_window g)
    (s_token g) (s_lists g) (s_list_count g) (s_reminders g) (s_reminder_count g)
    (s_current_list_index g) (s_current_reminder_index g)
    (s_username g) (s_apple_id g) v (s_is_logged_in g).

Definition set_s_is_logged_in (v : bool) (g : Globals) : Globals :=
  mkGlobals (s_settings_window g) (s_reminders_window g) (s_detail_window g)
    (s_token g) (s_lists g) (s_list_count g) (s_reminders g) (s_reminder_count g)
    (s_current_list_index g) (s_current_reminder_index g)
    (s_username g) (s_apple_id g) (s_apple_password g) v.

(** The globals as the C initialisers leave them: zeroed arrays and
    buffers, both counts 0, both selection indices -1, no window. *)
Definition initial_globals : Globals :=
  mkGlobals None None None
    [] (replicate 20 (ReminderList.mk [] [])) 0
    (replicate 50 (Reminder.mk [] [] [] false)) 0
    (-1) (-1) [] [] [] false.

(** ** Calls into the SDK and the handler monad *)

Inductive Menu := s_menu_layer | s_reminders_menu_layer.

Inductive Call :=
  (** [APP_LOG(APP_LOG_LEVEL_ERROR, fmt, arg)] *)
| app_log_error (fmt : cstr) (arg : cstr)
  (** the error dialog of lines 130-142: a new window whose text layer
      shows [error_message], pushed on the window stack *)
| error_window_push (error_message : cstr)
| persist_write_string (k : Z) (value : cstr)
| window_stack_remove (w : option Window)
| menu_layer_reload_data (menu : Menu)
  (** [app_message_outbox_begin], the [dict_write_*] calls shown, then
      [app_message_outbox_send] *)
| app_message_outbox_send (msg : DictionaryIterator).

Inductive Res (A : Type) :=
| Ok (a : A) (g : Globals) (calls : list Call)
  (** an array element outside its array was written: undefined behaviour *)
| Fault.
Arguments Ok {A} a g calls.
Arguments Fault {A}.

Definition M (A : Type) : Type := Globals -> Res A.

#[global] Instance M_ret : MRet M := fun A a g => Ok a g [].

#[global] Instance M_bind : MBind M := fun A B k m g =>
  match m g with
  | Ok a g1 c1 =>
      match k a g1 with
      | Ok b g2 c2 => Ok b g2 (c1 ++ c2)
      | Fault => Fault
      end
  | Fault => Fault
  end.

Definition get : M Globals := fun g => Ok g g [].
Definition modify (f : Globals -> Globals) : M unit := fun g => Ok tt (f g) [].
Definition call (c : Call) : M unit := fun g => Ok tt g [c].
Definition skip : M unit := mret tt.

(** [s_lists[index].field = ...] and [s_reminders[index].field = ...]: the
    element is updated in place when [index] lies inside the array; a
    write through any other index leaves the array and is a [Fault]. *)
Definition s_lists_store (index : Z) (f : ReminderList.t -> ReminderList.t) : M unit :=
  fun g =>
    if (0 <=? index) && (index <? MAX_LISTS)
    then Ok tt (set_s_lists (alter f (Z.to_nat index) (s_lists g)) g) []
    else Fault.

Definition s_reminders_store (index : Z) (f : Reminder.t -> Reminder.t) : M unit :=
  fun g =>
    if (0 <=? index) && (index <? MAX_REMINDERS)
    then Ok tt (set_s_reminders (alter f (Z.to_nat index) (s_reminders g)) g) []
    else Fault.

(** ** Settings (lines 88-111) *)

(** The persistent storage of the watch is outside the program; it is the
    parameter [persist], [None] where [persist_exists] answers false.
    [persist_read_string(key, buf, size)] fills a buffer of [size] bytes. *)
Definition load_settings (persist : Z -> option cstr) : M unit :=
  match persist PERSIST_KEY_TOKEN with
  | Some v => modify (set_s_token (snprintf 256 v))
  | None => skip
  end;;
  match persist PERSIST_KEY_USERNAME with
  | Some v => modify (set_s_username (snprintf 64 v))
  | None => skip
  end;;
  match persist PERSIST_KEY_APPLE_ID with
  | Some v => modify (set_s_apple_id (snprintf 64 v))
  | None => skip
  end;;
  match persist PERSIST_KEY_APPLE_PASSWORD with
  | Some v => modify (set_s_apple_password (snprintf 64 v))
  | None => skip
  end;;
  g ← get;
  modify (set_s_is_logged_in (nonempty (s_token g))).

Definition save_settings : M unit :=
  g ← get;
  call (persist_write_string PERSIST_KEY_TOKEN (s_token g));;
  call (persist_write_string PERSIST_KEY_USERNAME (s_username g));;
  call (persist_write_string PERSIST_KEY_APPLE_ID (s_apple_id g));;
  call (persist_write_string PERSIST_KEY_APPLE_PASSWORD (s_apple_password g)).

(** ** Request encoders (lines 257-300) *)

Definition app_message_outbox_begin : DictionaryIterator := [].

Definition send_login_request : M unit :=
  g ← get;
  let iter := app_message_outbox_begin in
  let iter := dict_write_int iter KEY_CMD CMD_LOGIN 4 true in
  let iter := dict_write_cstring iter KEY_USERNAME (s_username g) in
  let iter := dict_write_cstring iter KEY_APPLE_ID (s_apple_id g) in
  let iter := dict_write_cstring iter KEY_APPLE_PASSWORD (s_apple_password g) in
  call (app_message_outbox_send iter).

Definition send_get_lists_request : M unit :=
  g ← get;
  let iter := app_message_outbox_begin in
  let iter := dict_write_int iter KEY_CMD CMD_GET_LISTS 4 true in
  let iter := dict_write_cstring iter KEY_TOKEN (s_token g) in
  call (app_message_outbox_send iter).

Definition send_get_reminders_request (list_id : cstr) : M unit :=
  g ← get;
  let iter := app_message_outbox_begin in
  let iter := dict_write_int iter KEY_CMD CMD_GET_REMINDERS 4 true in
  let iter := dict_write_cstring iter KEY_TOKEN (s_token g) in
  let iter := dict_write_cstring iter KEY_LIST_ID list_id in
  call (app_message_outbox_send iter).

Definition send_complete_reminder_request (list_id reminder_id : cstr) : M unit :=
  g ← get;
  let iter := app_message_outbox_begin in
  let iter := dict_write_int iter KEY_CMD CMD_COMPLETE_REMINDER 4 true in
  let iter := dict_write_cstring iter KEY_TOKEN (s_token g) in
  let iter := dict_write_cstring iter KEY_LIST_ID list_id in
  let iter := dict_write_cstring iter KEY_REMINDER_ID reminder_id in
  call (app_message_outbox_send iter).

(** ** The inbound handler (lines 114-242) *)

(** [switch (cmd) { ... }], lines 147-209. *)
Definition inbox_received_switch (iterator : DictionaryIterator) (cmd status : Z) : M unit :=
  if cmd =? CMD_LOGIN then
    match dict_find iterator KEY_TOKEN with
    | Some token_tuple =>
        modify (set_s_token (snprintf 256 (value_cstring iterator token_tuple)));;
        modify (set_s_is_logged_in true);;
        save_settings;;
        g ← get;
        call (window_stack_remove (s_settings_window g));;
        send_get_lists_request
    | None => skip
    end
  else if cmd =? CMD_GET_LISTS then
    match dict_find iterator KEY_COUNT with
    | Some count_tuple =>
        modify (set_s_list_count (value_int32 iterator count_tuple));;
        g ← get;
        (if s_list_count g >? MAX_LISTS
         then modify (set_s_list_count MAX_LISTS) else skip);;
        call (menu_layer_reload_data s_menu_layer)
    | None => skip
    end
  else if cmd =? CMD_GET_REMINDERS then
    match dict_find iterator KEY_COUNT with
    | Some count_tuple =>
        modify (set_s_reminder_count (value_int32 iterator count_tuple));;
        g ← get;
        (if s_reminder_count g >? MAX_REMINDERS
         then modify (set_s_reminder_count MAX_REMINDERS) else skip);;
        match s_reminders_window g with
        | Some _ => call (menu_layer_reload_data s_reminders_menu_layer)
        | None => skip
        end
    | None => skip
    end
  else if cmd =? CMD_COMPLETE_REMINDER then
    if status =? STATUS_SUCCESS then
      g ← get;
      (if (s_current_reminder_index g >=? 0)
          && (s_current_reminder_index g <? s_reminder_count g)
       then s_reminders_store (s_current_reminder_index g) (Reminder.set_completed true)
       else skip);;
      call (window_stack_remove (s_detail_window g));;
      call (menu_layer_reload_data s_reminders_menu_layer)
    else skip
  else skip.

(** "Check for individual list/reminder data", lines 212-241. *)
Definition inbox_received_slot (iterator : DictionaryIterator) : M unit :=
  match dict_find iterator KEY_REMINDER_INDEX with
  | Some index_tuple =>
      let index := value_int32 iterator index_tuple in
      let list_id_tuple := dict_find iterator KEY_LIST_ID in
      let list_title_tuple := dict_find iterator KEY_LIST_TITLE in
      let reminder_id_tuple := dict_find iterator KEY_REMINDER_ID in
      let reminder_title_tuple := dict_find iterator KEY_REMINDER_TITLE in
      let completed_tuple := dict_find iterator KEY_REMINDER_COMPLETED in
      match list_id_tuple, list_title_tuple, index <? MAX_LISTS with
      | Some lid, Some ltitle, true =>
          s_lists_store index
            (ReminderList.set_id (snprintf 64 (value_cstring iterator lid)));;
          s_lists_store index
            (ReminderList.set_title (snprintf 64 (value_cstring iterator ltitle)));;
          call (menu_layer_reload_data s_menu_layer)
      | _, _, _ =>
          match reminder_id_tuple, reminder_title_tuple, index <? MAX_REMINDERS with
          | Some rid, Some rtitle, true =>
              s_reminders_store index
                (Reminder.set_id (snprintf 64 (value_cstring iterator rid)));;
              s_reminders_store index
                (Reminder.set_title (snprintf 128 (value_cstring iterator rtitle)));;
              match list_id_tuple with
              | Some lid =>
                  s_reminders_store index
                    (Reminder.set_list_id (snprintf 64 (value_cstring iterator lid)))
              | None => skip
              end;;
              s_reminders_store index
                (Reminder.set_completed
                   (match completed_tuple with
                    | Some c => negb (value_int32 iterator c =? 0)
                    | None => false
                    end));;
              g ← get;
              match s_reminders_window g with
              | Some _ => call (menu_layer_reload_data s_reminders_menu_layer)
              | None => skip
              end
          | _, _, _ => skip
          end
      end
  | None => skip
  end.

Definition inbox_received_callback (iterator : DictionaryIterator) : M unit :=
  match dict_find iterator KEY_CMD with
  | None => skip
  | Some cmd_tuple =>
      let cmd := value_int32 iterator cmd_tuple in
      let status_tuple := dict_find iterator KEY_STATUS in
      let status :=
        match status_tuple with
        | Some t => value_int32 iterator t
        | None => STATUS_ERROR
        end in
      if status =? STATUS_ERROR then
        let error_tuple := dict_find iterator KEY_ERROR in
        let error :=
          match error_tuple with
          | Some t => value_cstring iterator t
          | None => lit "Unknown error"
          end in
        call (app_log_error (lit "Error: %s") error);;
        call (error_window_push (snprintf 128 (lit "Error: " ++ error)))
      else
        inbox_received_switch iterator cmd status;;
        inbox_received_slot iterator
  end.

(** ** Hand-built inbound messages *)

Definition tuple_int (k v : Z) : Tuple := mkTuple k TUPLE_INT (le_bytes 4 v).
Definition tuple_cstring (k : Z) (s : cstr) : Tuple := mkTuple k TUPLE_CSTRING (s ++ [x00]).

Definition msg_login (token : cstr) : DictionaryIterator :=
  [tuple_int KEY_CMD CMD_LOGIN; tuple_int KEY_STATUS STATUS_SUCCESS;
   tuple_cstring KEY_TOKEN token].

Definition msg_login_empty_token : DictionaryIterator := msg_login [].

Definition msg_outcome (cmd status : Z) : DictionaryIterator :=
  [tuple_int KEY_CMD cmd; tuple_int KEY_STATUS status].

Definition msg_count (cmd status count : Z) : DictionaryIterator :=
  [tuple_int KEY_CMD cmd; tuple_int KEY_STATUS status; tuple_int KEY_COUNT count].

Definition msg_list_slot (cmd index : Z) (lid ltitle : cstr) : DictionaryIterator :=
  [tuple_int KEY_CMD cmd; tuple_int KEY_STATUS STATUS_SUCCESS;
   tuple_int KEY_REMINDER_INDEX index; tuple_cstring KEY_LIST_ID lid;
   tuple_cstring KEY_LIST_TITLE ltitle].

Definition msg_reminder_slot (cmd index : Z) (rid rtitle lid : cstr) : DictionaryIterator :=
  [tuple_int KEY_CMD cmd; tuple_int KEY_STATUS STATUS_SUCCESS;
   tuple_int KEY_REMINDER_INDEX index; tuple_cstring KEY_REMINDER_ID rid;
   tuple_cstring KEY_REMINDER_TITLE rtitle; tuple_cstring KEY_LIST_ID lid].

Definition msg_list_slot_without_cmd : DictionaryIterator :=
  [tuple_int KEY_REMINDER_INDEX 0; tuple_cstring KEY_LIST_ID (lit "L1");
   tuple_cstring KEY_LIST_TITLE (lit "Groceries")].

Definition msg_list_slot_without_status : DictionaryIterator :=
  [tuple_int KEY_REMINDER_INDEX 0; tuple_cstring KEY_LIST_ID (lit "L1");
   tuple_cstring KEY_LIST_TITLE (lit "Groceries"); tuple_int KEY_CMD CMD_GET_LISTS].

Definition msg_error_without_cmd : DictionaryIterator :=
  [tuple_int KEY_STATUS STATUS_ERROR; tuple_cstring KEY_ERROR (lit "Session expired")].

Definition msg_error_without_status : DictionaryIterator :=
  [tuple_int KEY_CMD CMD_GET_LISTS; tuple_cstring KEY_ERROR (lit "Session expired")].

Definition msg_error_with_list_slot : DictionaryIterator :=
  [tuple_int KEY_CMD CMD_GET_LISTS; tuple_int KEY_STATUS STATUS_ERROR;
   tuple_cstring KEY_ERROR (lit "Session expired");
   tuple_int KEY_REMINDER_INDEX 0; tuple_cstring KEY_LIST_ID (lit "L1");
   tuple_cstring KEY_LIST_TITLE (lit "Groceries")].

(** Two messages whose tuples are not what the handler takes them for: a
    command one byte wide, and a token with no terminator. *)
Definition msg_narrow_cmd : DictionaryIterator :=
  [mkTuple KEY_CMD TUPLE_UINT (le_bytes 1 CMD_GET_LISTS);
   tuple_int KEY_STATUS STATUS_SUCCESS; tuple_int KEY_COUNT 25].

Definition msg_unterminated_token : DictionaryIterator :=
  [tuple_int KEY_CMD CMD_LOGIN; tuple_int KEY_STATUS STATUS_SUCCESS;
   mkTuple KEY_TOKEN TUPLE_CSTRING (lit "abc"); tuple_int KEY_COUNT 0].

(** The message [m] with one more tuple, in front of the others, where it
    changes nothing of what is read through them. *)
Definition with_first_tuple (t : Tuple) (m : DictionaryIterator) : DictionaryIterator :=
  mkDictionaryIterator (t :: tuples m) (trailing m).

(** ** Well-formed globals

    What the C declarations force on the globals: each buffer holds a
    string shorter than the buffer, each table has its declared number of
    entries.  The two counts never exceed the capacities; this is kept by
    the clamps of the handler. *)

Definition fits (size : nat) (s : cstr) : Prop := (length s < size)%nat.

Definition wf_list (l : ReminderList.t) : Prop :=
  fits 64 (ReminderList.id l) /\ fits 64 (ReminderList.title l).

Definition wf_reminder (r : Reminder.t) : Prop :=
  fits 64 (Reminder.id r) /\ fits 128 (Reminder.title r) /\ fits 64 (Reminder.list_id r).

Record wf_globals (g : Globals) : Prop := mk_wf_globals {
  wf_s_token : fits 256 (s_token g);
  wf_s_username : fits 64 (s_username g);
  wf_s_apple_id : fits 64 (s_apple_id g);
  wf_s_apple_password : fits 64 (s_apple_password g);
  wf_s_lists_length : length (s_lists g) = Z.to_nat MAX_LISTS;
  wf_s_lists : Forall wf_list (s_lists g);
  wf_s_list_count : s_list_count g <= MAX_LISTS;
  wf_s_reminders_length : length (s_reminders g) = Z.to_nat MAX_REMINDERS;
  wf_s_reminders : Forall wf_reminder (s_reminders g);
  wf_s_reminder_count : s_reminder_count g <= MAX_REMINDERS
}.

(** [m] keeps the globals well formed whenever it ends. *)
Definition keeps_wf {A} (m : M A) : Prop :=
  forall g, wf_globals g ->
    match m g with Ok _ g' _ => wf_globals g' | Fault => True end.

(** ** Shapes of a slot message *)

(** The reminder branch is the [else] of the list branch: it is taken when
    the list id, the list title or the list bound is missing. *)
Definition not_a_list_slot (m : DictionaryIterator) (index : Z) : Prop :=
  dict_find m KEY_LIST_ID = None \/ dict_find m KEY_LIST_TITLE = None \/ MAX_LISTS <= index.

(** The flag stored by line 235. *)
Definition stored_completed (m : DictionaryIterator) : bool :=
  match field_int32 m KEY_REMINDER_COMPLETED with
  | Some c => negb (c =? 0)
  | None => false
  end.

(** The bound tests of lines 223 and 228 have no lower bound, and a
    negative index with a payload writes outside the table; the statements
    that are not about that write are made for the other messages. *)
Definition slot_index_not_negative (m : DictionaryIterator) : Prop :=
  forall index, field_int32 m KEY_REMINDER_INDEX = Some index -> 0 <= index.

(** [g'] is [g] with other tables. *)
Definition only_tables_differ (g g' : Globals) : Prop :=
  g' = set_s_reminders (s_reminders g') (set_s_lists (s_lists g') g).

(** ** The presentation callbacks (lines 302-467 and 492-518)

    The menu, window and click callbacks read the cache and call the SDK.
    Their calls are recorded in a wider trace, [UiCall], that holds the
    calls of the handler as well.  A [uint16_t] row is a [Z]; the rows
    given by the SDK are not negative.  The pointer that [window_create]
    returns is a parameter of the function that calls it.  Reading an
    array element outside its array is a [Fault], as writing one is. *)

Definition set_s_settings_window (v : option Window) (g : Globals) : Globals :=
  mkGlobals v (s_reminders_window g) (s_detail_window g)
    (s_token g) (s_lists g) (s_list_count g) (s_reminders g) (s_reminder_count g)
    (s_current_list_index g) (s_current_reminder_index g)
    (s_username g) (s_apple_id g) (s_apple_password g) (s_is_logged_in g).

Definition set_s_reminders_window (v : option Window) (g : Globals) : Globals :=
  mkGlobals (s_settings_window g) v (s_detail_window g)
    (s_token g) (s_lists g) (s_list_count g) (s_reminders g) (s_reminder_count g)
    (s_current_list_index g) (s_current_reminder_index g)
    (s_username g) (s_apple_id g) (s_apple_password g) (s_is_logged_in g).

Definition set_s_detail_window (v : option Window) (g : Globals) : Globals :=
  mkGlobals (s_settings_window g) (s_reminders_window g) v
    (s_token g) (s_lists g) (s_list_count g) (s_reminders g) (s_reminder_count g)
    (s_current_list_index g) (s_current_reminder_index g)
    (s_username g) (s_apple_id g) (s_apple_password g) (s_is_logged_in g).

Definition set_s_current_list_index (v : Z) (g : Globals) : Globals :=
  mkGlobals (s_settings_window g) (s_reminders_window g) (s_detail_window g)
    (s_token g) (s_lists g) (s_list_count g) (s_reminders g) (s_reminder_count g)
    v (s_current_reminder_index g)
    (s_username g) (s_apple_id g) (s_apple_password g) (s_is_logged_in g).

Definition set_s_current_reminder_index (v : Z) (g : Globals) : Globals :=
  mkGlobals (s_settings_window g) (s_reminders_window g) (s_detail_window g)
    (s_token g) (s_lists g) (s_list_count g) (s_reminders g) (s_reminder_count g)
    (s_current_list_index g) v
    (s_username g) (s_apple_id g) (s_apple_password g) (s_is_logged_in g).

(** [s_lists[index]] and [s_reminders[index]] read. *)
Definition s_lists_load (index : Z) : M ReminderList.t :=
  fun g =>
    if (0 <=? index) && (index <? MAX_LISTS)
    then match s_lists g !! Z.to_nat index with
         | Some l => Ok l g []
         | None => Fault
         end
    else Fault.

Definition s_reminders_load (index : Z) : M Reminder.t :=
  fun g =>
    if (0 <=? index) && (index <? MAX_REMINDERS)
    then match s_reminders g !! Z.to_nat index with
         | Some r => Ok r g []
         | None => Fault
         end
    else Fault.

Inductive TextLayer := s_settings_text_layer | s_detail_text_layer.

Inductive Handlers :=
  main_window_handlers | settings_window_handlers
| reminders_window_handlers | detail_window_handlers.

Inductive Callback :=
  inbox_received | inbox_dropped | outbox_failed | outbox_sent.

Inductive UiCall :=
| sdk (c : Call)
| window_set_window_handlers (w : option Window) (h : Handlers)
| window_stack_push (w : option Window)
| window_destroy (w : option Window)
| menu_layer_destroy (menu : Menu)
| text_layer_destroy (layer : TextLayer)
| text_layer_set_text (layer : TextLayer) (text : cstr)
| menu_cell_basic_draw (title : cstr) (subtitle : option cstr)
| menu_cell_basic_header_draw (title : cstr)
| app_message_register (cb : Callback)
| app_message_open (inbox outbox : Z).

Inductive UiRes (A : Type) :=
| UiOk (a : A) (g : Globals) (calls : list UiCall)
| UiFault.
Arguments UiOk {A} a g calls.
Arguments UiFault {A}.

Definition Ui (A : Type) : Type := Globals -> UiRes A.

#[global] Instance Ui_ret : MRet Ui := fun A a g => UiOk a g [].

#[global] Instance Ui_bind : MBind Ui := fun A B k m g =>
  match m g with
  | UiOk a g1 c1 =>
      match k a g1 with
      | UiOk b g2 c2 => UiOk b g2 (c1 ++ c2)
      | UiFault => UiFault
      end
  | UiFault => UiFault
  end.

Definition ui_get : Ui Globals := fun g => UiOk g g [].
Definition ui_modify (f : Globals -> Globals) : Ui unit := fun g => UiOk tt (f g) [].
Definition ui_call (c : UiCall) : Ui unit := fun g => UiOk tt g [c].
Definition ui_skip : Ui unit := mret tt.

(** A piece of the handler's kind run inside a callback. *)
Definition lift {A} (m : M A) : Ui A :=
  fun g =>
    match m g with
    | Ok a g' calls => UiOk a g' (sdk <$> calls)
    | Fault => UiFault
    end.

(** The result of a function that returns [uint16_t]. *)
Definition to_uint16 (z : Z) : Z := z mod 65536.

(** Lines 303-328: the lists menu. *)
Definition menu_get_num_sections_callback : Z := 1.

Definition menu_get_num_rows_callback (g : Globals) : Z := to_uint16 (s_list_count g).

Definition menu_draw_header_callback : Ui unit :=
  ui_call (menu_cell_basic_header_draw (lit "Reminder Lists")).

Definition menu_draw_row_callback (row : Z) : Ui unit :=
  l ← lift (s_lists_load row);
  ui_call (menu_cell_basic_draw (ReminderList.title l) None).

(** Lines 434-441. *)
Definition show_reminders_window (w : option Window) : Ui unit :=
  ui_modify (set_s_reminders_window w);;
  ui_call (window_set_window_handlers w reminders_window_handlers);;
  ui_call (window_stack_push w).

Definition menu_select_callback (row : Z) (w : option Window) : Ui unit :=
  ui_modify (set_s_current_list_index row);;
  show_reminders_window w;;
  g ← ui_get;
  l ← lift (s_lists_load (s_current_list_index g));
  lift (send_get_reminders_request (ReminderList.id l)).

(** Lines 331-350: the reminders menu. *)
Definition reminders_menu_get_num_rows_callback (g : Globals) : Z :=
  to_uint16 (s_reminder_count g).

Definition reminders_menu_draw_header_callback : Ui unit :=
  g ← ui_get;
  if (s_current_list_index g >=? 0) && (s_current_list_index g <? s_list_count g)
  then l ← lift (s_lists_load (s_current_list_index g));
       ui_call (menu_cell_basic_header_draw (ReminderList.title l))
  else ui_skip.

(** The bytes of the first subtitle are those of the source file. *)
Definition subtitle_complete : cstr :=
  [xc3; xa2; xc5; x93; xe2; x80; x9c] ++ lit " Complete".

Definition reminders_menu_draw_row_callback (row : Z) : Ui unit :=
  r ← lift (s_reminders_load row);
  let subtitle := if Reminder.completed r then subtitle_complete else lit "Incomplete" in
  r' ← lift (s_reminders_load row);
  ui_call (menu_cell_basic_draw (Reminder.title r') (Some subtitle)).

(** Lines 390-407. *)
Definition show_detail_window (reminder_index : Z) (w : option Window) : Ui unit :=
  ui_modify (set_s_detail_window w);;
  ui_call (window_set_window_handlers w detail_window_handlers);;
  g ← ui_get;
  (if (reminder_index >=? 0) && (reminder_index <? s_reminder_count g)
   then r ← lift (s_reminders_load reminder_index);
        ui_call (text_layer_set_text s_detail_text_layer
                   (snprintf 256
                      (Reminder.title r ++ [x0a; x0a] ++
                       (if Reminder.completed r
                        then lit "Status: Complete"
                        else lit "Status: Incomplete" ++ [x0a; x0a] ++
                             lit "Press SELECT to mark complete"))))
   else ui_skip);;
  ui_call (window_stack_push w).

Definition reminders_menu_select_callback (row : Z) (w : option Window) : Ui unit :=
  ui_modify (set_s_current_reminder_index row);;
  show_detail_window row w.

(** Lines 353-363: the select button of the detail window. *)
Definition action_bar_click_handler : M unit :=
  g ← get;
  if (s_current_reminder_index g >=? 0)
     && (s_current_reminder_index g <? s_reminder_count g)
  then r ← s_reminders_load (s_current_reminder_index g);
       if negb (Reminder.completed r)
       then r1 ← s_reminders_load (s_current_reminder_index g);
            r2 ← s_reminders_load (s_current_reminder_index g);
            send_complete_reminder_request (Reminder.list_id r1) (Reminder.id r2)
       else skip
  else skip.

(** Lines 428-432 and 454-458: the unload handlers, called by the SDK with
    the window that leaves the stack. *)
Definition reminders_window_unload (window : option Window) : Ui unit :=
  ui_call (menu_layer_destroy s_reminders_menu_layer);;
  ui_call (window_destroy window);;
  ui_modify (set_s_reminders_window None).

Definition settings_window_unload (window : option Window) : Ui unit :=
  ui_call (text_layer_destroy s_settings_text_layer);;
  ui_call (window_destroy window);;
  ui_modify (set_s_settings_window None).

(** Lines 460-467. *)
Definition show_settings_window (w : option Window) : Ui unit :=
  ui_modify (set_s_settings_window w);;
  ui_call (window_set_window_handlers w settings_window_handlers);;
  ui_call (window_stack_push w).

(** Lines 492-518.  [main_window] and [settings_window] are what the two
    calls of [window_create] return; the main window pointer is only handed
    back to the SDK. *)
Definition init (persist : Z -> option cstr) (main_window settings_window : option Window)
    : Ui unit :=
  lift (load_settings persist);;
  ui_call (app_message_register inbox_received);;
  ui_call (app_message_register inbox_dropped);;
  ui_call (app_message_register outbox_failed);;
  ui_call (app_message_register outbox_sent);;
  ui_call (app_message_open 512 512);;
  ui_call (window_set_window_handlers main_window main_window_handlers);;
  ui_call (window_stack_push main_window);;
  g ← ui_get;
  if s_is_logged_in g
  then lift send_get_lists_request
  else show_settings_window settings_window.

(** ** Persistent storage

    The storage that [load_settings] reads, after the calls of
    [persist_write_string] in a trace: each write replaces the string
    kept under its key.  The strings of well-formed globals fit a stored
    value (256 bytes with the terminator). *)

Definition persist_write (k : Z) (v : cstr) (persist : Z -> option cstr)
    : Z -> option cstr :=
  fun k' => if k' =? k then Some v else persist k'.

Fixpoint persist_after (calls : list Call) (persist : Z -> option cstr)
    : Z -> option cstr :=
  match calls with
  | [] => persist
  | persist_write_string k v :: rest => persist_after rest (persist_write k v persist)
  | _ :: rest => persist_after rest persist
  end.

(** ** What the handler leaves alone *)

Definition same_credentials_and_cursors (g g' : Globals) : Prop :=
  s_username g' = s_username g /\
  s_apple_id g' = s_apple_id g /\
  s_apple_password g' = s_apple_password g /\
  s_current_list_index g' = s_current_list_index g /\
  s_current_reminder_index g' = s_current_reminder_index g /\
  s_settings_window g' = s_settings_window g /\
  s_reminders_window g' = s_reminders_window g /\
  s_detail_window g' = s_detail_window g.

Definition nul_free (s : cstr) : Prop := Forall (fun b => b <> x00) s.

(** * Properties *)

(** ** The dictionary codec *)

Lemma c_string_terminated (s : cstr) (rest : list byte) :
  Forall (fun b => b <> x00) s -> c_string (s ++ x00 :: rest) = s.
Proof.
  induction 1 as [|b s Hb _ IH]; simpl; [reflexivity|].
  destruct (Byte.eqb b x00) eqn:E.
  - apply Byte.byte_dec_bl in E. contradiction.
  - now rewrite IH.
Qed.

Lemma c_string_no_nul (bs : list byte) : Forall (fun b => b <> x00) (c_string bs).
Proof.
  induction bs as [|b bs IH]; simpl; [constructor|].
  destruct (Byte.eqb b x00) eqn:E; constructor; [|exact IH].
  intros ->. discriminate E.
Qed.

Lemma le_value_bound (bs : list byte) : 0 <= le_value bs < 256 ^ Z.of_nat (length bs).
Proof.
  induction bs as [|b bs IH]; [simpl; lia|].
  cbn [le_value length]. rewrite Nat2Z.inj_succ, Z.pow_succ_r by lia.
  pose proof (Byte.to_N_bounded b).
  lia.
Qed.

(** Whatever the memory holds, the integer read through a tuple is a
    32-bit signed integer. *)
Lemma value_int32_range (m : DictionaryIterator) (t : Tuple) :
  - 2 ^ 31 <= value_int32 m t < 2 ^ 31.
Proof.
  unfold value_int32.
  pose proof (le_value_bound (take 4 (value m t))) as H.
  assert (length (take 4 (value m t)) <= 4)%nat by (rewrite length_take; lia).
  assert (256 ^ Z.of_nat (length (take 4 (value m t))) <= 256 ^ 4)
    by (apply Z.pow_le_mono_r; lia).
  destruct (Z.ltb_spec (le_value (take 4 (value m t))) (2 ^ 31)); lia.
Qed.

Lemma find_tuple_key (ts : list Tuple) (k : Z) (t : Tuple) :
  find_tuple ts k = Some t -> key t = k.
Proof.
  induction ts as [|u ts IH]; simpl; [discriminate|].
  destruct (Z.eqb_spec (key u) k); [|exact IH].
  now intros [= <-].
Qed.

Lemma dict_find_key (m : DictionaryIterator) (k : Z) (t : Tuple) :
  dict_find m k = Some t -> key t = k.
Proof. apply find_tuple_key. Qed.

(** ** Tuples of the width and the form that is read

    A read stays inside the payload of the tuple when an integer tuple is
    at least four bytes wide and when a string tuple holds a zero byte:
    then the value read depends on the tuple alone. *)

Lemma memory_from_found (ts : list Tuple) (after : list byte) (k : Z) (t : Tuple) :
  find_tuple ts k = Some t ->
  exists rest, memory_from ts after k = data t ++ rest.
Proof.
  induction ts as [|u ts IH]; simpl; [discriminate|].
  destruct (key u =? k); [|exact IH].
  intros [= <-]. eauto.
Qed.

Lemma value_found (m : DictionaryIterator) (k : Z) (t : Tuple) :
  dict_find m k = Some t -> exists rest, value m t = data t ++ rest.
Proof.
  intros H. unfold value. rewrite (dict_find_key m k t H).
  now apply memory_from_found.
Qed.

Lemma c_string_inside (bs rest : list byte) :
  In x00 bs -> c_string (bs ++ rest) = c_string bs.
Proof.
  induction bs as [|b bs IH]; simpl; [tauto|].
  intros [->|Hin]; [reflexivity|].
  destruct (Byte.eqb b x00); [reflexivity|]. now rewrite IH.
Qed.

Lemma field_int32_inside (m : DictionaryIterator) (k : Z) (t : Tuple) :
  dict_find m k = Some t ->
  (4 <= length (data t))%nat ->
  field_int32 m k =
    Some (let u := le_value (take 4 (data t)) in if u <? 2 ^ 31 then u else u - 2 ^ 32).
Proof.
  intros H Hlen. unfold field_int32. rewrite H. cbn [fmap option_fmap option_map].
  unfold value_int32. destruct (value_found m k t H) as [rest ->].
  now rewrite take_app_le.
Qed.

Lemma field_cstring_inside (m : DictionaryIterator) (k : Z) (t : Tuple) :
  dict_find m k = Some t ->
  In x00 (data t) ->
  field_cstring m k = Some (c_string (data t)).
Proof.
  intros H Hin. unfold field_cstring. rewrite H. cbn [fmap option_fmap option_map].
  unfold value_cstring. destruct (value_found m k t H) as [rest ->].
  now rewrite c_string_inside.
Qed.

(** ** Reading the fields of a dictionary given tuple by tuple *)

Lemma byte_of_Z_value (z : Z) : Z.of_N (Byte.to_N (byte_of_Z z)) = z mod 256.
Proof.
  unfold byte_of_Z.
  assert (Hr : 0 <= z mod 256 < 256) by (apply Z.mod_pos_bound; lia).
  destruct (Byte.of_N (Z.to_N (z mod 256))) as [b|] eqn:E.
  - apply Byte.to_of_N in E. rewrite E. lia.
  - apply Byte.of_N_None_iff in E. lia.
Qed.

Lemma le_value_le_bytes (width : nat) (z : Z) :
  le_value (le_bytes width z) = z mod 256 ^ Z.of_nat width.
Proof.
  revert z. induction width as [|w IH]; intros z.
  - simpl. now rewrite Z.mod_1_r.
  - cbn [le_bytes le_value]. rewrite byte_of_Z_value, IH.
    rewrite Nat2Z.inj_succ, Z.pow_succ_r by lia.
    rewrite (Z.rem_mul_r z 256 (256 ^ Z.of_nat w)) by lia. reflexivity.
Qed.

(** Four bytes written for a 32-bit integer read back as that integer,
    whatever follows them. *)
Lemma int32_read_back (v : Z) (rest : list byte) :
  - 2 ^ 31 <= v < 2 ^ 31 ->
  (let u := le_value (take 4 (le_bytes 4 v ++ rest)) in
   if u <? 2 ^ 31 then u else u - 2 ^ 32) = v.
Proof.
  intros Hv. cbv zeta.
  change (take 4 (le_bytes 4 v ++ rest)) with (le_bytes 4 v).
  rewrite le_value_le_bytes. change (256 ^ Z.of_nat 4) with (2 ^ 32).
  destruct (Z_lt_le_dec v 0) as [Hneg|Hpos].
  - replace (v mod 2 ^ 32) with (v + 2 ^ 32)
      by (apply Z.mod_unique with (q := -1); lia).
    destruct (Z.ltb_spec (v + 2 ^ 32) (2 ^ 31)); lia.
  - rewrite Z.mod_small by lia.
    destruct (Z.ltb_spec v (2 ^ 31)); lia.
Qed.

Lemma dict_find_other (ts : list Tuple) (after : list byte) (t : Tuple) (k : Z) :
  key t <> k ->
  dict_find (mkDictionaryIterator (t :: ts) after) k
    = dict_find (mkDictionaryIterator ts after) k.
Proof. intros H. unfold dict_find. simpl. now destruct (Z.eqb_spec (key t) k). Qed.

(** A tuple in front of the one that is read does not change what is
    read. *)
Lemma field_int32_other (ts : list Tuple) (after : list byte) (t : Tuple) (k : Z) :
  key t <> k ->
  field_int32 (mkDictionaryIterator (t :: ts) after) k
    = field_int32 (mkDictionaryIterator ts after) k.
Proof.
  intros H. unfold field_int32. rewrite (dict_find_other ts after t k H).
  destruct (dict_find _ k) as [u|] eqn:E; [|reflexivity].
  apply dict_find_key in E. cbn [fmap option_fmap option_map]. f_equal.
  unfold value_int32, value. cbn [tuples trailing memory_from]. rewrite E.
  now destruct (Z.eqb_spec (key t) k).
Qed.

Lemma field_cstring_other (ts : list Tuple) (after : list byte) (t : Tuple) (k : Z) :
  key t <> k ->
  field_cstring (mkDictionaryIterator (t :: ts) after) k
    = field_cstring (mkDictionaryIterator ts after) k.
Proof.
  intros H. unfold field_cstring. rewrite (dict_find_other ts after t k H).
  destruct (dict_find _ k) as [u|] eqn:E; [|reflexivity].
  apply dict_find_key in E. cbn [fmap option_fmap option_map]. f_equal.
  unfold value_cstring, value. cbn [tuples trailing memory_from]. rewrite E.
  now destruct (Z.eqb_spec (key t) k).
Qed.

(** A four-byte integer tuple and a terminated string tuple read as what
    was put in them, whatever follows them in the dictionary. *)
Lemma field_int32_tuple_int (ts : list Tuple) (after : list byte) (k v : Z) :
  - 2 ^ 31 <= v < 2 ^ 31 ->
  field_int32 (mkDictionaryIterator (tuple_int k v :: ts) after) k = Some v.
Proof.
  intros Hv. unfold field_int32, dict_find, value_int32, value.
  cbn [tuples trailing find_tuple memory_from key tuple_int data].
  rewrite Z.eqb_refl. cbn [fmap option_fmap option_map memory_from key data].
  rewrite Z.eqb_refl. f_equal. exact (int32_read_back v _ Hv).
Qed.

Lemma field_cstring_tuple_cstring (ts : list Tuple) (after : list byte) (k : Z) (s : cstr) :
  Forall (fun b => b <> x00) s ->
  field_cstring (mkDictionaryIterator (tuple_cstring k s :: ts) after) k = Some s.
Proof.
  intros Hs. unfold field_cstring, dict_find, value_cstring, value.
  cbn [tuples trailing find_tuple memory_from key tuple_cstring data].
  rewrite Z.eqb_refl. cbn [fmap option_fmap option_map memory_from key data].
  rewrite Z.eqb_refl. f_equal. rewrite <- !app_assoc. now apply c_string_terminated.
Qed.

(** Reads a field of a dictionary whose tuples are listed. *)
Ltac other_key :=
  let H := fresh in intros H; vm_compute in H; discriminate H.

Ltac read_field :=
  cbv [dictionary_of app_message_outbox_begin dict_write_int dict_write_cstring
       dict_write_tuple tuples trailing app];
  fold tuple_int; fold tuple_cstring;
  rewrite ?field_int32_other, ?field_cstring_other by other_key;
  first [ apply field_int32_tuple_int; vm_compute; split; congruence
        | apply field_cstring_tuple_cstring; assumption ].

(** ** Well-formed globals *)

Lemma snprintf_fits (size : nat) (s : cstr) : (0 < size)%nat -> fits size (snprintf size s).
Proof. intros H. unfold fits, snprintf. rewrite length_take. lia. Qed.

Lemma snprintf_short (size : nat) (s : cstr) : fits size s -> snprintf size s = s.
Proof. intros H. unfold fits in H. unfold snprintf. apply take_ge. lia. Qed.

Lemma initial_globals_wf : wf_globals initial_globals.
Proof.
  split; unfold initial_globals; cbn [s_token s_username s_apple_id s_apple_password
    s_lists s_list_count s_reminders s_reminder_count].
  1-4: unfold fits; simpl; lia.
  - now rewrite length_replicate.
  - apply Forall_replicate. split; unfold fits; simpl; lia.
  - unfold MAX_LISTS; lia.
  - now rewrite length_replicate.
  - apply Forall_replicate. repeat split; unfold fits; simpl; lia.
  - unfold MAX_REMINDERS; lia.
Qed.

(** ** The handler keeps the globals well formed *)

Lemma keeps_wf_bind {A B} (m : M A) (k : A -> M B) :
  keeps_wf m -> (forall a, keeps_wf (k a)) -> keeps_wf (m ≫= k).
Proof.
  intros Hm Hk g Hg. unfold mbind, M_bind.
  specialize (Hm g Hg). destruct (m g) as [a g1 c1|]; [|exact I].
  specialize (Hk a g1 Hm). now destruct (k a g1).
Qed.

Lemma keeps_wf_skip : keeps_wf skip.
Proof. intros g Hg. exact Hg. Qed.

Lemma keeps_wf_call (c : Call) : keeps_wf (call c).
Proof. intros g Hg. exact Hg. Qed.

Lemma keeps_wf_get_bind {B} (k : Globals -> M B) :
  (forall g0, keeps_wf (k g0)) -> keeps_wf (get ≫= k).
Proof. intros Hk. apply keeps_wf_bind; [|exact Hk]. intros g Hg. exact Hg. Qed.

Lemma keeps_wf_modify (f : Globals -> Globals) :
  (forall g, wf_globals g -> wf_globals (f g)) -> keeps_wf (modify f).
Proof. intros Hf g Hg. now apply Hf. Qed.

Lemma keeps_wf_s_lists_store (index : Z) (f : ReminderList.t -> ReminderList.t) :
  (forall l, wf_list l -> wf_list (f l)) -> keeps_wf (s_lists_store index f).
Proof.
  intros Hf g Hg. unfold s_lists_store.
  destruct ((0 <=? index) && (index <? MAX_LISTS)); [|exact I].
  destruct Hg. split; simpl; try assumption.
  - now rewrite length_alter.
  - apply Forall_alter; [assumption|]. intros l _ Hl. now apply Hf.
Qed.

Lemma keeps_wf_s_reminders_store (index : Z) (f : Reminder.t -> Reminder.t) :
  (forall r, wf_reminder r -> wf_reminder (f r)) -> keeps_wf (s_reminders_store index f).
Proof.
  intros Hf g Hg. unfold s_reminders_store.
  destruct ((0 <=? index) && (index <? MAX_REMINDERS)); [|exact I].
  destruct Hg. split; simpl; try assumption.
  - now rewrite length_alter.
  - apply Forall_alter; [assumption|]. intros r _ Hr. now apply Hf.
Qed.

Lemma wf_set_s_token (v : cstr) (g : Globals) :
  fits 256 v -> wf_globals g -> wf_globals (set_s_token v g).
Proof. intros Hv []. now split. Qed.

Lemma wf_set_s_username (v : cstr) (g : Globals) :
  fits 64 v -> wf_globals g -> wf_globals (set_s_username v g).
Proof. intros Hv []. now split. Qed.

Lemma wf_set_s_apple_id (v : cstr) (g : Globals) :
  fits 64 v -> wf_globals g -> wf_globals (set_s_apple_id v g).
Proof. intros Hv []. now split. Qed.

Lemma wf_set_s_apple_password (v : cstr) (g : Globals) :
  fits 64 v -> wf_globals g -> wf_globals (set_s_apple_password v g).
Proof. intros Hv []. now split. Qed.

Lemma wf_set_s_is_logged_in (v : bool) (g : Globals) :
  wf_globals g -> wf_globals (set_s_is_logged_in v g).
Proof. intros []. now split. Qed.

Lemma wf_set_s_list_count (v : Z) (g : Globals) :
  v <= MAX_LISTS -> wf_globals g -> wf_globals (set_s_list_count v g).
Proof. intros Hv []. now split. Qed.

Lemma wf_set_s_reminder_count (v : Z) (g : Globals) :
  v <= MAX_REMINDERS -> wf_globals g -> wf_globals (set_s_reminder_count v g).
Proof. intros Hv []. now split. Qed.

Create HintDb wf.

#[local] Hint Resolve keeps_wf_skip keeps_wf_call keeps_wf_modify
  keeps_wf_s_lists_store keeps_wf_s_reminders_store
  wf_set_s_token wf_set_s_username wf_set_s_apple_id wf_set_s_apple_password
  wf_set_s_is_logged_in wf_set_s_list_count wf_set_s_reminder_count
  snprintf_fits : wf.

Ltac keeps_wf_step :=
  first [ apply keeps_wf_get_bind; intros ?
        | apply keeps_wf_bind; [|intros ?]
        | progress eauto with wf lia ].

Lemma save_settings_keeps_wf : keeps_wf save_settings.
Proof. unfold save_settings. repeat keeps_wf_step. Qed.

Lemma send_get_lists_request_keeps_wf : keeps_wf send_get_lists_request.
Proof. unfold send_get_lists_request. repeat keeps_wf_step. Qed.

Lemma load_settings_keeps_wf (persist : Z -> option cstr) :
  keeps_wf (load_settings persist).
Proof.
  unfold load_settings.
  repeat first [ keeps_wf_step | case_match ];
    apply keeps_wf_modify; intros; eauto with wf lia.
Qed.

Lemma wf_reminder_set_completed (v : bool) (r : Reminder.t) :
  wf_reminder r -> wf_reminder (Reminder.set_completed v r).
Proof. now intros (? & ? & ?). Qed.

Lemma wf_reminder_set_id (v : cstr) (r : Reminder.t) :
  fits 64 v -> wf_reminder r -> wf_reminder (Reminder.set_id v r).
Proof. now intros ? (? & ? & ?). Qed.

Lemma wf_reminder_set_title (v : cstr) (r : Reminder.t) :
  fits 128 v -> wf_reminder r -> wf_reminder (Reminder.set_title v r).
Proof. now intros ? (? & ? & ?). Qed.

Lemma wf_reminder_set_list_id (v : cstr) (r : Reminder.t) :
  fits 64 v -> wf_reminder r -> wf_reminder (Reminder.set_list_id v r).
Proof. now intros ? (? & ? & ?). Qed.

Lemma wf_list_set_id (v : cstr) (l : ReminderList.t) :
  fits 64 v -> wf_list l -> wf_list (ReminderList.set_id v l).
Proof. now intros ? (? & ?). Qed.

Lemma wf_list_set_title (v : cstr) (l : ReminderList.t) :
  fits 64 v -> wf_list l -> wf_list (ReminderList.set_title v l).
Proof. now intros ? (? & ?). Qed.

#[local] Hint Resolve wf_reminder_set_completed wf_reminder_set_id
  wf_reminder_set_title wf_reminder_set_list_id wf_list_set_id wf_list_set_title
  save_settings_keeps_wf send_get_lists_request_keeps_wf : wf.

(** The clamp of a received count: the count is stored first and cut down
    to the capacity after, so the state in between is not well formed; the
    block as a whole keeps the invariant. *)
Lemma clamp_list_count_keeps_wf (v : Z) (k : M unit) :
  keeps_wf k ->
  keeps_wf (modify (set_s_list_count v);;
            g ← get;
            (if s_list_count g >? MAX_LISTS
             then modify (set_s_list_count MAX_LISTS) else skip);;
            k).
Proof.
  intros Hk g Hg.
  cbv [mbind M_bind mret M_ret get modify skip]. cbn [s_list_count set_s_list_count].
  destruct (Z.gtb_spec v MAX_LISTS) as [Hv|Hv].
  - specialize (Hk (set_s_list_count MAX_LISTS (set_s_list_count v g))).
    destruct (k _); [|exact I]. apply Hk. destruct Hg; split; simpl; auto; lia.
  - specialize (Hk (set_s_list_count v g)).
    destruct (k _); [|exact I]. apply Hk. destruct Hg; split; simpl; auto; lia.
Qed.

Lemma clamp_reminder_count_keeps_wf (v : Z) (k : Globals -> M unit) :
  (forall g0, keeps_wf (k g0)) ->
  keeps_wf (modify (set_s_reminder_count v);;
            g ← get;
            (if s_reminder_count g >? MAX_REMINDERS
             then modify (set_s_reminder_count MAX_REMINDERS) else skip);;
            k g).
Proof.
  intros Hk g Hg.
  cbv [mbind M_bind mret M_ret get modify skip].
  cbn [s_reminder_count set_s_reminder_count].
  destruct (Z.gtb_spec v MAX_REMINDERS) as [Hv|Hv].
  - specialize (Hk (set_s_reminder_count v g)
                   (set_s_reminder_count MAX_REMINDERS (set_s_reminder_count v g))).
    destruct (k _ _); [|exact I]. apply Hk. destruct Hg; split; simpl; auto; lia.
  - specialize (Hk (set_s_reminder_count v g) (set_s_reminder_count v g)).
    destruct (k _ _); [|exact I]. apply Hk. destruct Hg; split; simpl; auto; lia.
Qed.

Lemma inbox_received_switch_keeps_wf (m : DictionaryIterator) (cmd status : Z) :
  keeps_wf (inbox_received_switch m cmd status).
Proof.
  unfold inbox_received_switch.
  destruct (cmd =? CMD_LOGIN).
  { case_match; repeat keeps_wf_step.
    all: apply keeps_wf_modify; intros; eauto with wf lia. }
  destruct (cmd =? CMD_GET_LISTS).
  { case_match; [|apply keeps_wf_skip].
    apply clamp_list_count_keeps_wf. apply keeps_wf_call. }
  destruct (cmd =? CMD_GET_REMINDERS).
  { case_match; [|apply keeps_wf_skip].
    apply (clamp_reminder_count_keeps_wf _
             (fun g => match s_reminders_window g with
                       | Some _ => call (menu_layer_reload_data s_reminders_menu_layer)
                       | None => skip
                       end)).
    intros g0. case_match; auto with wf. }
  destruct (cmd =? CMD_COMPLETE_REMINDER); [|apply keeps_wf_skip].
  destruct (status =? STATUS_SUCCESS); [|apply keeps_wf_skip].
  apply keeps_wf_get_bind; intros g0.
  repeat (apply keeps_wf_bind; [|intros ?]); auto with wf.
  case_match; auto with wf.
Qed.

Lemma inbox_received_slot_keeps_wf (m : DictionaryIterator) :
  keeps_wf (inbox_received_slot m).
Proof.
  unfold inbox_received_slot.
  repeat first [ case_match | keeps_wf_step ].
  all: first [ apply keeps_wf_s_lists_store | apply keeps_wf_s_reminders_store ];
    intros; eauto with wf lia.
Qed.

(** Every run of the handler that ends leaves well-formed globals. *)
Theorem inbox_received_callback_keeps_wf (m : DictionaryIterator) :
  keeps_wf (inbox_received_callback m).
Proof.
  unfold inbox_received_callback.
  case_match; [|apply keeps_wf_skip].
  case_match; repeat keeps_wf_step.
  - apply inbox_received_switch_keeps_wf.
  - apply inbox_received_slot_keeps_wf.
Qed.

(** ** Running the handler *)

Lemma in_bounds_true (i cap : Z) : 0 <= i < cap -> (0 <=? i) && (i <? cap) = true.
Proof. intros H. apply andb_true_intro. split; [apply Z.leb_le | apply Z.ltb_lt]; lia. Qed.

Ltac run :=
  cbv [mbind M_bind mret M_ret get modify call skip save_settings
       send_get_lists_request app_message_outbox_begin].

Lemma field_int32_Some (m : DictionaryIterator) (k v : Z) :
  field_int32 m k = Some v <-> exists t, dict_find m k = Some t /\ value_int32 m t = v.
Proof.
  unfold field_int32. destruct (dict_find m k) as [t|]; simpl; split.
  - intros [= <-]. now exists t.
  - now intros (? & [= <-] & <-).
  - discriminate.
  - now intros (? & [=] & _).
Qed.

Lemma field_cstring_Some (m : DictionaryIterator) (k : Z) (s : cstr) :
  field_cstring m k = Some s <-> exists t, dict_find m k = Some t /\ value_cstring m t = s.
Proof.
  unfold field_cstring. destruct (dict_find m k) as [t|]; simpl; split.
  - intros [= <-]. now exists t.
  - now intros (? & [= <-] & <-).
  - discriminate.
  - now intros (? & [=] & _).
Qed.

(** Lines 124-145: the error branch, entered when [status] is
    [STATUS_ERROR], read from the message or defaulted. *)
Lemma inbox_received_callback_error (m : DictionaryIterator) (g : Globals) :
  is_Some (dict_find m KEY_CMD) ->
  default STATUS_ERROR (field_int32 m KEY_STATUS) = STATUS_ERROR ->
  inbox_received_callback m g =
    Ok tt g
      [app_log_error (lit "Error: %s")
         (default (lit "Unknown error") (field_cstring m KEY_ERROR));
       error_window_push
         (snprintf 128
            (lit "Error: " ++ default (lit "Unknown error") (field_cstring m KEY_ERROR)))].
Proof.
  intros [ct Hc] Hs. unfold inbox_received_callback. rewrite Hc.
  unfold field_int32, field_cstring in *.
  destruct (dict_find m KEY_STATUS) as [st|]; simpl in Hs; [rewrite Hs|];
    destruct (dict_find m KEY_ERROR); reflexivity.
Qed.

(** Past the error branch the handler is the [switch] followed by the
    slot block. *)
Lemma inbox_received_callback_success (m : DictionaryIterator) (cmd status : Z) :
  field_int32 m KEY_CMD = Some cmd ->
  field_int32 m KEY_STATUS = Some status ->
  status <> STATUS_ERROR ->
  inbox_received_callback m =
    (inbox_received_switch m cmd status;; inbox_received_slot m).
Proof.
  intros (ct & Hc & <-)%field_int32_Some (st & Hs & <-)%field_int32_Some Hne.
  unfold inbox_received_callback. rewrite Hc, Hs.
  now destruct (Z.eqb_spec (value_int32 m st) STATUS_ERROR).
Qed.

Lemma inbox_received_slot_absent (m : DictionaryIterator) (g : Globals) :
  dict_find m KEY_REMINDER_INDEX = None -> inbox_received_slot m g = Ok tt g [].
Proof. intros H. unfold inbox_received_slot. now rewrite H. Qed.

Lemma inbox_received_slot_list (m : DictionaryIterator) (g : Globals)
    (index : Z) (lid ltitle : cstr) :
  field_int32 m KEY_REMINDER_INDEX = Some index ->
  field_cstring m KEY_LIST_ID = Some lid ->
  field_cstring m KEY_LIST_TITLE = Some ltitle ->
  0 <= index < MAX_LISTS ->
  inbox_received_slot m g =
    Ok tt (set_s_lists
             (alter (ReminderList.set_title (snprintf 64 ltitle)) (Z.to_nat index)
                (alter (ReminderList.set_id (snprintf 64 lid)) (Z.to_nat index)
                   (s_lists g))) g)
      [menu_layer_reload_data s_menu_layer].
Proof.
  intros (it & Hi & <-)%field_int32_Some (lt & Hl & <-)%field_cstring_Some
         (tt' & Ht & <-)%field_cstring_Some Hb.
  unfold inbox_received_slot. rewrite Hi, Hl, Ht.
  destruct (Z.ltb_spec (value_int32 m it) MAX_LISTS); [|lia].
  run. unfold s_lists_store. rewrite (in_bounds_true _ _ Hb). reflexivity.
Qed.

Lemma inbox_received_slot_reminder (m : DictionaryIterator) (g : Globals)
    (index : Z) (rid rtitle : cstr) :
  field_int32 m KEY_REMINDER_INDEX = Some index ->
  field_cstring m KEY_REMINDER_ID = Some rid ->
  field_cstring m KEY_REMINDER_TITLE = Some rtitle ->
  not_a_list_slot m index ->
  0 <= index < MAX_REMINDERS ->
  inbox_received_slot m g =
    Ok tt (set_s_reminders
             (alter (fun r =>
                       Reminder.mk (snprintf 64 rid) (snprintf 128 rtitle)
                         (match field_cstring m KEY_LIST_ID with
                          | Some lid => snprintf 64 lid
                          | None => Reminder.list_id r
                          end)
                         (stored_completed m))
                (Z.to_nat index) (s_reminders g)) g)
      (match s_reminders_window g with
       | Some _ => [menu_layer_reload_data s_reminders_menu_layer]
       | None => []
       end).
Proof.
  intros (it & Hi & <-)%field_int32_Some (rt & Hr & <-)%field_cstring_Some
         (tt' & Ht & <-)%field_cstring_Some Hnl Hb.
  unfold inbox_received_slot, stored_completed, field_int32, field_cstring.
  rewrite Hi, Hr, Ht.
  destruct (Z.ltb_spec (value_int32 m it) MAX_REMINDERS); [|lia].
  assert (Hstore : forall f g0,
    s_reminders_store (value_int32 m it) f g0 =
    Ok tt (set_s_reminders (alter f (Z.to_nat (value_int32 m it)) (s_reminders g0)) g0) []).
  { intros f g0. unfold s_reminders_store. now rewrite (in_bounds_true _ _ Hb). }
  destruct (dict_find m KEY_LIST_ID) as [lt|] eqn:Hl;
    destruct (dict_find m KEY_LIST_TITLE) as [ltt|] eqn:Hlt;
    destruct (Z.ltb_spec (value_int32 m it) MAX_LISTS);
    try (exfalso; destruct Hnl as [?|[?|?]]; (congruence || lia));
    run; rewrite !Hstore;
    cbn [s_reminders set_s_reminders s_reminders_window fmap option_fmap option_map];
    rewrite ?list_alter_alter_eq;
    destruct (s_reminders_window g); destruct (dict_find m KEY_REMINDER_COMPLETED);
    rewrite ?Hstore; reflexivity.
Qed.

(** The [switch] never touches the lists table, and of the reminders table
    only a [completed] flag; run from well-formed globals it does not
    fault, whatever the command and the status are. *)
Lemma inbox_received_switch_tables (m : DictionaryIterator) (cmd status : Z) (g : Globals) :
  wf_globals g ->
  exists g1 c1,
    inbox_received_switch m cmd status g = Ok tt g1 c1 /\
    s_lists g1 = s_lists g /\
    s_reminders_window g1 = s_reminders_window g /\
    length (s_reminders g1) = length (s_reminders g) /\
    forall i, Reminder.list_id <$> s_reminders g1 !! i
              = Reminder.list_id <$> s_reminders g !! i.
Proof.
  intros Hg. unfold inbox_received_switch.
  assert (Hsame : forall g1 c1,
    s_lists g1 = s_lists g -> s_reminders_window g1 = s_reminders_window g ->
    s_reminders g1 = s_reminders g ->
    exists g2 c2, Ok tt g1 c1 = Ok tt g2 c2 /\
      s_lists g2 = s_lists g /\ s_reminders_window g2 = s_reminders_window g /\
      length (s_reminders g2) = length (s_reminders g) /\
      forall i, Reminder.list_id <$> s_reminders g2 !! i
                = Reminder.list_id <$> s_reminders g !! i).
  { intros g1 c1 H1 H2 H3. exists g1, c1. rewrite H3. auto. }
  destruct (cmd =? CMD_LOGIN).
  { destruct (dict_find m KEY_TOKEN); run; apply Hsame; reflexivity. }
  destruct (cmd =? CMD_GET_LISTS).
  { destruct (dict_find m KEY_COUNT); run; [|apply Hsame; reflexivity].
    cbn [s_list_count set_s_list_count].
    destruct (_ >? MAX_LISTS); apply Hsame; reflexivity. }
  destruct (cmd =? CMD_GET_REMINDERS).
  { destruct (dict_find m KEY_COUNT); run; [|apply Hsame; reflexivity].
    cbn [s_reminder_count set_s_reminder_count s_reminders_window].
    destruct (_ >? MAX_REMINDERS); cbn [s_reminders_window set_s_reminder_count];
      destruct (s_reminders_window g) eqn:Hw; apply Hsame;
      first [reflexivity | exact Hw]. }
  destruct (cmd =? CMD_COMPLETE_REMINDER); [|run; apply Hsame; reflexivity].
  destruct (status =? STATUS_SUCCESS); [|run; apply Hsame; reflexivity].
  run.
  destruct (Z.geb_spec (s_current_reminder_index g) 0) as [H0|H0];
    destruct (Z.ltb_spec (s_current_reminder_index g) (s_reminder_count g)) as [H1|H1];
    cbn [andb]; try (apply Hsame; reflexivity).
  unfold s_reminders_store. rewrite in_bounds_true
    by (pose proof (wf_s_reminder_count g Hg); lia).
  do 2 eexists. split; [reflexivity|].
  cbn [s_lists s_reminders s_reminders_window set_s_reminders].
  repeat split.
  - apply length_alter.
  - intros i. destruct (decide (Z.to_nat (s_current_reminder_index g) = i)) as [<-|Hne].
    + rewrite list_lookup_alter_eq. now destruct (_ !! _).
    + now rewrite list_lookup_alter_ne.
Qed.

(** ** The slot block on its own *)

Lemma only_tables_differ_refl (g : Globals) : only_tables_differ g g.
Proof. now destruct g. Qed.

Lemma inbox_received_slot_total (m : DictionaryIterator) (g : Globals) :
  slot_index_not_negative m ->
  exists g' calls, inbox_received_slot m g = Ok tt g' calls /\ only_tables_differ g g'.
Proof.
  intros Hnn. unfold inbox_received_slot.
  destruct (dict_find m KEY_REMINDER_INDEX) as [it|] eqn:Hi;
    [|run; eauto using only_tables_differ_refl].
  assert (H0 : 0 <= value_int32 m it) by (apply Hnn; unfold field_int32; now rewrite Hi).
  assert (Hlists : forall f g0, value_int32 m it < MAX_LISTS ->
    s_lists_store (value_int32 m it) f g0 =
    Ok tt (set_s_lists (alter f (Z.to_nat (value_int32 m it)) (s_lists g0)) g0) []).
  { intros f g0 Hlt. unfold s_lists_store. now rewrite in_bounds_true by lia. }
  assert (Hrems : forall f g0, value_int32 m it < MAX_REMINDERS ->
    s_reminders_store (value_int32 m it) f g0 =
    Ok tt (set_s_reminders (alter f (Z.to_nat (value_int32 m it)) (s_reminders g0)) g0) []).
  { intros f g0 Hlt. unfold s_reminders_store. now rewrite in_bounds_true by lia. }
  destruct (dict_find m KEY_LIST_ID), (dict_find m KEY_LIST_TITLE),
    (Z.ltb_spec (value_int32 m it) MAX_LISTS),
    (dict_find m KEY_REMINDER_ID), (dict_find m KEY_REMINDER_TITLE),
    (Z.ltb_spec (value_int32 m it) MAX_REMINDERS);
    run; rewrite ?Hlists, ?Hrems by assumption;
    cbn [s_reminders_window set_s_reminders];
    try destruct (s_reminders_window g);
    do 2 eexists; (split; [reflexivity|]); destruct g; reflexivity.
Qed.

(** ** The cases of the [switch] *)

Lemma inbox_received_callback_after_switch
    (m : DictionaryIterator) (g g1 : Globals) (cmd status : Z) (c1 : list Call) :
  field_int32 m KEY_CMD = Some cmd ->
  field_int32 m KEY_STATUS = Some status ->
  status <> STATUS_ERROR ->
  inbox_received_switch m cmd status g = Ok tt g1 c1 ->
  inbox_received_callback m g =
    match inbox_received_slot m g1 with
    | Ok _ g2 c2 => Ok tt g2 (c1 ++ c2)
    | Fault => Fault
    end.
Proof.
  intros Hc Hs Hne E.
  rewrite (inbox_received_callback_success m cmd status Hc Hs Hne).
  unfold mbind, M_bind. rewrite E. now destruct (inbox_received_slot m g1) as [[] ? ?|].
Qed.

Lemma inbox_received_switch_login (m : DictionaryIterator) (status : Z) (g : Globals)
    (token : cstr) :
  field_cstring m KEY_TOKEN = Some token ->
  inbox_received_switch m CMD_LOGIN status g =
    Ok tt (set_s_is_logged_in true (set_s_token (snprintf 256 token) g))
      [persist_write_string PERSIST_KEY_TOKEN (snprintf 256 token);
       persist_write_string PERSIST_KEY_USERNAME (s_username g);
       persist_write_string PERSIST_KEY_APPLE_ID (s_apple_id g);
       persist_write_string PERSIST_KEY_APPLE_PASSWORD (s_apple_password g);
       window_stack_remove (s_settings_window g);
       app_message_outbox_send
         [tuple_int KEY_CMD CMD_GET_LISTS;
          tuple_cstring KEY_TOKEN (snprintf 256 token)]].
Proof.
  intros (t & Ht & <-)%field_cstring_Some.
  unfold inbox_received_switch. cbn [Z.eqb CMD_LOGIN Pos.eqb]. now rewrite Ht.
Qed.

Lemma inbox_received_switch_login_without_token
    (m : DictionaryIterator) (status : Z) (g : Globals) :
  dict_find m KEY_TOKEN = None ->
  inbox_received_switch m CMD_LOGIN status g = Ok tt g [].
Proof.
  intros Ht. unfold inbox_received_switch. cbn [Z.eqb CMD_LOGIN Pos.eqb]. now rewrite Ht.
Qed.

Lemma inbox_received_switch_get_lists (m : DictionaryIterator) (status : Z) (g : Globals)
    (count : Z) :
  field_int32 m KEY_COUNT = Some count ->
  inbox_received_switch m CMD_GET_LISTS status g =
    Ok tt (set_s_list_count (Z.min count MAX_LISTS) g)
      [menu_layer_reload_data s_menu_layer].
Proof.
  intros (t & Ht & <-)%field_int32_Some.
  unfold inbox_received_switch. cbn [Z.eqb CMD_LOGIN CMD_GET_LISTS Pos.eqb]. rewrite Ht.
  run. cbn [s_list_count set_s_list_count].
  destruct (Z.gtb_spec (value_int32 m t) MAX_LISTS).
  - now rewrite Z.min_r by lia.
  - now rewrite Z.min_l by lia.
Qed.

Lemma inbox_received_switch_get_reminders (m : DictionaryIterator) (status : Z)
    (g : Globals) (count : Z) :
  field_int32 m KEY_COUNT = Some count ->
  inbox_received_switch m CMD_GET_REMINDERS status g =
    Ok tt (set_s_reminder_count (Z.min count MAX_REMINDERS) g)
      (match s_reminders_window g with
       | Some _ => [menu_layer_reload_data s_reminders_menu_layer]
       | None => []
       end).
Proof.
  intros (t & Ht & <-)%field_int32_Some.
  unfold inbox_received_switch.
  cbn [Z.eqb CMD_LOGIN CMD_GET_LISTS CMD_GET_REMINDERS Pos.eqb]. rewrite Ht.
  run. cbn [s_reminder_count set_s_reminder_count].
  destruct (Z.gtb_spec (value_int32 m t) MAX_REMINDERS);
    cbn [s_reminders_window set_s_reminder_count]; destruct (s_reminders_window g).
  1,2: now rewrite Z.min_r by lia.
  1,2: now rewrite Z.min_l by lia.
Qed.

Lemma inbox_received_switch_complete_unselected (m : DictionaryIterator) (g : Globals) :
  ~ (0 <= s_current_reminder_index g < s_reminder_count g) ->
  inbox_received_switch m CMD_COMPLETE_REMINDER STATUS_SUCCESS g =
    Ok tt g [window_stack_remove (s_detail_window g);
             menu_layer_reload_data s_reminders_menu_layer].
Proof.
  intros Hsel. unfold inbox_received_switch.
  cbn [Z.eqb CMD_LOGIN CMD_GET_LISTS CMD_GET_REMINDERS CMD_COMPLETE_REMINDER
       STATUS_SUCCESS Pos.eqb].
  run.
  destruct (Z.geb_spec (s_current_reminder_index g) 0),
    (Z.ltb_spec (s_current_reminder_index g) (s_reminder_count g));
    cbn [andb]; first [reflexivity | lia].
Qed.

Lemma inbox_received_switch_complete_selected (m : DictionaryIterator) (g : Globals) :
  0 <= s_current_reminder_index g < s_reminder_count g ->
  s_reminder_count g <= MAX_REMINDERS ->
  inbox_received_switch m CMD_COMPLETE_REMINDER STATUS_SUCCESS g =
    Ok tt (set_s_reminders
             (alter (Reminder.set_completed true)
                (Z.to_nat (s_current_reminder_index g)) (s_reminders g)) g)
      [window_stack_remove (s_detail_window g);
       menu_layer_reload_data s_reminders_menu_layer].
Proof.
  intros Hsel Hcount. unfold inbox_received_switch.
  cbn [Z.eqb CMD_LOGIN CMD_GET_LISTS CMD_GET_REMINDERS CMD_COMPLETE_REMINDER
       STATUS_SUCCESS Pos.eqb].
  run.
  destruct (Z.geb_spec (s_current_reminder_index g) 0),
    (Z.ltb_spec (s_current_reminder_index g) (s_reminder_count g));
    cbn [andb]; try lia.
  unfold s_reminders_store. now rewrite in_bounds_true by lia.
Qed.

(** ** A slot message after any command *)

Lemma lookup_in_table {A} (l : list A) (cap index : Z) :
  length l = Z.to_nat cap -> 0 <= index < cap -> is_Some (l !! Z.to_nat index).
Proof. intros Hl Hi. apply lookup_lt_is_Some_2. lia. Qed.

Lemma inbox_received_callback_reminder_slot
    (m : DictionaryIterator) (g : Globals) (cmd status index : Z) (rid rtitle : cstr) :
  wf_globals g ->
  field_int32 m KEY_CMD = Some cmd ->
  field_int32 m KEY_STATUS = Some status ->
  status <> STATUS_ERROR ->
  field_int32 m KEY_REMINDER_INDEX = Some index ->
  field_cstring m KEY_REMINDER_ID = Some rid ->
  field_cstring m KEY_REMINDER_TITLE = Some rtitle ->
  not_a_list_slot m index ->
  0 <= index < MAX_REMINDERS ->
  exists g' calls old,
    inbox_received_callback m g = Ok tt g' calls /\
    s_reminders g !! Z.to_nat index = Some old /\
    s_reminders g' !! Z.to_nat index
      = Some (Reminder.mk (snprintf 64 rid) (snprintf 128 rtitle)
                (match field_cstring m KEY_LIST_ID with
                 | Some lid => snprintf 64 lid
                 | None => Reminder.list_id old
                 end)
                (stored_completed m)).
Proof.
  intros Hg Hc Hs Hne Hi Hrid Hrt Hnl Hb.
  destruct (inbox_received_switch_tables m cmd status g Hg)
    as (g1 & c1 & E & Hl & Hw & Hlen & Hlid).
  rewrite (inbox_received_callback_after_switch m g g1 cmd status c1 Hc Hs Hne E).
  rewrite (inbox_received_slot_reminder m g1 index rid rtitle Hi Hrid Hrt Hnl Hb).
  destruct (lookup_in_table (s_reminders g) MAX_REMINDERS index) as [old Hold];
    [apply Hg|exact Hb|].
  do 2 eexists. exists old.
  split; [reflexivity|]. split; [exact Hold|]. cbn [s_reminders set_s_reminders].
  rewrite list_lookup_alter_eq.
  specialize (Hlid (Z.to_nat index)). rewrite Hold in Hlid.
  destruct (s_reminders g1 !! Z.to_nat index) as [r1|]; [|discriminate].
  injection Hlid as Hlid. cbn [fmap option_fmap option_map]. now rewrite Hlid.
Qed.

(** From well-formed globals, and unless the message carries a negative
    slot index, the handler ends without a fault and leaves well-formed
    globals. *)
Theorem inbox_received_callback_total (m : DictionaryIterator) (g : Globals) :
  wf_globals g ->
  slot_index_not_negative m ->
  exists g' calls, inbox_received_callback m g = Ok tt g' calls /\ wf_globals g'.
Proof.
  intros Hg Hnn.
  assert (Hwf : forall g' calls,
            inbox_received_callback m g = Ok tt g' calls -> wf_globals g').
  { intros g' calls E. pose proof (inbox_received_callback_keeps_wf m g Hg) as H.
    now rewrite E in H. }
  assert (Hend : exists g' calls, inbox_received_callback m g = Ok tt g' calls).
  { unfold inbox_received_callback.
    destruct (dict_find m KEY_CMD) as [ct|]; [|now exists g, []].
    destruct (_ =? STATUS_ERROR); [run; eauto|].
    destruct (inbox_received_switch_tables m (value_int32 m ct)
                (match dict_find m KEY_STATUS with
                 | Some t => value_int32 m t
                 | None => STATUS_ERROR
                 end) g Hg) as (g1 & c1 & E1 & _).
    destruct (inbox_received_slot_total m g1 Hnn) as (g2 & c2 & E2 & _).
    exists g2, (c1 ++ c2). unfold mbind, M_bind. cbv zeta. now rewrite E1, E2. }
  destruct Hend as (g' & calls & E). eauto.
Qed.

(** ** C1: a message whose status is ERROR *)

(** C1, as amended.  A message whose status field is present and equals
    ERROR leaves every global as it was, whatever else the message carries
    (a list or reminder slot included).  When the message has a command
    field, the error is surfaced: it is logged and shown in an error window
    as ["Error: "] followed by the error field of the message, or by
    ["Unknown error"] when there is none, cut to the 127 characters of the
    message buffer; no other field has any influence.  When the message
    has no command field the handler returns at once and surfaces
    nothing. *)
Theorem C1_error_status_no_mutation (m : DictionaryIterator) (g : Globals) :
  field_int32 m KEY_STATUS = Some STATUS_ERROR ->
  (exists calls, inbox_received_callback m g = Ok tt g calls) /\
  (is_Some (dict_find m KEY_CMD) ->
   inbox_received_callback m g =
     Ok tt g
       [app_log_error (lit "Error: %s")
          (default (lit "Unknown error") (field_cstring m KEY_ERROR));
        error_window_push
          (snprintf 128
             (lit "Error: " ++ default (lit "Unknown error") (field_cstring m KEY_ERROR)))]) /\
  (dict_find m KEY_CMD = None -> inbox_received_callback m g = Ok tt g []).
Proof.
  intros Hs.
  assert (Hcmd : is_Some (dict_find m KEY_CMD) -> _) by
    (intros Hc; apply (inbox_received_callback_error m g Hc); now rewrite Hs).
  assert (Hno : dict_find m KEY_CMD = None -> inbox_received_callback m g = Ok tt g []).
  { intros Hc. unfold inbox_received_callback. now rewrite Hc. }
  split; [|split; assumption].
  destruct (dict_find m KEY_CMD) eqn:Hc; eauto.
Qed.

Lemma C1_error_status_no_mutation_witness :
  field_int32 msg_error_with_list_slot KEY_STATUS = Some STATUS_ERROR /\
  inbox_received_callback msg_error_with_list_slot initial_globals =
    Ok tt initial_globals
      [app_log_error (lit "Error: %s") (lit "Session expired");
       error_window_push (lit "Error: Session expired")].
Proof.
  split; [reflexivity|].
  apply (C1_error_status_no_mutation msg_error_with_list_slot initial_globals).
  - reflexivity.
  - eexists. reflexivity.
Defined.

(** C1 as stated fails: with a status of ERROR and an error text but no
    command field, the handler returns before the error branch and nothing
    is surfaced. *)
Lemma C1_counterexample :
  field_int32 msg_error_without_cmd KEY_STATUS = Some STATUS_ERROR /\
  field_cstring msg_error_without_cmd KEY_ERROR = Some (lit "Session expired") /\
  inbox_received_callback msg_error_without_cmd initial_globals = Ok tt initial_globals [] /\
  ~ (exists g' calls text,
       inbox_received_callback msg_error_without_cmd initial_globals = Ok tt g' calls /\
       In (error_window_push text) calls).
Proof.
  repeat split; try reflexivity.
  intros (g' & calls & text & H & Hin).
  assert (E : inbox_received_callback msg_error_without_cmd initial_globals
              = Ok tt initial_globals []) by reflexivity.
  rewrite E in H. injection H as <- <-. destruct Hin.
Qed.

(** ** C2: slot data and the command of the message *)

(** C2, as amended.  A message with no command field is not processed at
    all: the handler returns at once, whatever the message carries, and no
    slot is written.  Take a message with a command field, a status field
    other than ERROR and a slot-index field, received in well-formed
    globals.  If it carries a list id and a list title and the index is in
    [0, MAX_LISTS), the lists slot is overwritten with them (each cut to
    63 characters).  Otherwise, if it carries a reminder id and a reminder
    title and the index is in [0, MAX_REMINDERS), the reminders slot is
    overwritten: id, title (cut to 127), the list id when one is present
    (the old one stays otherwise) and the completed flag (false when
    absent).  Both hold for every value of the command field. *)
Theorem C2_slot_written_for_any_command
    (m : DictionaryIterator) (g : Globals) (cmd status index : Z) :
  (dict_find m KEY_CMD = None -> inbox_received_callback m g = Ok tt g []) /\
  (wf_globals g ->
   field_int32 m KEY_CMD = Some cmd ->
   field_int32 m KEY_STATUS = Some status ->
   status <> STATUS_ERROR ->
   field_int32 m KEY_REMINDER_INDEX = Some index ->
   (forall lid ltitle,
      field_cstring m KEY_LIST_ID = Some lid ->
      field_cstring m KEY_LIST_TITLE = Some ltitle ->
      0 <= index < MAX_LISTS ->
      exists g' calls,
        inbox_received_callback m g = Ok tt g' calls /\
        s_lists g' !! Z.to_nat index
          = Some (ReminderList.mk (snprintf 64 lid) (snprintf 64 ltitle))) /\
   (forall rid rtitle,
      field_cstring m KEY_REMINDER_ID = Some rid ->
      field_cstring m KEY_REMINDER_TITLE = Some rtitle ->
      not_a_list_slot m index ->
      0 <= index < MAX_REMINDERS ->
      exists g' calls old,
        inbox_received_callback m g = Ok tt g' calls /\
        s_reminders g !! Z.to_nat index = Some old /\
        s_reminders g' !! Z.to_nat index
          = Some (Reminder.mk (snprintf 64 rid) (snprintf 128 rtitle)
                    (match field_cstring m KEY_LIST_ID with
                     | Some lid => snprintf 64 lid
                     | None => Reminder.list_id old
                     end)
                    (stored_completed m)))).
Proof.
  split.
  { intros Hc. unfold inbox_received_callback. now rewrite Hc. }
  intros Hg Hc Hs Hne Hi. split.
  - intros lid ltitle Hlid Hlt Hb.
    destruct (inbox_received_switch_tables m cmd status g Hg)
      as (g1 & c1 & E & Hl & _).
    rewrite (inbox_received_callback_after_switch m g g1 cmd status c1 Hc Hs Hne E).
    rewrite (inbox_received_slot_list m g1 index lid ltitle Hi Hlid Hlt Hb).
    do 2 eexists. split; [reflexivity|]. cbn [s_lists set_s_lists].
    rewrite !list_lookup_alter_eq, Hl.
    destruct (lookup_in_table (s_lists g) MAX_LISTS index) as [l ->];
      [apply Hg|exact Hb|]. reflexivity.
  - intros rid rtitle Hrid Hrt Hnl Hb.
    exact (inbox_received_callback_reminder_slot m g cmd status index rid rtitle
             Hg Hc Hs Hne Hi Hrid Hrt Hnl Hb).
Qed.

Lemma C2_slot_written_for_any_command_witness :
  wf_globals initial_globals /\
  (exists g' calls,
     inbox_received_callback
       (msg_list_slot CMD_COMPLETE_REMINDER 3 (lit "L4") (lit "Errands")) initial_globals
       = Ok tt g' calls /\
     s_lists g' !! 3%nat = Some (ReminderList.mk (lit "L4") (lit "Errands"))) /\
  dict_find msg_list_slot_without_cmd KEY_CMD = None /\
  inbox_received_callback msg_list_slot_without_cmd initial_globals
    = Ok tt initial_globals [].
Proof.
  split; [exact initial_globals_wf|].
  assert (Hne : STATUS_SUCCESS <> STATUS_ERROR) by discriminate.
  assert (Hb : 0 <= 3 < MAX_LISTS) by (unfold MAX_LISTS; lia).
  split; [|split; [reflexivity|]].
  - exact (proj1 (proj2 (C2_slot_written_for_any_command
                           (msg_list_slot CMD_COMPLETE_REMINDER 3 (lit "L4") (lit "Errands"))
                           initial_globals CMD_COMPLETE_REMINDER STATUS_SUCCESS 3)
                    initial_globals_wf eq_refl eq_refl Hne eq_refl)
                 (lit "L4") (lit "Errands") eq_refl eq_refl Hb).
  - exact (proj1 (C2_slot_written_for_any_command
                    msg_list_slot_without_cmd initial_globals 0 0 0) eq_refl).
Defined.

(** C2 as stated fails: a list slot message without a command field is
    dropped at the first test of the handler, and slot 0 keeps its old
    content. *)
Lemma C2_counterexample :
  field_int32 msg_list_slot_without_cmd KEY_REMINDER_INDEX = Some 0 /\
  field_cstring msg_list_slot_without_cmd KEY_LIST_ID = Some (lit "L1") /\
  field_cstring msg_list_slot_without_cmd KEY_LIST_TITLE = Some (lit "Groceries") /\
  dict_find msg_list_slot_without_cmd KEY_CMD = None /\
  exists g',
    inbox_received_callback msg_list_slot_without_cmd initial_globals = Ok tt g' [] /\
    s_lists g' !! 0%nat = Some (ReminderList.mk [] []) /\
    s_lists g' !! 0%nat <> Some (ReminderList.mk (lit "L1") (lit "Groceries")).
Proof.
  repeat split. exists initial_globals. repeat split. discriminate.
Qed.

(** ** C3: the logged-in flag and an empty token *)

(** [load_settings] derives the flag from the token: logged in exactly when
    the token is not empty. *)
Lemma load_settings_logged_in (persist : Z -> option cstr) (g : Globals) :
  exists g', load_settings persist g = Ok tt g' [] /\
             s_is_logged_in g' = nonempty (s_token g').
Proof.
  unfold load_settings.
  destruct (persist PERSIST_KEY_TOKEN), (persist PERSIST_KEY_USERNAME),
    (persist PERSIST_KEY_APPLE_ID), (persist PERSIST_KEY_APPLE_PASSWORD);
    run; eexists; split; reflexivity.
Qed.

(** C3, the code at the failing input.  A Login SUCCESS message whose token
    field is present and empty is received with the initial globals: the
    handler stores the empty token and sets the logged-in flag all the
    same, so the flag no longer says that the token is not empty, which is
    how [load_settings] computes it. *)
Theorem C3_login_empty_token_sets_logged_in :
  field_int32 msg_login_empty_token KEY_CMD = Some CMD_LOGIN /\
  field_int32 msg_login_empty_token KEY_STATUS = Some STATUS_SUCCESS /\
  field_cstring msg_login_empty_token KEY_TOKEN = Some [] /\
  exists g' calls,
    inbox_received_callback msg_login_empty_token initial_globals = Ok tt g' calls /\
    s_token g' = [] /\
    s_is_logged_in g' = true /\
    s_is_logged_in g' <> nonempty (s_token g').
Proof.
  repeat split. do 2 eexists. split; [vm_compute; reflexivity|].
  repeat split. discriminate.
Qed.

(** ** C4: a count above the capacity *)

(** C4, as amended.  A GetLists outcome whose status is not ERROR and whose
    count field holds C > MAX_LISTS leaves the stored lists count equal to
    MAX_LISTS; a GetReminders outcome whose status is not ERROR and whose
    count field holds C > MAX_REMINDERS leaves the stored reminders count
    equal to MAX_REMINDERS.  (The message carries no negative slot index.) *)
Theorem C4_count_clamped_to_capacity
    (m : DictionaryIterator) (g : Globals) (status C : Z) :
  field_int32 m KEY_STATUS = Some status ->
  status <> STATUS_ERROR ->
  field_int32 m KEY_COUNT = Some C ->
  slot_index_not_negative m ->
  (field_int32 m KEY_CMD = Some CMD_GET_LISTS -> MAX_LISTS < C ->
   exists g' calls,
     inbox_received_callback m g = Ok tt g' calls /\ s_list_count g' = MAX_LISTS) /\
  (field_int32 m KEY_CMD = Some CMD_GET_REMINDERS -> MAX_REMINDERS < C ->
   exists g' calls,
     inbox_received_callback m g = Ok tt g' calls /\ s_reminder_count g' = MAX_REMINDERS).
Proof.
  intros Hs Hne Hcount Hnn. split; intros Hc HC.
  - rewrite (inbox_received_callback_after_switch m g _ _ _ _ Hc Hs Hne
               (inbox_received_switch_get_lists m status g C Hcount)).
    destruct (inbox_received_slot_total m (set_s_list_count (Z.min C MAX_LISTS) g) Hnn)
      as (g' & calls & -> & Hframe).
    do 2 eexists. split; [reflexivity|].
    rewrite Hframe. cbn [s_list_count set_s_reminders set_s_lists set_s_list_count]. lia.
  - rewrite (inbox_received_callback_after_switch m g _ _ _ _ Hc Hs Hne
               (inbox_received_switch_get_reminders m status g C Hcount)).
    destruct (inbox_received_slot_total m
                (set_s_reminder_count (Z.min C MAX_REMINDERS) g) Hnn)
      as (g' & calls & -> & Hframe).
    do 2 eexists. split; [reflexivity|].
    rewrite Hframe.
    cbn [s_reminder_count set_s_reminders set_s_lists set_s_reminder_count]. lia.
Qed.

Lemma msg_count_not_negative (cmd status count : Z) :
  slot_index_not_negative (msg_count cmd status count).
Proof. intros index H. discriminate H. Qed.

Lemma C4_count_clamped_to_capacity_witness :
  (exists g' calls,
     inbox_received_callback (msg_count CMD_GET_LISTS STATUS_SUCCESS 25) initial_globals
       = Ok tt g' calls /\ s_list_count g' = MAX_LISTS) /\
  (exists g' calls,
     inbox_received_callback (msg_count CMD_GET_REMINDERS STATUS_SUCCESS 70) initial_globals
       = Ok tt g' calls /\ s_reminder_count g' = MAX_REMINDERS).
Proof.
  assert (Hne : STATUS_SUCCESS <> STATUS_ERROR) by discriminate.
  assert (H25 : MAX_LISTS < 25) by (unfold MAX_LISTS; lia).
  assert (H70 : MAX_REMINDERS < 70) by (unfold MAX_REMINDERS; lia).
  split.
  - exact (proj1 (C4_count_clamped_to_capacity
                    (msg_count CMD_GET_LISTS STATUS_SUCCESS 25) initial_globals
                    STATUS_SUCCESS 25 eq_refl Hne eq_refl
                    (msg_count_not_negative _ _ _)) eq_refl H25).
  - exact (proj2 (C4_count_clamped_to_capacity
                    (msg_count CMD_GET_REMINDERS STATUS_SUCCESS 70) initial_globals
                    STATUS_SUCCESS 70 eq_refl Hne eq_refl
                    (msg_count_not_negative _ _ _)) eq_refl H70).
Defined.

(** C4 as stated fails: a GetLists outcome with status ERROR and count 25
    goes through the error branch, and the stored count stays 0. *)
Lemma C4_counterexample :
  field_int32 (msg_count CMD_GET_LISTS STATUS_ERROR 25) KEY_CMD = Some CMD_GET_LISTS /\
  field_int32 (msg_count CMD_GET_LISTS STATUS_ERROR 25) KEY_STATUS = Some STATUS_ERROR /\
  field_int32 (msg_count CMD_GET_LISTS STATUS_ERROR 25) KEY_COUNT = Some 25 /\
  MAX_LISTS < 25 /\
  exists g',
    inbox_received_callback (msg_count CMD_GET_LISTS STATUS_ERROR 25) initial_globals
      = Ok tt g'
          [app_log_error (lit "Error: %s") (lit "Unknown error");
           error_window_push (lit "Error: Unknown error")] /\
    s_list_count g' = 0 /\
    s_list_count g' <> MAX_LISTS.
Proof.
  repeat split. exists initial_globals. repeat split. discriminate.
Qed.

(** ** C5: a Login outcome with a token *)

(** C5, as amended.  A message with a Login command, a status other than
    ERROR and a token field makes the handler store the received token,
    cut to the 255 characters the token buffer holds (so the token itself
    whenever it is that short), set the logged-in flag, write the four
    settings to persistent storage, remove the settings window and send at
    once a request made of the GetLists command tag and the stored token;
    these are the first calls of the handler, in this order.  (The message
    carries no negative slot index.) *)
Theorem C5_login_stores_token_and_requests_lists
    (m : DictionaryIterator) (g : Globals) (status : Z) (token : cstr) :
  field_int32 m KEY_CMD = Some CMD_LOGIN ->
  field_int32 m KEY_STATUS = Some status ->
  status <> STATUS_ERROR ->
  field_cstring m KEY_TOKEN = Some token ->
  slot_index_not_negative m ->
  exists g' more_calls,
    inbox_received_callback m g =
      Ok tt g'
        ([persist_write_string PERSIST_KEY_TOKEN (s_token g');
          persist_write_string PERSIST_KEY_USERNAME (s_username g);
          persist_write_string PERSIST_KEY_APPLE_ID (s_apple_id g);
          persist_write_string PERSIST_KEY_APPLE_PASSWORD (s_apple_password g);
          window_stack_remove (s_settings_window g);
          app_message_outbox_send
            [tuple_int KEY_CMD CMD_GET_LISTS; tuple_cstring KEY_TOKEN (s_token g')]]
         ++ more_calls) /\
    s_token g' = take 255 token /\
    ((length token <= 255)%nat -> s_token g' = token) /\
    s_is_logged_in g' = true.
Proof.
  intros Hc Hs Hne Ht Hnn.
  rewrite (inbox_received_callback_after_switch m g _ _ _ _ Hc Hs Hne
             (inbox_received_switch_login m status g token Ht)).
  destruct (inbox_received_slot_total m
              (set_s_is_logged_in true (set_s_token (snprintf 256 token) g)) Hnn)
    as (g' & calls & -> & Hframe).
  assert (Htok : s_token g' = take 255 token) by (now rewrite Hframe).
  exists g', calls. rewrite Htok. repeat split.
  - intros Hlen. now rewrite take_ge.
  - now rewrite Hframe.
Qed.

Lemma C5_login_stores_token_and_requests_lists_witness :
  exists g' more_calls,
    inbox_received_callback (msg_login (lit "abc123")) initial_globals =
      Ok tt g'
        ([persist_write_string PERSIST_KEY_TOKEN (s_token g');
          persist_write_string PERSIST_KEY_USERNAME [];
          persist_write_string PERSIST_KEY_APPLE_ID [];
          persist_write_string PERSIST_KEY_APPLE_PASSWORD [];
          window_stack_remove None;
          app_message_outbox_send
            [tuple_int KEY_CMD CMD_GET_LISTS; tuple_cstring KEY_TOKEN (s_token g')]]
         ++ more_calls) /\
    s_token g' = take 255 (lit "abc123") /\
    ((length (lit "abc123") <= 255)%nat -> s_token g' = lit "abc123") /\
    s_is_logged_in g' = true.
Proof.
  assert (Hne : STATUS_SUCCESS <> STATUS_ERROR) by discriminate.
  assert (Hnn : slot_index_not_negative (msg_login (lit "abc123")))
    by (intros index H; discriminate H).
  exact (C5_login_stores_token_and_requests_lists
           (msg_login (lit "abc123")) initial_globals STATUS_SUCCESS (lit "abc123")
           eq_refl eq_refl Hne eq_refl Hnn).
Defined.

(** C5 as stated fails: a token of 256 characters does not fit the token
    buffer, and the session token that is stored is not the received
    token but its first 255 characters. *)
Lemma C5_counterexample :
  field_int32 (msg_login (replicate 256 "a"%byte)) KEY_CMD = Some CMD_LOGIN /\
  field_int32 (msg_login (replicate 256 "a"%byte)) KEY_STATUS = Some STATUS_SUCCESS /\
  field_cstring (msg_login (replicate 256 "a"%byte)) KEY_TOKEN
    = Some (replicate 256 "a"%byte) /\
  exists g' calls,
    inbox_received_callback (msg_login (replicate 256 "a"%byte)) initial_globals
      = Ok tt g' calls /\
    s_token g' = replicate 255 "a"%byte /\
    s_token g' <> replicate 256 "a"%byte.
Proof.
  split; [reflexivity|]. split; [reflexivity|]. split; [vm_compute; reflexivity|].
  do 2 eexists. split; [vm_compute; reflexivity|]. split; [reflexivity|].
  intros H. apply (f_equal length) in H. vm_compute in H. discriminate H.
Qed.

(** ** C6: a count outcome without a slot *)

(** C6.  A GetLists or GetReminders message with a count field and no
    slot-index field changes nothing but the stored count of its own
    table: the final globals are the initial ones with that count
    replaced, so every slot of both tables, the session token, the
    logged-in flag, both selection indices and the other count are as
    before.  No slot is cleared. *)
Theorem C6_count_outcome_changes_only_the_count
    (m : DictionaryIterator) (g : Globals) (cmd : Z) :
  field_int32 m KEY_CMD = Some cmd ->
  cmd = CMD_GET_LISTS \/ cmd = CMD_GET_REMINDERS ->
  is_Some (dict_find m KEY_COUNT) ->
  dict_find m KEY_REMINDER_INDEX = None ->
  exists g' calls,
    inbox_received_callback m g = Ok tt g' calls /\
    s_lists g' = s_lists g /\
    s_reminders g' = s_reminders g /\
    s_token g' = s_token g /\
    s_is_logged_in g' = s_is_logged_in g /\
    s_current_list_index g' = s_current_list_index g /\
    s_current_reminder_index g' = s_current_reminder_index g /\
    (cmd = CMD_GET_LISTS -> g' = set_s_list_count (s_list_count g') g) /\
    (cmd = CMD_GET_REMINDERS -> g' = set_s_reminder_count (s_reminder_count g') g).
Proof.
  intros Hc Hcmd [ct Hct] Hnoslot.
  assert (Hcount : field_int32 m KEY_COUNT = Some (value_int32 m ct))
    by (unfold field_int32; now rewrite Hct).
  destruct (decide (default STATUS_ERROR (field_int32 m KEY_STATUS) = STATUS_ERROR))
    as [Herr|Hok].
  - rewrite inbox_received_callback_error; [| |exact Herr].
    + do 2 eexists. split; [reflexivity|]. repeat split; intros _; now destruct g.
    + apply field_int32_Some in Hc as (t & -> & _). eauto.
  - destruct (field_int32 m KEY_STATUS) as [status|] eqn:Hs; [|now elim Hok].
    simpl in Hok.
    destruct Hcmd as [-> | ->].
    + rewrite (inbox_received_callback_after_switch m g _ _ _ _ Hc Hs Hok
                 (inbox_received_switch_get_lists m status g _ Hcount)).
      rewrite inbox_received_slot_absent by exact Hnoslot.
      do 2 eexists. split; [reflexivity|]. repeat split. discriminate.
    + rewrite (inbox_received_callback_after_switch m g _ _ _ _ Hc Hs Hok
                 (inbox_received_switch_get_reminders m status g _ Hcount)).
      rewrite inbox_received_slot_absent by exact Hnoslot.
      do 2 eexists. split; [reflexivity|]. repeat split. discriminate.
Qed.

Lemma C6_count_outcome_changes_only_the_count_witness :
  exists g' calls,
    inbox_received_callback (msg_count CMD_GET_LISTS STATUS_SUCCESS 3) initial_globals
      = Ok tt g' calls /\
    s_lists g' = s_lists initial_globals /\
    s_reminders g' = s_reminders initial_globals /\
    s_token g' = s_token initial_globals /\
    s_is_logged_in g' = s_is_logged_in initial_globals /\
    s_current_list_index g' = s_current_list_index initial_globals /\
    s_current_reminder_index g' = s_current_reminder_index initial_globals /\
    (CMD_GET_LISTS = CMD_GET_LISTS ->
     g' = set_s_list_count (s_list_count g') initial_globals) /\
    (CMD_GET_LISTS = CMD_GET_REMINDERS ->
     g' = set_s_reminder_count (s_reminder_count g') initial_globals).
Proof.
  apply (C6_count_outcome_changes_only_the_count
           (msg_count CMD_GET_LISTS STATUS_SUCCESS 3) initial_globals CMD_GET_LISTS).
  - reflexivity.
  - left. reflexivity.
  - eexists. reflexivity.
  - reflexivity.
Defined.

(** ** C7: a CompleteReminder outcome and the selection *)

(** C7, as amended.  Take a CompleteReminder message with status SUCCESS
    and no slot-index field.  When no reminder is selected (the current
    reminder index is negative, -1 included, or at or beyond the stored
    reminders count) the handler ends without a fault and leaves all
    globals, both tables included, as they were; it only removes the
    detail window and reloads the reminders menu.  When the index is at
    least 0 and below the stored count (itself within the capacity), the
    reminder at that index gets [completed = true] in place and nothing
    else changes. *)
Theorem C7_complete_reminder_uses_the_selection (m : DictionaryIterator) (g : Globals) :
  field_int32 m KEY_CMD = Some CMD_COMPLETE_REMINDER ->
  field_int32 m KEY_STATUS = Some STATUS_SUCCESS ->
  dict_find m KEY_REMINDER_INDEX = None ->
  (~ (0 <= s_current_reminder_index g < s_reminder_count g) ->
   inbox_received_callback m g =
     Ok tt g [window_stack_remove (s_detail_window g);
              menu_layer_reload_data s_reminders_menu_layer]) /\
  (0 <= s_current_reminder_index g < s_reminder_count g ->
   s_reminder_count g <= MAX_REMINDERS ->
   inbox_received_callback m g =
     Ok tt (set_s_reminders
              (alter (Reminder.set_completed true)
                 (Z.to_nat (s_current_reminder_index g)) (s_reminders g)) g)
       [window_stack_remove (s_detail_window g);
        menu_layer_reload_data s_reminders_menu_layer]).
Proof.
  intros Hc Hs Hnoslot.
  assert (Hne : STATUS_SUCCESS <> STATUS_ERROR) by discriminate.
  split.
  - intros Hsel.
    rewrite (inbox_received_callback_after_switch m g _ _ _ _ Hc Hs Hne
               (inbox_received_switch_complete_unselected m g Hsel)).
    now rewrite inbox_received_slot_absent.
  - intros Hsel Hcount.
    rewrite (inbox_received_callback_after_switch m g _ _ _ _ Hc Hs Hne
               (inbox_received_switch_complete_selected m g Hsel Hcount)).
    now rewrite inbox_received_slot_absent.
Qed.

Lemma C7_complete_reminder_uses_the_selection_witness :
  s_current_reminder_index initial_globals = -1 /\
  inbox_received_callback (msg_outcome CMD_COMPLETE_REMINDER STATUS_SUCCESS) initial_globals
    = Ok tt initial_globals
        [window_stack_remove None; menu_layer_reload_data s_reminders_menu_layer].
Proof.
  split; [reflexivity|].
  apply (C7_complete_reminder_uses_the_selection
           (msg_outcome CMD_COMPLETE_REMINDER STATUS_SUCCESS) initial_globals);
    try reflexivity.
  simpl. lia.
Defined.

(** C7 as stated fails: a CompleteReminder SUCCESS message may carry slot
    data too; received while no reminder is selected, it still has slot 0
    of the lists table overwritten by the slot block. *)
Lemma C7_counterexample :
  field_int32 (msg_list_slot CMD_COMPLETE_REMINDER 0 (lit "L1") (lit "Groceries")) KEY_CMD
    = Some CMD_COMPLETE_REMINDER /\
  field_int32 (msg_list_slot CMD_COMPLETE_REMINDER 0 (lit "L1") (lit "Groceries")) KEY_STATUS
    = Some STATUS_SUCCESS /\
  s_current_reminder_index initial_globals = -1 /\
  exists g' calls,
    inbox_received_callback
      (msg_list_slot CMD_COMPLETE_REMINDER 0 (lit "L1") (lit "Groceries")) initial_globals
      = Ok tt g' calls /\
    s_lists g' !! 0%nat = Some (ReminderList.mk (lit "L1") (lit "Groceries")) /\
    s_lists g' <> s_lists initial_globals.
Proof.
  repeat split. do 2 eexists. split; [vm_compute; reflexivity|].
  split; [reflexivity|]. discriminate.
Qed.

(** ** C8: a list id through a request and a reminder slot *)

Lemma send_get_reminders_request_message (list_id : cstr) (g : Globals) :
  send_get_reminders_request list_id g =
    Ok tt g [app_message_outbox_send
               [tuple_int KEY_CMD CMD_GET_REMINDERS;
                tuple_cstring KEY_TOKEN (s_token g);
                tuple_cstring KEY_LIST_ID list_id]].
Proof. reflexivity. Qed.

(** C8, as amended.  Let [list_id] be a C string of at most 63 characters.
    [send_get_reminders_request list_id] sends one message, whose command
    is GetReminders and whose list-id field reads back as [list_id].  And
    when a reminder slot message (command, status other than ERROR, index
    in [0, MAX_REMINDERS), reminder id and title, not of list shape) whose
    list-id field carries the string of that request is processed in
    well-formed globals, the [list_id] member of the reminder stored at
    that index is exactly [list_id]. *)
Theorem C8_list_id_round_trip (list_id : cstr) (g0 : Globals) :
  Forall (fun b => b <> x00) list_id ->
  (length list_id <= 63)%nat ->
  exists out,
    send_get_reminders_request list_id g0 = Ok tt g0 [app_message_outbox_send out] /\
    field_int32 out KEY_CMD = Some CMD_GET_REMINDERS /\
    field_cstring out KEY_LIST_ID = Some list_id /\
    forall (m : DictionaryIterator) (g : Globals) (cmd status index : Z) (rid rtitle : cstr),
      wf_globals g ->
      field_int32 m KEY_CMD = Some cmd ->
      field_int32 m KEY_STATUS = Some status ->
      status <> STATUS_ERROR ->
      field_int32 m KEY_REMINDER_INDEX = Some index ->
      field_cstring m KEY_REMINDER_ID = Some rid ->
      field_cstring m KEY_REMINDER_TITLE = Some rtitle ->
      not_a_list_slot m index ->
      0 <= index < MAX_REMINDERS ->
      field_cstring m KEY_LIST_ID = field_cstring out KEY_LIST_ID ->
      exists g' calls r,
        inbox_received_callback m g = Ok tt g' calls /\
        s_reminders g' !! Z.to_nat index = Some r /\
        Reminder.list_id r = list_id.
Proof.
  intros Hnul Hlen. eexists. split; [apply send_get_reminders_request_message|].
  assert (Hout : field_cstring
                   [tuple_int KEY_CMD CMD_GET_REMINDERS;
                    tuple_cstring KEY_TOKEN (s_token g0);
                    tuple_cstring KEY_LIST_ID list_id] KEY_LIST_ID = Some list_id).
  { read_field. }
  split; [read_field|]. split; [exact Hout|].
  intros m g cmd status index rid rtitle Hg Hc Hs Hne Hi Hrid Hrt Hnl Hb Hsame.
  rewrite Hout in Hsame.
  destruct (inbox_received_callback_reminder_slot m g cmd status index rid rtitle
              Hg Hc Hs Hne Hi Hrid Hrt Hnl Hb) as (g' & calls & old & E & _ & Hr).
  rewrite Hsame in Hr.
  do 3 eexists. split; [exact E|]. split; [exact Hr|].
  cbn [Reminder.list_id]. unfold snprintf. apply take_ge. lia.
Qed.

Lemma C8_list_id_round_trip_witness :
  exists out,
    send_get_reminders_request (lit "L1") initial_globals
      = Ok tt initial_globals [app_message_outbox_send out] /\
    field_cstring out KEY_LIST_ID = Some (lit "L1") /\
    exists g' calls r,
      inbox_received_callback
        (msg_reminder_slot CMD_GET_REMINDERS 2 (lit "R7") (lit "Buy milk") (lit "L1"))
        initial_globals = Ok tt g' calls /\
      s_reminders g' !! 2%nat = Some r /\
      Reminder.list_id r = lit "L1".
Proof.
  assert (Hnul : Forall (fun b => b <> x00) (lit "L1"))
    by (repeat constructor; discriminate).
  assert (Hlen : (length (lit "L1") <= 63)%nat) by (simpl; lia).
  destruct (C8_list_id_round_trip (lit "L1") initial_globals Hnul Hlen)
    as (out & Hsend & _ & Hout & Hback).
  exists out. split; [exact Hsend|]. split; [exact Hout|].
  assert (Hne : STATUS_SUCCESS <> STATUS_ERROR) by discriminate.
  assert (Hb : 0 <= 2 < MAX_REMINDERS) by (unfold MAX_REMINDERS; lia).
  assert (Hnl : not_a_list_slot
                  (msg_reminder_slot CMD_GET_REMINDERS 2 (lit "R7") (lit "Buy milk") (lit "L1"))
                  2) by (right; left; reflexivity).
  refine (Hback (msg_reminder_slot CMD_GET_REMINDERS 2 (lit "R7") (lit "Buy milk") (lit "L1"))
            initial_globals CMD_GET_REMINDERS STATUS_SUCCESS 2
            (lit "R7") (lit "Buy milk") initial_globals_wf
            eq_refl eq_refl Hne eq_refl eq_refl eq_refl Hnl Hb _).
  rewrite Hout. reflexivity.
Defined.

(** C8 as stated fails: a list id of 64 characters is encoded as it is in
    the request, but the [list_id] member of a reminder holds 63
    characters, and the reminder slot message that carries the same string
    leaves a shortened one in the table. *)
Lemma C8_counterexample :
  Forall (fun b => b <> x00) (replicate 64 "a"%byte) /\
  (exists out,
     send_get_reminders_request (replicate 64 "a"%byte) initial_globals
       = Ok tt initial_globals [app_message_outbox_send out] /\
     field_cstring out KEY_LIST_ID = Some (replicate 64 "a"%byte)) /\
  field_cstring
    (msg_reminder_slot CMD_GET_REMINDERS 0 (lit "R1") (lit "Buy milk")
       (replicate 64 "a"%byte)) KEY_LIST_ID = Some (replicate 64 "a"%byte) /\
  exists g' calls r,
    inbox_received_callback
      (msg_reminder_slot CMD_GET_REMINDERS 0 (lit "R1") (lit "Buy milk")
         (replicate 64 "a"%byte)) initial_globals = Ok tt g' calls /\
    s_reminders g' !! 0%nat = Some r /\
    Reminder.list_id r = replicate 63 "a"%byte /\
    Reminder.list_id r <> replicate 64 "a"%byte.
Proof.
  split; [apply Forall_replicate; discriminate|].
  split; [eexists; split; [reflexivity|vm_compute; reflexivity]|].
  split; [vm_compute; reflexivity|].
  do 3 eexists. split; [vm_compute; reflexivity|]. split; [reflexivity|].
  split; [reflexivity|]. discriminate.
Qed.

(** ** C9: a message without a status field *)

(** C9, as amended.  A message with a command field and no status field is
    handled exactly as the same message with an explicit status of ERROR
    (a status tuple in front of the others): no global changes, whatever
    slot data the message carries, and the error is logged and shown with
    the text of the error field of the message, or with ["Unknown error"]
    when the message has no error field. *)
Theorem C9_missing_status_is_an_error (m : DictionaryIterator) (g : Globals) :
  is_Some (dict_find m KEY_CMD) ->
  dict_find m KEY_STATUS = None ->
  inbox_received_callback m g =
    Ok tt g
      [app_log_error (lit "Error: %s")
         (default (lit "Unknown error") (field_cstring m KEY_ERROR));
       error_window_push
         (snprintf 128
            (lit "Error: " ++ default (lit "Unknown error") (field_cstring m KEY_ERROR)))] /\
  (field_cstring m KEY_ERROR = None ->
   inbox_received_callback m g =
     Ok tt g [app_log_error (lit "Error: %s") (lit "Unknown error");
              error_window_push (lit "Error: Unknown error")]) /\
  field_int32 (with_first_tuple (tuple_int KEY_STATUS STATUS_ERROR) m) KEY_STATUS
    = Some STATUS_ERROR /\
  inbox_received_callback m g =
    inbox_received_callback (with_first_tuple (tuple_int KEY_STATUS STATUS_ERROR) m) g.
Proof.
  intros Hc Hs.
  assert (E : inbox_received_callback m g = _)
    by (apply (inbox_received_callback_error m g Hc); unfold field_int32; now rewrite Hs).
  assert (Hst : field_int32 (with_first_tuple (tuple_int KEY_STATUS STATUS_ERROR) m)
                  KEY_STATUS = Some STATUS_ERROR)
    by (apply field_int32_tuple_int; vm_compute; split; congruence).
  split; [exact E|]. split; [|split; [exact Hst|]].
  - intros Hnone. rewrite E, Hnone. reflexivity.
  - rewrite E. symmetry. destruct m as [ts after].
    rewrite inbox_received_callback_error.
    + unfold with_first_tuple. cbn [tuples trailing].
      now rewrite field_cstring_other by other_key.
    + unfold with_first_tuple. cbn [tuples trailing].
      now rewrite dict_find_other by other_key.
    + now rewrite Hst.
Qed.

Lemma C9_missing_status_is_an_error_witness :
  dict_find msg_list_slot_without_status KEY_STATUS = None /\
  inbox_received_callback msg_list_slot_without_status initial_globals
    = Ok tt initial_globals
        [app_log_error (lit "Error: %s") (lit "Unknown error");
         error_window_push (lit "Error: Unknown error")].
Proof.
  split; [reflexivity|].
  apply (C9_missing_status_is_an_error msg_list_slot_without_status initial_globals);
    first [reflexivity | eexists; reflexivity].
Defined.

(** C9 as stated fails: without a status field but with an error field, the
    error that is surfaced carries the text of the error field, not
    ["Unknown error"]. *)
Lemma C9_counterexample :
  is_Some (dict_find msg_error_without_status KEY_CMD) /\
  dict_find msg_error_without_status KEY_STATUS = None /\
  inbox_received_callback msg_error_without_status initial_globals
    = Ok tt initial_globals
        [app_log_error (lit "Error: %s") (lit "Session expired");
         error_window_push (lit "Error: Session expired")] /\
  inbox_received_callback msg_error_without_status initial_globals
    <> Ok tt initial_globals
         [app_log_error (lit "Error: %s") (lit "Unknown error");
          error_window_push (lit "Error: Unknown error")].
Proof.
  split; [eexists; reflexivity|]. split; [reflexivity|]. split; [reflexivity|].
  assert (E : inbox_received_callback msg_error_without_status initial_globals
              = Ok tt initial_globals
                  [app_log_error (lit "Error: %s") (lit "Session expired");
                   error_window_push (lit "Error: Session expired")]) by reflexivity.
  rewrite E. intros H. injection H as H _. vm_compute in H. discriminate H.
Qed.

(** ** C10: the bounds of the slot index *)

(** At or beyond the capacity of the reminders table no branch of the slot
    block is taken, whatever the payload. *)
Lemma inbox_received_slot_beyond_capacity (m : DictionaryIterator) (g : Globals) (index : Z) :
  field_int32 m KEY_REMINDER_INDEX = Some index ->
  MAX_REMINDERS <= index ->
  inbox_received_slot m g = Ok tt g [].
Proof.
  intros (it & Hi & <-)%field_int32_Some Hge. unfold inbox_received_slot. rewrite Hi.
  destruct (Z.ltb_spec (value_int32 m it) MAX_LISTS); [unfold MAX_LISTS, MAX_REMINDERS in *; lia|].
  destruct (Z.ltb_spec (value_int32 m it) MAX_REMINDERS); [lia|].
  now destruct (dict_find m KEY_LIST_ID), (dict_find m KEY_LIST_TITLE),
    (dict_find m KEY_REMINDER_ID), (dict_find m KEY_REMINDER_TITLE).
Qed.

(** A list-shaped payload at or beyond the capacity of the lists table,
    with no reminder payload beside it, is dropped. *)
Lemma inbox_received_slot_list_beyond_capacity
    (m : DictionaryIterator) (g : Globals) (index : Z) :
  field_int32 m KEY_REMINDER_INDEX = Some index ->
  MAX_LISTS <= index ->
  dict_find m KEY_REMINDER_ID = None \/ dict_find m KEY_REMINDER_TITLE = None ->
  inbox_received_slot m g = Ok tt g [].
Proof.
  intros (it & Hi & <-)%field_int32_Some Hge Hnr. unfold inbox_received_slot. rewrite Hi.
  destruct (Z.ltb_spec (value_int32 m it) MAX_LISTS); [lia|].
  destruct Hnr as [-> | ->];
    now destruct (dict_find m KEY_LIST_ID), (dict_find m KEY_LIST_TITLE),
      (dict_find m KEY_REMINDER_ID), (dict_find m KEY_REMINDER_TITLE).
Qed.

(** C10, the code at the failing input.  With a slot index of -1 the bound
    tests [index < MAX_LISTS] and [index < MAX_REMINDERS] pass, and the
    handler writes [s_lists[-1]], respectively [s_reminders[-1]]: outside
    the table, where the specification has no state change. *)
Theorem C10_negative_index_is_written :
  field_int32 (msg_list_slot CMD_GET_LISTS (-1) (lit "L1") (lit "Groceries"))
    KEY_REMINDER_INDEX = Some (-1) /\
  inbox_received_callback
    (msg_list_slot CMD_GET_LISTS (-1) (lit "L1") (lit "Groceries")) initial_globals
    = Fault /\
  field_int32 (msg_reminder_slot CMD_GET_REMINDERS (-1) (lit "R1") (lit "Buy milk") (lit "L1"))
    KEY_REMINDER_INDEX = Some (-1) /\
  inbox_received_callback
    (msg_reminder_slot CMD_GET_REMINDERS (-1) (lit "R1") (lit "Buy milk") (lit "L1"))
    initial_globals
    = Fault.
Proof. repeat split; vm_compute; reflexivity. Qed.

(** * Further properties of the code *)

(** ** The dictionary as a store of typed fields *)

Lemma find_tuple_app (ts : list Tuple) (t : Tuple) (k : Z) :
  find_tuple (ts ++ [t]) k =
    match find_tuple ts k with
    | Some u => Some u
    | None => if key t =? k then Some t else None
    end.
Proof.
  induction ts as [|u ts IH]; simpl; [reflexivity|].
  now destruct (key u =? k).
Qed.

(** The tuple written last is followed by what comes after the
    dictionary. *)
Lemma memory_from_app_new (ts : list Tuple) (after : list byte) (t : Tuple) :
  find_tuple ts (key t) = None ->
  memory_from (ts ++ [t]) after (key t) = data t ++ after.
Proof.
  induction ts as [|u ts IH]; simpl.
  - now rewrite Z.eqb_refl.
  - destruct (key u =? key t); [discriminate|exact IH].
Qed.

(** X1.  An integer written with [dict_write_int(iter, key, &v,
    sizeof(int), true)] under a key the dictionary does not hold yet is
    read back by [dict_find] and [value->int32] as the same integer, for
    every 32-bit value, negative ones included; under every other key
    [dict_find] gives the tuple it gave before, and an integer tuple at
    least four bytes wide reads as before (a narrower one is read with the
    bytes that follow it, which the write may have changed). *)
Theorem X1_dict_write_int_read_back
    (iter : DictionaryIterator) (k v : Z) :
  dict_find iter k = None ->
  - 2 ^ 31 <= v < 2 ^ 31 ->
  field_int32 (dict_write_int iter k v 4 true) k = Some v /\
  (forall k', k' <> k ->
     dict_find (dict_write_int iter k v 4 true) k' = dict_find iter k') /\
  (forall k' t, k' <> k ->
     dict_find iter k' = Some t ->
     (4 <= length (data t))%nat ->
     field_int32 (dict_write_int iter k v 4 true) k' = field_int32 iter k').
Proof.
  intros Hfree Hv.
  assert (Hfind : forall k', k' <> k ->
            dict_find (dict_write_int iter k v 4 true) k' = dict_find iter k').
  { intros k' Hne. unfold dict_write_int, dict_write_tuple, dict_find.
    cbn [tuples]. rewrite find_tuple_app. cbn [key].
    destruct (find_tuple (tuples iter) k'); [reflexivity|].
    now destruct (Z.eqb_spec k k'); [congruence|]. }
  split; [|split; [exact Hfind|]].
  - unfold field_int32, dict_write_int, dict_write_tuple, dict_find in *.
    cbn [tuples]. rewrite find_tuple_app, Hfree. cbn [key]. rewrite Z.eqb_refl.
    cbn [fmap option_fmap option_map]. f_equal.
    unfold value_int32, value. cbn [tuples trailing].
    rewrite memory_from_app_new by exact Hfree. cbn [data].
    exact (int32_read_back v _ Hv).
  - intros k' t Hne Ht Hlen.
    rewrite (field_int32_inside iter k' t Ht Hlen).
    apply field_int32_inside; [|exact Hlen]. now rewrite Hfind.
Qed.

Lemma X1_dict_write_int_read_back_witness :
  field_int32 (dict_write_int (msg_login (lit "abc123")) KEY_REMINDER_INDEX (-7) 4 true)
    KEY_REMINDER_INDEX = Some (-7) /\
  forall k', k' <> KEY_REMINDER_INDEX ->
    dict_find (dict_write_int (msg_login (lit "abc123")) KEY_REMINDER_INDEX (-7) 4 true) k'
    = dict_find (msg_login (lit "abc123")) k'.
Proof.
  destruct (X1_dict_write_int_read_back (msg_login (lit "abc123")) KEY_REMINDER_INDEX (-7))
    as (Hread & Hfind & _).
  - reflexivity.
  - lia.
  - split; [exact Hread|exact Hfind].
Defined.

(** X2.  A C string written with [dict_write_cstring] under a key the
    dictionary does not hold yet is read back by [dict_find] and
    [value->cstring] unchanged, whatever its length; under a key the
    dictionary holds already, the tuple found is still the old one. *)
Theorem X2_dict_write_cstring_read_back
    (iter : DictionaryIterator) (k : Z) (s : cstr) :
  nul_free s ->
  (dict_find iter k = None ->
   field_cstring (dict_write_cstring iter k s) k = Some s) /\
  (forall old, dict_find iter k = Some old ->
   dict_find (dict_write_cstring iter k s) k = Some old).
Proof.
  intros Hs. unfold field_cstring, dict_write_cstring, dict_write_tuple, dict_find.
  cbn [tuples]. split.
  - intros Hfree. rewrite find_tuple_app, Hfree. cbn [key]. rewrite Z.eqb_refl.
    cbn [fmap option_fmap option_map]. f_equal.
    unfold value_cstring, value. cbn [tuples trailing].
    rewrite memory_from_app_new by exact Hfree. cbn [data].
    rewrite <- app_assoc. now apply c_string_terminated.
  - intros old Hold. now rewrite find_tuple_app, Hold.
Qed.

Lemma X2_dict_write_cstring_read_back_witness :
  nul_free (lit "Groceries") /\
  field_cstring (dict_write_cstring (msg_outcome CMD_GET_LISTS STATUS_SUCCESS)
                   KEY_LIST_TITLE (lit "Groceries")) KEY_LIST_TITLE
    = Some (lit "Groceries").
Proof.
  assert (H : nul_free (lit "Groceries")) by (repeat constructor; discriminate).
  split; [exact H|].
  exact (proj1 (X2_dict_write_cstring_read_back
                  (msg_outcome CMD_GET_LISTS STATUS_SUCCESS) KEY_LIST_TITLE
                  (lit "Groceries") H) eq_refl).
Defined.

(** ** The request encoders *)

(** X3.  [send_login_request] changes no global and sends one message:
    its command reads back as Login, and the user name, the account id
    and the account secret of the settings read back unchanged; it
    carries no token field. *)
Theorem X3_login_request_fields (g : Globals) :
  nul_free (s_username g) ->
  nul_free (s_apple_id g) ->
  nul_free (s_apple_password g) ->
  exists out,
    send_login_request g = Ok tt g [app_message_outbox_send out] /\
    field_int32 out KEY_CMD = Some CMD_LOGIN /\
    field_cstring out KEY_USERNAME = Some (s_username g) /\
    field_cstring out KEY_APPLE_ID = Some (s_apple_id g) /\
    field_cstring out KEY_APPLE_PASSWORD = Some (s_apple_password g) /\
    dict_find out KEY_TOKEN = None.
Proof.
  intros Hu Ha Hp. eexists. split; [reflexivity|].
  repeat split; read_field.
Qed.

Lemma X3_login_request_fields_witness :
  exists out,
    send_login_request (set_s_username (lit "alice") initial_globals)
      = Ok tt (set_s_username (lit "alice") initial_globals)
          [app_message_outbox_send out] /\
    field_int32 out KEY_CMD = Some CMD_LOGIN /\
    field_cstring out KEY_USERNAME = Some (lit "alice") /\
    field_cstring out KEY_APPLE_ID = Some [] /\
    field_cstring out KEY_APPLE_PASSWORD = Some [] /\
    dict_find out KEY_TOKEN = None.
Proof.
  apply (X3_login_request_fields (set_s_username (lit "alice") initial_globals));
    repeat constructor; discriminate.
Defined.

(** X4.  The three requests that are sent once logged in (GetLists,
    GetReminders, CompleteReminder) change no global and each send one
    message whose command reads back as its own tag and whose token reads
    back as the stored session token; the list id and the reminder id
    given read back unchanged; none of them carries the user name, the
    account id or the account secret. *)
Theorem X4_session_requests_carry_token_not_credentials
    (g : Globals) (list_id reminder_id : cstr) :
  nul_free (s_token g) ->
  nul_free list_id ->
  nul_free reminder_id ->
  exists lists_req reminders_req complete_req,
    send_get_lists_request g = Ok tt g [app_message_outbox_send lists_req] /\
    send_get_reminders_request list_id g
      = Ok tt g [app_message_outbox_send reminders_req] /\
    send_complete_reminder_request list_id reminder_id g
      = Ok tt g [app_message_outbox_send complete_req] /\
    field_int32 lists_req KEY_CMD = Some CMD_GET_LISTS /\
    field_int32 reminders_req KEY_CMD = Some CMD_GET_REMINDERS /\
    field_int32 complete_req KEY_CMD = Some CMD_COMPLETE_REMINDER /\
    field_cstring reminders_req KEY_LIST_ID = Some list_id /\
    field_cstring complete_req KEY_LIST_ID = Some list_id /\
    field_cstring complete_req KEY_REMINDER_ID = Some reminder_id /\
    dict_find lists_req KEY_LIST_ID = None /\
    dict_find reminders_req KEY_REMINDER_ID = None /\
    forall out, In out [lists_req; reminders_req; complete_req] ->
      field_cstring out KEY_TOKEN = Some (s_token g) /\
      dict_find out KEY_USERNAME = None /\
      dict_find out KEY_APPLE_ID = None /\
      dict_find out KEY_APPLE_PASSWORD = None.
Proof.
  intros Ht Hl Hr. do 3 eexists.
  split; [reflexivity|]. split; [reflexivity|]. split; [reflexivity|].
  repeat split; try read_field.
  all: destruct H as [<-|[<-|[<-|[]]]]; first [read_field | reflexivity].
Qed.

Lemma X4_session_requests_carry_token_not_credentials_witness :
  exists complete_req,
    send_complete_reminder_request (lit "L1") (lit "R7")
      (set_s_token (lit "abc123") initial_globals)
      = Ok tt (set_s_token (lit "abc123") initial_globals)
          [app_message_outbox_send complete_req] /\
    field_cstring complete_req KEY_TOKEN = Some (lit "abc123") /\
    field_cstring complete_req KEY_LIST_ID = Some (lit "L1") /\
    field_cstring complete_req KEY_REMINDER_ID = Some (lit "R7") /\
    dict_find complete_req KEY_APPLE_PASSWORD = None.
Proof.
  assert (Ht : nul_free (s_token (set_s_token (lit "abc123") initial_globals)))
    by (repeat constructor; discriminate).
  assert (Hl : nul_free (lit "L1")) by (repeat constructor; discriminate).
  assert (Hr : nul_free (lit "R7")) by (repeat constructor; discriminate).
  destruct (X4_session_requests_carry_token_not_credentials
              (set_s_token (lit "abc123") initial_globals) (lit "L1") (lit "R7") Ht Hl Hr)
    as (lr & rr & cr & _ & _ & Hc & _ & _ & _ & _ & Hcl & Hcr & _ & _ & Hall).
  exists cr. split; [exact Hc|].
  destruct (Hall cr) as (Htok & _ & _ & Hpw); [right; right; left; reflexivity|].
  repeat split; assumption.
Defined.

(** ** Settings, persistent storage and start-up *)

(** X5.  [load_settings] never fails and makes no SDK call that is
    recorded; each of the four settings takes the stored string, cut to
    its buffer, when its key exists and keeps its value when the key is
    missing; whatever the flag was, afterwards the app is logged in exactly
    when the token it holds is not empty; tables, counts and selection
    indices are not touched. *)
Theorem X5_load_settings_result (persist : Z -> option cstr) (g : Globals) :
  exists g',
    load_settings persist g = Ok tt g' [] /\
    s_token g' = from_option (take 255) (s_token g) (persist PERSIST_KEY_TOKEN) /\
    s_username g' = from_option (take 63) (s_username g) (persist PERSIST_KEY_USERNAME) /\
    s_apple_id g' = from_option (take 63) (s_apple_id g) (persist PERSIST_KEY_APPLE_ID) /\
    s_apple_password g'
      = from_option (take 63) (s_apple_password g) (persist PERSIST_KEY_APPLE_PASSWORD) /\
    s_is_logged_in g' = nonempty (s_token g') /\
    s_lists g' = s_lists g /\ s_reminders g' = s_reminders g /\
    s_list_count g' = s_list_count g /\ s_reminder_count g' = s_reminder_count g /\
    s_current_list_index g' = s_current_list_index g /\
    s_current_reminder_index g' = s_current_reminder_index g.
Proof.
  unfold load_settings.
  destruct (persist PERSIST_KEY_TOKEN), (persist PERSIST_KEY_USERNAME),
    (persist PERSIST_KEY_APPLE_ID), (persist PERSIST_KEY_APPLE_PASSWORD);
    run; eexists; (split; [reflexivity|]); repeat split.
Qed.

Lemma persist_after_app (c1 c2 : list Call) (persist : Z -> option cstr) :
  persist_after (c1 ++ c2) persist = persist_after c2 (persist_after c1 persist).
Proof.
  revert persist. induction c1 as [|c c1 IH]; intros persist; [reflexivity|].
  destruct c; simpl; apply IH.
Qed.

Lemma load_settings_after_writes
    (token username apple_id apple_password : cstr)
    (persist : Z -> option cstr) (g0 : Globals) :
  fits 256 token -> fits 64 username -> fits 64 apple_id -> fits 64 apple_password ->
  exists g',
    load_settings
      (persist_after
         [persist_write_string PERSIST_KEY_TOKEN token;
          persist_write_string PERSIST_KEY_USERNAME username;
          persist_write_string PERSIST_KEY_APPLE_ID apple_id;
          persist_write_string PERSIST_KEY_APPLE_PASSWORD apple_password] persist) g0
      = Ok tt g' [] /\
    s_token g' = token /\ s_username g' = username /\
    s_apple_id g' = apple_id /\ s_apple_password g' = apple_password /\
    s_is_logged_in g' = nonempty token.
Proof.
  intros Ht Hu Ha Hp. unfold load_settings.
  cbn [persist_after persist_write Z.eqb Pos.eqb PERSIST_KEY_TOKEN PERSIST_KEY_USERNAME
       PERSIST_KEY_APPLE_ID PERSIST_KEY_APPLE_PASSWORD].
  run. eexists. split; [reflexivity|].
  cbn [s_token s_username s_apple_id s_apple_password s_is_logged_in
       set_s_token set_s_username set_s_apple_id set_s_apple_password set_s_is_logged_in].
  rewrite !snprintf_short by assumption. repeat split.
Qed.

(** X6.  What [save_settings] writes, [load_settings] reads back: from
    well-formed globals, the four strings written to the storage are
    loaded unchanged into any globals at the next start, over whatever the
    storage held, and the flag loaded is true exactly when the saved token
    is not empty. *)
Theorem X6_saved_settings_load_back
    (g g0 : Globals) (persist : Z -> option cstr) :
  wf_globals g ->
  exists calls g',
    save_settings g = Ok tt g calls /\
    load_settings (persist_after calls persist) g0 = Ok tt g' [] /\
    s_token g' = s_token g /\
    s_username g' = s_username g /\
    s_apple_id g' = s_apple_id g /\
    s_apple_password g' = s_apple_password g /\
    s_is_logged_in g' = nonempty (s_token g).
Proof.
  intros Hg.
  destruct (load_settings_after_writes (s_token g) (s_username g) (s_apple_id g)
              (s_apple_password g) persist g0) as (g' & E & H); try apply Hg.
  eexists. exists g'. split; [reflexivity|]. split; [exact E|exact H].
Qed.

Lemma X6_saved_settings_load_back_witness :
  wf_globals (set_s_token (lit "abc123") initial_globals) /\
  exists calls g',
    save_settings (set_s_token (lit "abc123") initial_globals)
      = Ok tt (set_s_token (lit "abc123") initial_globals) calls /\
    load_settings (persist_after calls (fun _ => None)) initial_globals = Ok tt g' [] /\
    s_token g' = lit "abc123" /\
    s_is_logged_in g' = true.
Proof.
  assert (Hg : wf_globals (set_s_token (lit "abc123") initial_globals)).
  { apply wf_set_s_token; [unfold fits; simpl; lia|exact initial_globals_wf]. }
  split; [exact Hg|].
  destruct (X6_saved_settings_load_back (set_s_token (lit "abc123") initial_globals)
              initial_globals (fun _ => None) Hg)
    as (calls & g' & Hs & Hl & Ht & _ & _ & _ & Hf).
  exists calls, g'. repeat split; assumption.
Defined.

(** The slot block only reloads menus. *)
Lemma inbox_received_slot_calls (m : DictionaryIterator) (g g' : Globals) (calls : list Call) :
  inbox_received_slot m g = Ok tt g' calls ->
  Forall (fun c => exists menu, c = menu_layer_reload_data menu) calls.
Proof.
  unfold inbox_received_slot.
  destruct (dict_find m KEY_REMINDER_INDEX) as [it|]; [|now intros [= <- <-]].
  destruct (dict_find m KEY_LIST_ID), (dict_find m KEY_LIST_TITLE),
    (value_int32 m it <? MAX_LISTS),
    (dict_find m KEY_REMINDER_ID), (dict_find m KEY_REMINDER_TITLE),
    (value_int32 m it <? MAX_REMINDERS);
    run; unfold s_lists_store, s_reminders_store;
    destruct ((0 <=? value_int32 m it) && (value_int32 m it <? MAX_LISTS));
    destruct ((0 <=? value_int32 m it) && (value_int32 m it <? MAX_REMINDERS));
    cbn [s_reminders_window set_s_reminders];
    try destruct (s_reminders_window g);
    intros [= <- <-]; repeat constructor; eauto.
Qed.

Lemma persist_after_reloads (calls : list Call) (persist : Z -> option cstr) :
  Forall (fun c => exists menu, c = menu_layer_reload_data menu) calls ->
  persist_after calls persist = persist.
Proof.
  induction 1 as [|c calls [menu ->] _ IH]; [reflexivity|]. exact IH.
Qed.

(** X7.  A login survives a restart.  After a Login message with a status
    other than ERROR, a token field and no negative slot index, handled
    in well-formed globals, [load_settings], run in any globals over the
    storage as the handler left it, loads the very token the session
    holds (the received token cut to 255 characters) and the stored user
    name, and finds the app logged in exactly when that token is not
    empty. *)
Theorem X7_login_survives_restart
    (m : DictionaryIterator) (g g0 : Globals) (status : Z) (token : cstr)
    (persist : Z -> option cstr) :
  field_int32 m KEY_CMD = Some CMD_LOGIN ->
  field_int32 m KEY_STATUS = Some status ->
  status <> STATUS_ERROR ->
  field_cstring m KEY_TOKEN = Some token ->
  slot_index_not_negative m ->
  wf_globals g ->
  exists g' calls g'',
    inbox_received_callback m g = Ok tt g' calls /\
    load_settings (persist_after calls persist) g0 = Ok tt g'' [] /\
    s_token g'' = s_token g' /\
    s_token g'' = take 255 token /\
    s_username g'' = s_username g /\
    s_is_logged_in g'' = nonempty (take 255 token).
Proof.
  intros Hc Hs Hne Ht Hnn Hg.
  rewrite (inbox_received_callback_after_switch m g _ _ _ _ Hc Hs Hne
             (inbox_received_switch_login m status g token Ht)).
  destruct (inbox_received_slot_total m
              (set_s_is_logged_in true (set_s_token (snprintf 256 token) g)) Hnn)
    as (g' & calls & E & Hframe).
  rewrite E.
  destruct (load_settings_after_writes (snprintf 256 token) (s_username g) (s_apple_id g)
              (s_apple_password g) persist g0) as (g'' & El & Htok & Hu & _ & _ & Hf);
    try apply Hg; [apply snprintf_fits; lia|].
  exists g'. eexists. exists g''. split; [reflexivity|].
  rewrite persist_after_app,
    (persist_after_reloads calls _ (inbox_received_slot_calls m _ g' calls E)).
  split; [exact El|].
  rewrite Htok, Hu, Hf, Hframe. repeat split.
Qed.

Lemma X7_login_survives_restart_witness :
  exists g' calls g'',
    inbox_received_callback (msg_login (lit "abc123")) initial_globals = Ok tt g' calls /\
    load_settings (persist_after calls (fun _ => None)) initial_globals = Ok tt g'' [] /\
    s_token g'' = s_token g' /\
    s_token g'' = take 255 (lit "abc123") /\
    s_username g'' = s_username initial_globals /\
    s_is_logged_in g'' = nonempty (take 255 (lit "abc123")).
Proof.
  assert (Hne : STATUS_SUCCESS <> STATUS_ERROR) by discriminate.
  assert (Hnn : slot_index_not_negative (msg_login (lit "abc123")))
    by (intros index H; discriminate H).
  exact (X7_login_survives_restart (msg_login (lit "abc123")) initial_globals
           initial_globals STATUS_SUCCESS (lit "abc123") (fun _ => None)
           eq_refl eq_refl Hne eq_refl Hnn initial_globals_wf).
Defined.

Ltac ui_run :=
  cbv [mbind Ui_bind mret Ui_ret ui_get ui_modify ui_call ui_skip lift
       show_reminders_window show_settings_window show_detail_window].

(** X8.  Start-up, from the initial globals.  When the storage holds a
    token that is not empty, [init] registers the callbacks, opens the
    message channel, pushes the main window and sends the GetLists request
    with that token (cut to 255 characters); no settings window is
    created.  When the storage holds no token, or an empty one, [init]
    shows the settings window instead and sends nothing. *)
Theorem X8_init_requests_lists_iff_token_stored
    (persist : Z -> option cstr) (main_window settings_window : option Window) :
  (forall b v, persist PERSIST_KEY_TOKEN = Some (b :: v) ->
   exists g',
     init persist main_window settings_window initial_globals =
       UiOk tt g'
         [app_message_register inbox_received; app_message_register inbox_dropped;
          app_message_register outbox_failed; app_message_register outbox_sent;
          app_message_open 512 512;
          window_set_window_handlers main_window main_window_handlers;
          window_stack_push main_window;
          sdk (app_message_outbox_send
                 [tuple_int KEY_CMD CMD_GET_LISTS;
                  tuple_cstring KEY_TOKEN (take 255 (b :: v))])] /\
     s_is_logged_in g' = true /\
     s_token g' = take 255 (b :: v) /\
     s_settings_window g' = None) /\
  (persist PERSIST_KEY_TOKEN = None \/ persist PERSIST_KEY_TOKEN = Some [] ->
   exists g',
     init persist main_window settings_window initial_globals =
       UiOk tt g'
         [app_message_register inbox_received; app_message_register inbox_dropped;
          app_message_register outbox_failed; app_message_register outbox_sent;
          app_message_open 512 512;
          window_set_window_handlers main_window main_window_handlers;
          window_stack_push main_window;
          window_set_window_handlers settings_window settings_window_handlers;
          window_stack_push settings_window] /\
     s_is_logged_in g' = false /\
     s_token g' = [] /\
     s_settings_window g' = settings_window).
Proof.
  split.
  - intros b v Ht. unfold init, load_settings. rewrite Ht.
    destruct (persist PERSIST_KEY_USERNAME), (persist PERSIST_KEY_APPLE_ID),
      (persist PERSIST_KEY_APPLE_PASSWORD);
      run; ui_run; eexists; (split; [reflexivity|]); repeat split.
  - intros [Ht|Ht]; unfold init, load_settings; rewrite Ht;
      destruct (persist PERSIST_KEY_USERNAME), (persist PERSIST_KEY_APPLE_ID),
        (persist PERSIST_KEY_APPLE_PASSWORD);
      run; ui_run; eexists; (split; [reflexivity|]); repeat split.
Qed.

Lemma X8_init_requests_lists_iff_token_stored_witness :
  exists g',
    init (fun k => if k =? PERSIST_KEY_TOKEN then Some (lit "abc123") else None)
      (Some 1%nat) (Some 2%nat) initial_globals =
      UiOk tt g'
        [app_message_register inbox_received; app_message_register inbox_dropped;
         app_message_register outbox_failed; app_message_register outbox_sent;
         app_message_open 512 512;
         window_set_window_handlers (Some 1%nat) main_window_handlers;
         window_stack_push (Some 1%nat);
         sdk (app_message_outbox_send
                [tuple_int KEY_CMD CMD_GET_LISTS;
                 tuple_cstring KEY_TOKEN (lit "abc123")])] /\
    s_is_logged_in g' = true /\
    s_token g' = lit "abc123" /\
    s_settings_window g' = None.
Proof.
  exact (proj1 (X8_init_requests_lists_iff_token_stored
                  (fun k => if k =? PERSIST_KEY_TOKEN then Some (lit "abc123") else None)
                  (Some 1%nat) (Some 2%nat))
               "a"%byte (lit "bc123") eq_refl).
Defined.

(** ** What a message can change *)

(** The three ways through the handler. *)
Lemma inbox_received_callback_cases (m : DictionaryIterator) (g : Globals) :
  inbox_received_callback m g = Ok tt g [] \/
  inbox_received_callback m g =
    Ok tt g
      [app_log_error (lit "Error: %s")
         (default (lit "Unknown error") (field_cstring m KEY_ERROR));
       error_window_push
         (snprintf 128
            (lit "Error: " ++ default (lit "Unknown error") (field_cstring m KEY_ERROR)))] \/
  exists cmd status,
    field_int32 m KEY_CMD = Some cmd /\
    field_int32 m KEY_STATUS = Some status /\
    status <> STATUS_ERROR /\
    inbox_received_callback m g =
      (inbox_received_switch m cmd status;; inbox_received_slot m) g.
Proof.
  destruct (dict_find m KEY_CMD) as [ct|] eqn:Hc.
  - destruct (decide (default STATUS_ERROR (field_int32 m KEY_STATUS) = STATUS_ERROR))
      as [Herr|Hok].
    + right; left. apply inbox_received_callback_error; eauto.
    + right; right. destruct (field_int32 m KEY_STATUS) as [status|] eqn:Hs;
        [|now elim Hok].
      exists (value_int32 m ct), status.
      assert (Hcmd : field_int32 m KEY_CMD = Some (value_int32 m ct))
        by (unfold field_int32; now rewrite Hc).
      repeat split; try assumption.
      now rewrite (inbox_received_callback_success m _ status Hcmd Hs Hok).
  - left. unfold inbox_received_callback. now rewrite Hc.
Qed.

(** What the [switch] can change: the token and the flag, a count, one
    completed flag.  Its calls reload the reminders menu only in the
    CompleteReminder SUCCESS case or when the reminders window is open. *)
Lemma inbox_received_switch_frame
    (m : DictionaryIterator) (cmd status : Z) (g g1 : Globals) (c1 : list Call) :
  inbox_received_switch m cmd status g = Ok tt g1 c1 ->
  same_credentials_and_cursors g g1 /\
  s_lists g1 = s_lists g /\
  (~ (cmd = CMD_COMPLETE_REMINDER /\ status = STATUS_SUCCESS) ->
   s_reminders g1 = s_reminders g /\
   (s_reminders_window g = None ->
    ~ In (menu_layer_reload_data s_reminders_menu_layer) c1)).
Proof.
  unfold inbox_received_switch, same_credentials_and_cursors.
  destruct (Z.eqb_spec cmd CMD_LOGIN) as [->|_].
  { destruct (dict_find m KEY_TOKEN); run; intros [= <- <-];
      repeat split; try reflexivity; intros _ Hin; simpl in Hin;
      intuition discriminate. }
  destruct (Z.eqb_spec cmd CMD_GET_LISTS) as [->|_].
  { destruct (dict_find m KEY_COUNT); run; [cbn [s_list_count set_s_list_count];
      destruct (_ >? MAX_LISTS)|]; intros [= <- <-];
      repeat split; try reflexivity; intros _ Hin; simpl in Hin;
      intuition discriminate. }
  destruct (Z.eqb_spec cmd CMD_GET_REMINDERS) as [->|_].
  { destruct (dict_find m KEY_COUNT); run;
      [cbn [s_reminder_count set_s_reminder_count s_reminders_window];
       destruct (_ >? MAX_REMINDERS);
       cbn [s_reminders_window set_s_reminder_count];
       destruct (s_reminders_window g) eqn:Hw|];
      intros [= <- <-]; repeat split; try reflexivity; try exact Hw;
      intros Hnone Hin; simpl in Hin; try discriminate Hnone; intuition discriminate. }
  destruct (Z.eqb_spec cmd CMD_COMPLETE_REMINDER) as [->|_];
    [|run; intros [= <- <-]; repeat split; try reflexivity; intros _ [] ].
  destruct (Z.eqb_spec status STATUS_SUCCESS) as [->|Hs];
    [|run; intros [= <- <-]; repeat split; try reflexivity; try (intros _ []) ].
  run. destruct (_ && _).
  - unfold s_reminders_store. destruct (_ && _); [|discriminate].
    intros [= <- <-]. split; [repeat split|]. split; [reflexivity|].
    intros Hneg; elim Hneg; now split.
  - intros [= <- <-]. split; [repeat split|]. split; [reflexivity|].
    intros Hneg; elim Hneg; now split.
Qed.

(** What the slot block can change: one slot of one table.  It does not
    reload the reminders menu while the reminders window is closed. *)
Lemma inbox_received_slot_frame
    (m : DictionaryIterator) (g g' : Globals) (calls : list Call) :
  inbox_received_slot m g = Ok tt g' calls ->
  only_tables_differ g g' /\
  (s_reminders_window g = None ->
   ~ In (menu_layer_reload_data s_reminders_menu_layer) calls) /\
  forall j, (forall index, field_int32 m KEY_REMINDER_INDEX = Some index ->
                           j <> Z.to_nat index) ->
            s_lists g' !! j = s_lists g !! j /\
            s_reminders g' !! j = s_reminders g !! j.
Proof.
  unfold inbox_received_slot, field_int32.
  destruct (dict_find m KEY_REMINDER_INDEX) as [it|].
  2: { intros [= <- <-]. split; [apply only_tables_differ_refl|]. split; auto. }
  cbn [fmap option_fmap option_map].
  destruct (dict_find m KEY_LIST_ID), (dict_find m KEY_LIST_TITLE),
    (value_int32 m it <? MAX_LISTS),
    (dict_find m KEY_REMINDER_ID), (dict_find m KEY_REMINDER_TITLE),
    (value_int32 m it <? MAX_REMINDERS);
    run; unfold s_lists_store, s_reminders_store;
    destruct ((0 <=? value_int32 m it) && (value_int32 m it <? MAX_LISTS));
    destruct ((0 <=? value_int32 m it) && (value_int32 m it <? MAX_REMINDERS));
    cbn [s_reminders_window set_s_reminders];
    try destruct (s_reminders_window g) eqn:Hw;
    intros [= <- <-];
    (split; [destruct g; reflexivity|]);
    (split; [intros Hnone Hin; simpl in Hin; try discriminate Hnone;
             intuition discriminate|]);
    intros j Hj; specialize (Hj _ eq_refl);
    cbn [s_lists s_reminders set_s_lists set_s_reminders];
    rewrite ?list_lookup_alter_ne by congruence; split; reflexivity.
Qed.

Lemma bind_Ok_inv {A B} (m : M A) (k : A -> M B) (g g' : Globals) (b : B)
    (calls : list Call) :
  (m ≫= k) g = Ok b g' calls ->
  exists a g1 c1 c2, m g = Ok a g1 c1 /\ k a g1 = Ok b g' c2 /\ calls = c1 ++ c2.
Proof.
  unfold mbind, M_bind. destruct (m g) as [a g1 c1|]; [|discriminate].
  destruct (k a g1) as [b' g2 c2|] eqn:E; [|discriminate].
  intros [= <- <- <-]. now exists a, g1, c1, c2.
Qed.

Lemma inbox_received_callback_frame
    (m : DictionaryIterator) (g g' : Globals) (calls : list Call) :
  inbox_received_callback m g = Ok tt g' calls ->
  same_credentials_and_cursors g g' /\
  (~ (field_int32 m KEY_CMD = Some CMD_COMPLETE_REMINDER /\
      field_int32 m KEY_STATUS = Some STATUS_SUCCESS) ->
   (s_reminders_window g = None ->
    ~ In (menu_layer_reload_data s_reminders_menu_layer) calls) /\
   forall j, (forall index, field_int32 m KEY_REMINDER_INDEX = Some index ->
                            j <> Z.to_nat index) ->
             s_lists g' !! j = s_lists g !! j /\
             s_reminders g' !! j = s_reminders g !! j).
Proof.
  intros E.
  destruct (inbox_received_callback_cases m g)
    as [E0|[E0|(cmd & status & Hc & Hs & Hne & E0)]]; rewrite E0 in E.
  - injection E as <- <-. split; [now repeat split|]. intros _. split; auto.
  - injection E as <- <-. split; [now repeat split|]. intros _. split; [|auto].
    intros _ Hin. simpl in Hin. intuition discriminate.
  - apply bind_Ok_inv in E as ([] & g1 & c1 & c2 & E1 & E2 & ->).
    apply inbox_received_switch_frame in E1 as (Hsame & Hlists & Hrest).
    apply inbox_received_slot_frame in E2 as (Htab & Hreload & Hslots).
    assert (Hsame' : same_credentials_and_cursors g g').
    { unfold same_credentials_and_cursors in *. rewrite Htab.
      cbn [s_username s_apple_id s_apple_password s_current_list_index
           s_current_reminder_index s_settings_window s_reminders_window
           s_detail_window set_s_reminders set_s_lists].
      exact Hsame. }
    split; [exact Hsame'|].
    intros Hnot.
    destruct Hrest as (Hrems & Hreload1).
    { intros [-> ->]. apply Hnot. now split. }
    split.
    + intros Hnone Hin. apply in_app_or in Hin as [Hin|Hin].
      * now apply Hreload1.
      * apply Hreload; [|exact Hin].
        destruct Hsame as (_ & _ & _ & _ & _ & _ & Hw & _). now rewrite Hw.
    + intros j Hj. destruct (Hslots j Hj) as (Hl & Hr).
      now rewrite Hl, Hr, Hlists, Hrems.
Qed.

(** X9.  From well-formed globals, and unless the message carries a
    negative slot index, the handler ends without a fault and leaves
    well-formed globals: both tables keep their declared length, both
    counts stay at or below the capacity and every stored string is
    shorter than its buffer. *)
Theorem X9_handler_ends_and_keeps_wf (m : DictionaryIterator) (g : Globals) :
  wf_globals g ->
  slot_index_not_negative m ->
  exists g' calls,
    inbox_received_callback m g = Ok tt g' calls /\
    length (s_lists g') = Z.to_nat MAX_LISTS /\
    length (s_reminders g') = Z.to_nat MAX_REMINDERS /\
    s_list_count g' <= MAX_LISTS /\
    s_reminder_count g' <= MAX_REMINDERS /\
    fits 256 (s_token g') /\
    Forall wf_list (s_lists g') /\
    Forall wf_reminder (s_reminders g').
Proof.
  intros Hg Hnn.
  destruct (inbox_received_callback_total m g Hg Hnn) as (g' & calls & E & Hg').
  exists g', calls. split; [exact E|]. destruct Hg'. repeat split; assumption.
Qed.

Lemma X9_handler_ends_and_keeps_wf_witness :
  wf_globals initial_globals /\
  exists g' calls,
    inbox_received_callback (msg_count CMD_GET_REMINDERS STATUS_SUCCESS 70) initial_globals
      = Ok tt g' calls /\
    length (s_lists g') = Z.to_nat MAX_LISTS /\
    length (s_reminders g') = Z.to_nat MAX_REMINDERS /\
    s_list_count g' <= MAX_LISTS /\
    s_reminder_count g' <= MAX_REMINDERS /\
    fits 256 (s_token g') /\
    Forall wf_list (s_lists g') /\
    Forall wf_reminder (s_reminders g').
Proof.
  split; [exact initial_globals_wf|].
  exact (X9_handler_ends_and_keeps_wf (msg_count CMD_GET_REMINDERS STATUS_SUCCESS 70)
           initial_globals initial_globals_wf (msg_count_not_negative _ _ _)).
Defined.

(** X10.  No inbound message changes the stored user name, account id or
    account secret, either selection index, or any of the three window
    pointers: whenever the handler ends (without a write outside a table)
    all of these are as before, whatever the message and the globals are;
    and from well-formed globals and without a negative slot index, the
    handler does end. *)
Theorem X10_handler_leaves_credentials_and_cursors
    (m : DictionaryIterator) (g : Globals) :
  (forall g' calls,
     inbox_received_callback m g = Ok tt g' calls ->
     same_credentials_and_cursors g g') /\
  (wf_globals g ->
   slot_index_not_negative m ->
   exists g' calls,
     inbox_received_callback m g = Ok tt g' calls /\
     same_credentials_and_cursors g g').
Proof.
  split.
  - intros g' calls E. exact (proj1 (inbox_received_callback_frame m g g' calls E)).
  - intros Hg Hnn.
    destruct (inbox_received_callback_total m g Hg Hnn) as (g' & calls & E & _).
    exists g', calls. split; [exact E|].
    exact (proj1 (inbox_received_callback_frame m g g' calls E)).
Qed.

Lemma X10_handler_leaves_credentials_and_cursors_witness :
  wf_globals initial_globals /\
  slot_index_not_negative (msg_login (lit "abc123")) /\
  exists g' calls,
    inbox_received_callback (msg_login (lit "abc123")) initial_globals = Ok tt g' calls /\
    same_credentials_and_cursors initial_globals g'.
Proof.
  assert (Hnn : slot_index_not_negative (msg_login (lit "abc123")))
    by (intros index H; discriminate H).
  split; [exact initial_globals_wf|]. split; [exact Hnn|].
  exact (proj2 (X10_handler_leaves_credentials_and_cursors (msg_login (lit "abc123"))
                  initial_globals) initial_globals_wf Hnn).
Defined.

(** X11.  While the reminders window is closed, the handler does not
    reload the reminders menu, whatever the message is, except for a
    CompleteReminder outcome with status SUCCESS (whose reload at line 205
    is not guarded): no run of the handler that ends makes that call; and
    from well-formed globals and without a negative slot index, the
    handler does end. *)
Theorem X11_no_reminders_reload_while_window_closed
    (m : DictionaryIterator) (g : Globals) :
  s_reminders_window g = None ->
  ~ (field_int32 m KEY_CMD = Some CMD_COMPLETE_REMINDER /\
     field_int32 m KEY_STATUS = Some STATUS_SUCCESS) ->
  (forall g' calls,
     inbox_received_callback m g = Ok tt g' calls ->
     ~ In (menu_layer_reload_data s_reminders_menu_layer) calls) /\
  (wf_globals g ->
   slot_index_not_negative m ->
   exists g' calls,
     inbox_received_callback m g = Ok tt g' calls /\
     ~ In (menu_layer_reload_data s_reminders_menu_layer) calls).
Proof.
  intros Hnone Hnot.
  assert (Hall : forall g' calls,
            inbox_received_callback m g = Ok tt g' calls ->
            ~ In (menu_layer_reload_data s_reminders_menu_layer) calls).
  { intros g' calls E.
    destruct (inbox_received_callback_frame m g g' calls E) as (_ & H).
    now apply H. }
  split; [exact Hall|].
  intros Hg Hnn.
  destruct (inbox_received_callback_total m g Hg Hnn) as (g' & calls & E & _).
  exists g', calls. split; [exact E|]. exact (Hall g' calls E).
Qed.

Lemma X11_no_reminders_reload_while_window_closed_witness :
  s_reminders_window initial_globals = None /\
  exists g' calls,
    inbox_received_callback
      (msg_reminder_slot CMD_GET_REMINDERS 2 (lit "R7") (lit "Buy milk") (lit "L1"))
      initial_globals = Ok tt g' calls /\
    ~ In (menu_layer_reload_data s_reminders_menu_layer) calls.
Proof.
  split; [reflexivity|].
  apply (X11_no_reminders_reload_while_window_closed
           (msg_reminder_slot CMD_GET_REMINDERS 2 (lit "R7") (lit "Buy milk") (lit "L1"))
           initial_globals).
  - reflexivity.
  - intros [H _]. discriminate H.
  - exact initial_globals_wf.
  - intros index H. injection H as <-. vm_compute. discriminate.
Defined.

(** X12.  A message changes at most one slot.  Unless it is a
    CompleteReminder outcome with status SUCCESS, after any run of the
    handler that ends every entry of the lists table and of the reminders
    table at a position other than the slot index of the message is as
    before, and a message without a slot index changes no entry at all;
    and from well-formed globals and without a negative slot index, the
    handler does end. *)
Theorem X12_only_the_indexed_slot_changes
    (m : DictionaryIterator) (g : Globals) :
  ~ (field_int32 m KEY_CMD = Some CMD_COMPLETE_REMINDER /\
     field_int32 m KEY_STATUS = Some STATUS_SUCCESS) ->
  (forall g' calls,
     inbox_received_callback m g = Ok tt g' calls ->
     (forall j, (forall index, field_int32 m KEY_REMINDER_INDEX = Some index ->
                               j <> Z.to_nat index) ->
                s_lists g' !! j = s_lists g !! j /\
                s_reminders g' !! j = s_reminders g !! j) /\
     (dict_find m KEY_REMINDER_INDEX = None ->
      s_lists g' = s_lists g /\ s_reminders g' = s_reminders g)) /\
  (wf_globals g ->
   slot_index_not_negative m ->
   exists g' calls, inbox_received_callback m g = Ok tt g' calls).
Proof.
  intros Hnot. split.
  - intros g' calls E.
    destruct (inbox_received_callback_frame m g g' calls E) as (_ & H).
    destruct (H Hnot) as (_ & Hslots). split; [exact Hslots|].
    intros Hnone.
    assert (Hall : forall j, s_lists g' !! j = s_lists g !! j /\
                             s_reminders g' !! j = s_reminders g !! j).
    { intros j. apply Hslots. intros index Hi. unfold field_int32 in Hi.
      rewrite Hnone in Hi. discriminate Hi. }
    split; apply list_eq; intros j; apply Hall.
  - intros Hg Hnn.
    destruct (inbox_received_callback_total m g Hg Hnn) as (g' & calls & E & _).
    now exists g', calls.
Qed.

Lemma X12_only_the_indexed_slot_changes_witness :
  (forall g' calls,
     inbox_received_callback
       (msg_list_slot CMD_GET_LISTS 3 (lit "L4") (lit "Errands")) initial_globals
       = Ok tt g' calls ->
     forall j, j <> 3%nat ->
       s_lists g' !! j = s_lists initial_globals !! j /\
       s_reminders g' !! j = s_reminders initial_globals !! j) /\
  exists g' calls,
    inbox_received_callback
      (msg_list_slot CMD_GET_LISTS 3 (lit "L4") (lit "Errands")) initial_globals
      = Ok tt g' calls.
Proof.
  assert (Hnot : ~ (field_int32 (msg_list_slot CMD_GET_LISTS 3 (lit "L4") (lit "Errands"))
                      KEY_CMD = Some CMD_COMPLETE_REMINDER /\
                    field_int32 (msg_list_slot CMD_GET_LISTS 3 (lit "L4") (lit "Errands"))
                      KEY_STATUS = Some STATUS_SUCCESS))
    by (intros [H _]; discriminate H).
  destruct (X12_only_the_indexed_slot_changes
              (msg_list_slot CMD_GET_LISTS 3 (lit "L4") (lit "Errands"))
              initial_globals Hnot) as (Hframe & Hend).
  split.
  - intros g' calls E j Hj. apply (proj1 (Hframe g' calls E)).
    intros index H. injection H as <-. exact Hj.
  - apply Hend; [exact initial_globals_wf|].
    intros index H. injection H as <-. vm_compute. discriminate.
Defined.

(** ** Slot messages of a listing *)

Lemma inbox_received_switch_get_lists_without_count
    (m : DictionaryIterator) (status : Z) (g : Globals) :
  dict_find m KEY_COUNT = None ->
  inbox_received_switch m CMD_GET_LISTS status g = Ok tt g [].
Proof.
  intros H. unfold inbox_received_switch.
  cbn [Z.eqb CMD_LOGIN CMD_GET_LISTS Pos.eqb]. now rewrite H.
Qed.

(** A list slot message of a GetLists listing: the command tag of the
    listing, a status other than ERROR, no count, and the slot. *)
Lemma list_slot_message_result
    (m : DictionaryIterator) (g : Globals) (status index : Z) (lid ltitle : cstr) :
  field_int32 m KEY_CMD = Some CMD_GET_LISTS ->
  field_int32 m KEY_STATUS = Some status ->
  status <> STATUS_ERROR ->
  dict_find m KEY_COUNT = None ->
  field_int32 m KEY_REMINDER_INDEX = Some index ->
  field_cstring m KEY_LIST_ID = Some lid ->
  field_cstring m KEY_LIST_TITLE = Some ltitle ->
  0 <= index < MAX_LISTS ->
  inbox_received_callback m g =
    Ok tt (set_s_lists
             (alter (fun _ => ReminderList.mk (snprintf 64 lid) (snprintf 64 ltitle))
                (Z.to_nat index) (s_lists g)) g)
      [menu_layer_reload_data s_menu_layer].
Proof.
  intros Hc Hs Hne Hcount Hi Hlid Hlt Hb.
  rewrite (inbox_received_callback_after_switch m g _ _ _ _ Hc Hs Hne
             (inbox_received_switch_get_lists_without_count m status g Hcount)).
  rewrite (inbox_received_slot_list m g index lid ltitle Hi Hlid Hlt Hb).
  now rewrite list_alter_alter_eq.
Qed.

(** X13.  List slot messages of a listing may arrive in either order.  For
    two such messages with different slot indices inside the table,
    handled from well-formed globals, handling the first then the second
    gives the same globals and the same calls as handling the second then
    the first, and afterwards each of the two slots holds the id and title
    of its own message (each cut to 63 characters). *)
Theorem X13_list_slots_arrive_in_any_order
    (m1 m2 : DictionaryIterator) (g : Globals) (status1 status2 i1 i2 : Z)
    (lid1 ltitle1 lid2 ltitle2 : cstr) :
  wf_globals g ->
  field_int32 m1 KEY_CMD = Some CMD_GET_LISTS ->
  field_int32 m1 KEY_STATUS = Some status1 ->
  status1 <> STATUS_ERROR ->
  dict_find m1 KEY_COUNT = None ->
  field_int32 m1 KEY_REMINDER_INDEX = Some i1 ->
  field_cstring m1 KEY_LIST_ID = Some lid1 ->
  field_cstring m1 KEY_LIST_TITLE = Some ltitle1 ->
  field_int32 m2 KEY_CMD = Some CMD_GET_LISTS ->
  field_int32 m2 KEY_STATUS = Some status2 ->
  status2 <> STATUS_ERROR ->
  dict_find m2 KEY_COUNT = None ->
  field_int32 m2 KEY_REMINDER_INDEX = Some i2 ->
  field_cstring m2 KEY_LIST_ID = Some lid2 ->
  field_cstring m2 KEY_LIST_TITLE = Some ltitle2 ->
  0 <= i1 < MAX_LISTS ->
  0 <= i2 < MAX_LISTS ->
  i1 <> i2 ->
  exists g',
    (inbox_received_callback m1;; inbox_received_callback m2) g
      = Ok tt g' [menu_layer_reload_data s_menu_layer; menu_layer_reload_data s_menu_layer] /\
    (inbox_received_callback m2;; inbox_received_callback m1) g
      = Ok tt g' [menu_layer_reload_data s_menu_layer; menu_layer_reload_data s_menu_layer] /\
    s_lists g' !! Z.to_nat i1
      = Some (ReminderList.mk (snprintf 64 lid1) (snprintf 64 ltitle1)) /\
    s_lists g' !! Z.to_nat i2
      = Some (ReminderList.mk (snprintf 64 lid2) (snprintf 64 ltitle2)).
Proof.
  intros Hg Hc1 Hs1 Hne1 Hn1 Hi1 Hl1 Ht1 Hc2 Hs2 Hne2 Hn2 Hi2 Hl2 Ht2 Hb1 Hb2 Hdiff.
  assert (Hnat : Z.to_nat i1 <> Z.to_nat i2) by lia.
  eexists. unfold mbind, M_bind.
  rewrite (list_slot_message_result m1 g status1 i1 lid1 ltitle1) by assumption.
  rewrite (list_slot_message_result m2 _ status2 i2 lid2 ltitle2) by assumption.
  split; [reflexivity|].
  rewrite (list_slot_message_result m2 g status2 i2 lid2 ltitle2) by assumption.
  rewrite (list_slot_message_result m1 _ status1 i1 lid1 ltitle1) by assumption.
  cbn [s_lists set_s_lists app].
  split; [now rewrite (list_alter_alter_ne _ _ _ _ _ Hnat)|].
  destruct (lookup_in_table (s_lists g) MAX_LISTS i1) as [l1 E1]; [apply Hg|exact Hb1|].
  destruct (lookup_in_table (s_lists g) MAX_LISTS i2) as [l2 E2]; [apply Hg|exact Hb2|].
  split.
  - rewrite list_lookup_alter_ne by congruence.
    now rewrite list_lookup_alter_eq, E1.
  - now rewrite list_lookup_alter_eq, list_lookup_alter_ne, E2 by congruence.
Qed.

Lemma X13_list_slots_arrive_in_any_order_witness :
  exists g',
    (inbox_received_callback (msg_list_slot CMD_GET_LISTS 0 (lit "L1") (lit "Groceries"));;
     inbox_received_callback (msg_list_slot CMD_GET_LISTS 1 (lit "L2") (lit "Errands")))
      initial_globals
      = Ok tt g' [menu_layer_reload_data s_menu_layer; menu_layer_reload_data s_menu_layer] /\
    (inbox_received_callback (msg_list_slot CMD_GET_LISTS 1 (lit "L2") (lit "Errands"));;
     inbox_received_callback (msg_list_slot CMD_GET_LISTS 0 (lit "L1") (lit "Groceries")))
      initial_globals
      = Ok tt g' [menu_layer_reload_data s_menu_layer; menu_layer_reload_data s_menu_layer] /\
    s_lists g' !! 0%nat = Some (ReminderList.mk (lit "L1") (lit "Groceries")) /\
    s_lists g' !! 1%nat = Some (ReminderList.mk (lit "L2") (lit "Errands")).
Proof.
  assert (Hne : STATUS_SUCCESS <> STATUS_ERROR) by discriminate.
  assert (Hb0 : 0 <= 0 < MAX_LISTS) by (unfold MAX_LISTS; lia).
  assert (Hb1 : 0 <= 1 < MAX_LISTS) by (unfold MAX_LISTS; lia).
  assert (Hd : 0 <> 1) by lia.
  exact (X13_list_slots_arrive_in_any_order
           (msg_list_slot CMD_GET_LISTS 0 (lit "L1") (lit "Groceries"))
           (msg_list_slot CMD_GET_LISTS 1 (lit "L2") (lit "Errands"))
           initial_globals STATUS_SUCCESS STATUS_SUCCESS 0 1
           (lit "L1") (lit "Groceries") (lit "L2") (lit "Errands")
           initial_globals_wf
           eq_refl eq_refl Hne eq_refl eq_refl eq_refl eq_refl
           eq_refl eq_refl Hne eq_refl eq_refl eq_refl eq_refl
           Hb0 Hb1 Hd).
Defined.

(** ** The menus and the cache *)

Lemma s_lists_load_ok (g : Globals) (index : Z) (l : ReminderList.t) :
  0 <= index < MAX_LISTS ->
  s_lists g !! Z.to_nat index = Some l ->
  s_lists_load index g = Ok l g [].
Proof. intros Hb E. unfold s_lists_load. now rewrite in_bounds_true, E. Qed.

Lemma s_reminders_load_ok (g : Globals) (index : Z) (r : Reminder.t) :
  0 <= index < MAX_REMINDERS ->
  s_reminders g !! Z.to_nat index = Some r ->
  s_reminders_load index g = Ok r g [].
Proof. intros Hb E. unfold s_reminders_load. now rewrite in_bounds_true, E. Qed.

Lemma menu_draw_row_callback_ok (g : Globals) (row : Z) (l : ReminderList.t) :
  0 <= row < MAX_LISTS ->
  s_lists g !! Z.to_nat row = Some l ->
  menu_draw_row_callback row g
    = UiOk tt g [menu_cell_basic_draw (ReminderList.title l) None].
Proof.
  intros Hb E. unfold menu_draw_row_callback. ui_run.
  rewrite (s_lists_load_ok g row l Hb E). reflexivity.
Qed.

Lemma reminders_menu_draw_row_callback_ok (g : Globals) (row : Z) (r : Reminder.t) :
  0 <= row < MAX_REMINDERS ->
  s_reminders g !! Z.to_nat row = Some r ->
  reminders_menu_draw_row_callback row g
    = UiOk tt g
        [menu_cell_basic_draw (Reminder.title r)
           (Some (if Reminder.completed r then subtitle_complete else lit "Incomplete"))].
Proof.
  intros Hb E. unfold reminders_menu_draw_row_callback. ui_run.
  rewrite (s_reminders_load_ok g row r Hb E). cbv beta iota.
  rewrite (s_reminders_load_ok g row r Hb E). reflexivity.
Qed.

(** X14.  With well-formed globals and counts that are not negative, each
    menu reports as many rows as its stored count, and drawing any row
    below that number reads inside the table: the lists menu draws the
    stored title of the row, the reminders menu the stored title of the
    row with the subtitle given by its completed flag. *)
Theorem X14_menu_rows_are_inside_the_tables (g : Globals) :
  wf_globals g ->
  (0 <= s_list_count g ->
   menu_get_num_rows_callback g = s_list_count g /\
   forall row, 0 <= row < menu_get_num_rows_callback g ->
     exists l, s_lists g !! Z.to_nat row = Some l /\
       menu_draw_row_callback row g
         = UiOk tt g [menu_cell_basic_draw (ReminderList.title l) None]) /\
  (0 <= s_reminder_count g ->
   reminders_menu_get_num_rows_callback g = s_reminder_count g /\
   forall row, 0 <= row < reminders_menu_get_num_rows_callback g ->
     exists r, s_reminders g !! Z.to_nat row = Some r /\
       reminders_menu_draw_row_callback row g
         = UiOk tt g
             [menu_cell_basic_draw (Reminder.title r)
                (Some (if Reminder.completed r
                       then subtitle_complete else lit "Incomplete"))]).
Proof.
  intros Hg. split; intros Hpos.
  - assert (Hrows : menu_get_num_rows_callback g = s_list_count g).
    { unfold menu_get_num_rows_callback, to_uint16. apply Z.mod_small.
      pose proof (wf_s_list_count g Hg). unfold MAX_LISTS in *. lia. }
    split; [exact Hrows|]. rewrite Hrows. intros row Hrow.
    assert (Hb : 0 <= row < MAX_LISTS) by (pose proof (wf_s_list_count g Hg); lia).
    destruct (lookup_in_table (s_lists g) MAX_LISTS row) as [l E]; [apply Hg|exact Hb|].
    exists l. split; [exact E|]. now apply menu_draw_row_callback_ok.
  - assert (Hrows : reminders_menu_get_num_rows_callback g = s_reminder_count g).
    { unfold reminders_menu_get_num_rows_callback, to_uint16. apply Z.mod_small.
      pose proof (wf_s_reminder_count g Hg). unfold MAX_REMINDERS in *. lia. }
    split; [exact Hrows|]. rewrite Hrows. intros row Hrow.
    assert (Hb : 0 <= row < MAX_REMINDERS)
      by (pose proof (wf_s_reminder_count g Hg); lia).
    destruct (lookup_in_table (s_reminders g) MAX_REMINDERS row) as [r E];
      [apply Hg|exact Hb|].
    exists r. split; [exact E|]. now apply reminders_menu_draw_row_callback_ok.
Qed.

Lemma X14_menu_rows_are_inside_the_tables_witness :
  wf_globals (set_s_list_count 3 initial_globals) /\
  menu_get_num_rows_callback (set_s_list_count 3 initial_globals) = 3 /\
  forall row, 0 <= row < menu_get_num_rows_callback (set_s_list_count 3 initial_globals) ->
    exists l, s_lists (set_s_list_count 3 initial_globals) !! Z.to_nat row = Some l /\
      menu_draw_row_callback row (set_s_list_count 3 initial_globals)
        = UiOk tt (set_s_list_count 3 initial_globals)
            [menu_cell_basic_draw (ReminderList.title l) None].
Proof.
  assert (Hg : wf_globals (set_s_list_count 3 initial_globals)).
  { apply wf_set_s_list_count; [unfold MAX_LISTS; lia|exact initial_globals_wf]. }
  split; [exact Hg|].
  apply (X14_menu_rows_are_inside_the_tables (set_s_list_count 3 initial_globals) Hg).
  simpl. lia.
Defined.

(** X15.  The received count is cut from above only.  After a GetLists
    outcome with a status other than ERROR and no negative slot index,
    whose count C is negative with MAX_LISTS - 65536 < C, the stored count
    is C; the lists menu, whose row count is a [uint16_t], then reports
    65536 + C rows, more than the table holds, and drawing row MAX_LISTS,
    one of those rows, reads outside the table. *)
Theorem X15_negative_count_gives_rows_outside_the_table
    (m : DictionaryIterator) (g : Globals) (status C : Z) :
  field_int32 m KEY_CMD = Some CMD_GET_LISTS ->
  field_int32 m KEY_STATUS = Some status ->
  status <> STATUS_ERROR ->
  field_int32 m KEY_COUNT = Some C ->
  slot_index_not_negative m ->
  MAX_LISTS - 65536 < C < 0 ->
  exists g' calls,
    inbox_received_callback m g = Ok tt g' calls /\
    s_list_count g' = C /\
    menu_get_num_rows_callback g' = 65536 + C /\
    MAX_LISTS < menu_get_num_rows_callback g' /\
    menu_draw_row_callback MAX_LISTS g' = UiFault.
Proof.
  intros Hc Hs Hne Hcount Hnn HC.
  rewrite (inbox_received_callback_after_switch m g _ _ _ _ Hc Hs Hne
             (inbox_received_switch_get_lists m status g C Hcount)).
  destruct (inbox_received_slot_total m (set_s_list_count (Z.min C MAX_LISTS) g) Hnn)
    as (g' & calls & -> & Hframe).
  assert (Hcnt : s_list_count g' = C).
  { rewrite Hframe. cbn [s_list_count set_s_reminders set_s_lists set_s_list_count].
    unfold MAX_LISTS in *. lia. }
  assert (Hrows : menu_get_num_rows_callback g' = 65536 + C).
  { unfold menu_get_num_rows_callback, to_uint16. rewrite Hcnt.
    symmetry. apply Z.mod_unique with (q := -1); unfold MAX_LISTS in *; lia. }
  do 2 eexists. split; [reflexivity|]. split; [exact Hcnt|]. split; [exact Hrows|].
  split; [rewrite Hrows; lia|]. reflexivity.
Qed.

Lemma X15_negative_count_gives_rows_outside_the_table_witness :
  exists g' calls,
    inbox_received_callback (msg_count CMD_GET_LISTS STATUS_SUCCESS (-1)) initial_globals
      = Ok tt g' calls /\
    s_list_count g' = -1 /\
    menu_get_num_rows_callback g' = 65536 + -1 /\
    MAX_LISTS < menu_get_num_rows_callback g' /\
    menu_draw_row_callback MAX_LISTS g' = UiFault.
Proof.
  assert (Hne : STATUS_SUCCESS <> STATUS_ERROR) by discriminate.
  assert (HC : MAX_LISTS - 65536 < -1 < 0) by (unfold MAX_LISTS; lia).
  exact (X15_negative_count_gives_rows_outside_the_table
           (msg_count CMD_GET_LISTS STATUS_SUCCESS (-1)) initial_globals
           STATUS_SUCCESS (-1) eq_refl eq_refl Hne eq_refl
           (msg_count_not_negative _ _ _) HC).
Defined.

(** ** From a slot message to the screen and to a request *)

Lemma inbox_received_callback_list_slot
    (m : DictionaryIterator) (g : Globals) (cmd status index : Z) (lid ltitle : cstr) :
  wf_globals g ->
  field_int32 m KEY_CMD = Some cmd ->
  field_int32 m KEY_STATUS = Some status ->
  status <> STATUS_ERROR ->
  field_int32 m KEY_REMINDER_INDEX = Some index ->
  field_cstring m KEY_LIST_ID = Some lid ->
  field_cstring m KEY_LIST_TITLE = Some ltitle ->
  0 <= index < MAX_LISTS ->
  exists g' calls,
    inbox_received_callback m g = Ok tt g' calls /\
    s_lists g' !! Z.to_nat index
      = Some (ReminderList.mk (snprintf 64 lid) (snprintf 64 ltitle)).
Proof.
  intros Hg Hc Hs Hne Hi Hlid Hlt Hb.
  destruct (inbox_received_switch_tables m cmd status g Hg)
    as (g1 & c1 & E & Hl & _).
  rewrite (inbox_received_callback_after_switch m g g1 cmd status c1 Hc Hs Hne E).
  rewrite (inbox_received_slot_list m g1 index lid ltitle Hi Hlid Hlt Hb).
  do 2 eexists. split; [reflexivity|]. cbn [s_lists set_s_lists].
  rewrite !list_lookup_alter_eq, Hl.
  destruct (lookup_in_table (s_lists g) MAX_LISTS index) as [l ->];
    [apply Hg|exact Hb|]. reflexivity.
Qed.

Lemma field_cstring_nul_free (m : DictionaryIterator) (k : Z) (s : cstr) (size : nat) :
  field_cstring m k = Some s -> nul_free (snprintf size s).
Proof.
  intros (t & _ & <-)%field_cstring_Some.
  apply Forall_take, c_string_no_nul.
Qed.

(** X16.  A list slot is on the screen as soon as its message is handled:
    after a message with a command, a status other than ERROR and a list
    slot inside the table, handled in well-formed globals, drawing the row
    of that slot draws the title of the message (cut to 63 characters),
    whatever the stored count is and whichever other slot messages have
    arrived. *)
Theorem X16_list_slot_is_drawn_at_once
    (m : DictionaryIterator) (g : Globals) (cmd status index : Z) (lid ltitle : cstr) :
  wf_globals g ->
  field_int32 m KEY_CMD = Some cmd ->
  field_int32 m KEY_STATUS = Some status ->
  status <> STATUS_ERROR ->
  field_int32 m KEY_REMINDER_INDEX = Some index ->
  field_cstring m KEY_LIST_ID = Some lid ->
  field_cstring m KEY_LIST_TITLE = Some ltitle ->
  0 <= index < MAX_LISTS ->
  exists g' calls,
    inbox_received_callback m g = Ok tt g' calls /\
    menu_draw_row_callback index g'
      = UiOk tt g' [menu_cell_basic_draw (take 63 ltitle) None].
Proof.
  intros Hg Hc Hs Hne Hi Hlid Hlt Hb.
  destruct (inbox_received_callback_list_slot m g cmd status index lid ltitle
              Hg Hc Hs Hne Hi Hlid Hlt Hb) as (g' & calls & E & Hslot).
  exists g', calls. split; [exact E|].
  exact (menu_draw_row_callback_ok g' index _ Hb Hslot).
Qed.

Lemma X16_list_slot_is_drawn_at_once_witness :
  exists g' calls,
    inbox_received_callback
      (msg_list_slot CMD_GET_LISTS 3 (lit "L4") (lit "Errands")) initial_globals
      = Ok tt g' calls /\
    menu_draw_row_callback 3 g'
      = UiOk tt g' [menu_cell_basic_draw (take 63 (lit "Errands")) None].
Proof.
  assert (Hne : STATUS_SUCCESS <> STATUS_ERROR) by discriminate.
  assert (Hb : 0 <= 3 < MAX_LISTS) by (unfold MAX_LISTS; lia).
  exact (X16_list_slot_is_drawn_at_once
           (msg_list_slot CMD_GET_LISTS 3 (lit "L4") (lit "Errands"))
           initial_globals CMD_GET_LISTS STATUS_SUCCESS 3 (lit "L4") (lit "Errands")
           initial_globals_wf eq_refl eq_refl Hne eq_refl eq_refl eq_refl Hb).
Defined.

Lemma menu_select_callback_ok
    (g : Globals) (row : Z) (w : option Window) (l : ReminderList.t) :
  0 <= row < MAX_LISTS ->
  s_lists g !! Z.to_nat row = Some l ->
  menu_select_callback row w g =
    UiOk tt (set_s_reminders_window w (set_s_current_list_index row g))
      [window_set_window_handlers w reminders_window_handlers;
       window_stack_push w;
       sdk (app_message_outbox_send
              [tuple_int KEY_CMD CMD_GET_REMINDERS;
               tuple_cstring KEY_TOKEN (s_token g);
               tuple_cstring KEY_LIST_ID (ReminderList.id l)])].
Proof.
  intros Hb E. unfold menu_select_callback. ui_run.
  cbn [s_current_list_index set_s_reminders_window set_s_current_list_index].
  rewrite (s_lists_load_ok _ row l Hb) by exact E. reflexivity.
Qed.

(** X17.  Selecting a list asks for the reminders of that list.  After a
    list slot message inside the table (command, status other than ERROR),
    handled in well-formed globals, [menu_select_callback] on the row
    of that slot records the row as the current list, opens the reminders
    window and sends one GetReminders request that carries the session
    token and, as list id, the id of the message (cut to 63 characters),
    which reads back from the request unchanged. *)
Theorem X17_selecting_a_list_requests_its_reminders
    (m : DictionaryIterator) (g : Globals) (cmd status index : Z) (lid ltitle : cstr)
    (w : option Window) :
  wf_globals g ->
  field_int32 m KEY_CMD = Some cmd ->
  field_int32 m KEY_STATUS = Some status ->
  status <> STATUS_ERROR ->
  field_int32 m KEY_REMINDER_INDEX = Some index ->
  field_cstring m KEY_LIST_ID = Some lid ->
  field_cstring m KEY_LIST_TITLE = Some ltitle ->
  0 <= index < MAX_LISTS ->
  exists g1 calls g2 out,
    inbox_received_callback m g = Ok tt g1 calls /\
    menu_select_callback index w g1 =
      UiOk tt g2
        [window_set_window_handlers w reminders_window_handlers;
         window_stack_push w;
         sdk (app_message_outbox_send out)] /\
    s_current_list_index g2 = index /\
    s_reminders_window g2 = w /\
    out = [tuple_int KEY_CMD CMD_GET_REMINDERS;
           tuple_cstring KEY_TOKEN (s_token g1);
           tuple_cstring KEY_LIST_ID (take 63 lid)] /\
    field_int32 out KEY_CMD = Some CMD_GET_REMINDERS /\
    field_cstring out KEY_LIST_ID = Some (take 63 lid).
Proof.
  intros Hg Hc Hs Hne Hi Hlid Hlt Hb.
  destruct (inbox_received_callback_list_slot m g cmd status index lid ltitle
              Hg Hc Hs Hne Hi Hlid Hlt Hb) as (g1 & calls & E & Hslot).
  exists g1, calls. do 2 eexists. split; [exact E|].
  split; [exact (menu_select_callback_ok g1 index w _ Hb Hslot)|].
  split; [reflexivity|]. split; [reflexivity|]. split; [reflexivity|].
  split; [reflexivity|].
  pose proof (field_cstring_nul_free m KEY_LIST_ID lid 64 Hlid) as Hn.
  cbn [ReminderList.id]. read_field.
Qed.

Lemma X17_selecting_a_list_requests_its_reminders_witness :
  exists g1 calls g2 out,
    inbox_received_callback
      (msg_list_slot CMD_GET_LISTS 3 (lit "L4") (lit "Errands")) initial_globals
      = Ok tt g1 calls /\
    menu_select_callback 3 (Some 5%nat) g1 =
      UiOk tt g2
        [window_set_window_handlers (Some 5%nat) reminders_window_handlers;
         window_stack_push (Some 5%nat);
         sdk (app_message_outbox_send out)] /\
    s_current_list_index g2 = 3 /\
    s_reminders_window g2 = Some 5%nat /\
    out = [tuple_int KEY_CMD CMD_GET_REMINDERS;
           tuple_cstring KEY_TOKEN (s_token g1);
           tuple_cstring KEY_LIST_ID (take 63 (lit "L4"))] /\
    field_int32 out KEY_CMD = Some CMD_GET_REMINDERS /\
    field_cstring out KEY_LIST_ID = Some (take 63 (lit "L4")).
Proof.
  assert (Hne : STATUS_SUCCESS <> STATUS_ERROR) by discriminate.
  assert (Hb : 0 <= 3 < MAX_LISTS) by (unfold MAX_LISTS; lia).
  exact (X17_selecting_a_list_requests_its_reminders
           (msg_list_slot CMD_GET_LISTS 3 (lit "L4") (lit "Errands"))
           initial_globals CMD_GET_LISTS STATUS_SUCCESS 3 (lit "L4") (lit "Errands")
           (Some 5%nat)
           initial_globals_wf eq_refl eq_refl Hne eq_refl eq_refl eq_refl Hb).
Defined.

(** ** Completing a reminder *)

Lemma action_bar_click_handler_sends (g : Globals) (r : Reminder.t) :
  0 <= s_current_reminder_index g < s_reminder_count g ->
  s_reminder_count g <= MAX_REMINDERS ->
  s_reminders g !! Z.to_nat (s_current_reminder_index g) = Some r ->
  Reminder.completed r = false ->
  action_bar_click_handler g =
    Ok tt g [app_message_outbox_send
               [tuple_int KEY_CMD CMD_COMPLETE_REMINDER;
                tuple_cstring KEY_TOKEN (s_token g);
                tuple_cstring KEY_LIST_ID (Reminder.list_id r);
                tuple_cstring KEY_REMINDER_ID (Reminder.id r)]].
Proof.
  intros Hsel Hcount E Hc. unfold action_bar_click_handler. run.
  destruct (Z.geb_spec (s_current_reminder_index g) 0),
    (Z.ltb_spec (s_current_reminder_index g) (s_reminder_count g)); try lia.
  cbn [andb].
  assert (Hload : s_reminders_load (s_current_reminder_index g) g = Ok r g [])
    by (apply s_reminders_load_ok; [lia|exact E]).
  rewrite Hload, Hc. cbn [negb]. rewrite Hload. cbv beta iota.
  rewrite Hload. reflexivity.
Qed.

Lemma action_bar_click_handler_completed (g : Globals) (r : Reminder.t) :
  0 <= s_current_reminder_index g < s_reminder_count g ->
  s_reminder_count g <= MAX_REMINDERS ->
  s_reminders g !! Z.to_nat (s_current_reminder_index g) = Some r ->
  Reminder.completed r = true ->
  action_bar_click_handler g = Ok tt g [].
Proof.
  intros Hsel Hcount E Hc. unfold action_bar_click_handler. run.
  destruct (Z.geb_spec (s_current_reminder_index g) 0),
    (Z.ltb_spec (s_current_reminder_index g) (s_reminder_count g)); try lia.
  cbn [andb].
  assert (Hload : s_reminders_load (s_current_reminder_index g) g = Ok r g [])
    by (apply s_reminders_load_ok; [lia|exact E]).
  rewrite Hload, Hc. reflexivity.
Qed.

Lemma reminders_menu_select_callback_ok
    (g : Globals) (row : Z) (w : option Window) (r : Reminder.t) :
  0 <= row < s_reminder_count g ->
  s_reminder_count g <= MAX_REMINDERS ->
  s_reminders g !! Z.to_nat row = Some r ->
  reminders_menu_select_callback row w g =
    UiOk tt (set_s_detail_window w (set_s_current_reminder_index row g))
      [window_set_window_handlers w detail_window_handlers;
       text_layer_set_text s_detail_text_layer
         (take 255
            (Reminder.title r ++ [x0a; x0a] ++
             (if Reminder.completed r
              then lit "Status: Complete"
              else lit "Status: Incomplete" ++ [x0a; x0a] ++
                   lit "Press SELECT to mark complete")));
       window_stack_push w].
Proof.
  intros Hrow Hcount E. unfold reminders_menu_select_callback. ui_run.
  cbn [s_reminder_count set_s_detail_window set_s_current_reminder_index].
  destruct (Z.geb_spec row 0), (Z.ltb_spec row (s_reminder_count g)); try lia.
  cbn [andb].
  rewrite (s_reminders_load_ok _ row r) by (first [lia | exact E]).
  reflexivity.
Qed.

(** X18.  Pressing select on a reminder asks to complete that reminder.
    After a reminder slot message (command, status other than ERROR,
    inside the table, not of list shape, with a list id and not
    completed), handled in well-formed globals, once the row of that slot
    (below the stored count) has been selected in the reminders menu, the
    select button sends one CompleteReminder request whose list id and
    reminder id read back as the ids of the message (each cut to 63
    characters), and changes no global. *)
Theorem X18_select_button_requests_completion
    (m : DictionaryIterator) (g : Globals) (cmd status index : Z)
    (rid rtitle lid : cstr) (w : option Window) :
  wf_globals g ->
  field_int32 m KEY_CMD = Some cmd ->
  field_int32 m KEY_STATUS = Some status ->
  status <> STATUS_ERROR ->
  field_int32 m KEY_REMINDER_INDEX = Some index ->
  field_cstring m KEY_REMINDER_ID = Some rid ->
  field_cstring m KEY_REMINDER_TITLE = Some rtitle ->
  field_cstring m KEY_LIST_ID = Some lid ->
  stored_completed m = false ->
  not_a_list_slot m index ->
  0 <= index < MAX_REMINDERS ->
  exists g1 calls1,
    inbox_received_callback m g = Ok tt g1 calls1 /\
    (index < s_reminder_count g1 ->
     exists g2 calls2 out,
       reminders_menu_select_callback index w g1 = UiOk tt g2 calls2 /\
       s_current_reminder_index g2 = index /\
       action_bar_click_handler g2 = Ok tt g2 [app_message_outbox_send out] /\
       field_int32 out KEY_CMD = Some CMD_COMPLETE_REMINDER /\
       field_cstring out KEY_LIST_ID = Some (take 63 lid) /\
       field_cstring out KEY_REMINDER_ID = Some (take 63 rid)).
Proof.
  intros Hg Hc Hs Hne Hi Hrid Hrt Hlid Hnc Hnl Hb.
  destruct (inbox_received_callback_reminder_slot m g cmd status index rid rtitle
              Hg Hc Hs Hne Hi Hrid Hrt Hnl Hb) as (g1 & calls1 & old & E & _ & Hslot).
  rewrite Hlid, Hnc in Hslot.
  exists g1, calls1. split; [exact E|]. intros Hlt.
  assert (Hg1 : wf_globals g1).
  { pose proof (inbox_received_callback_keeps_wf m g Hg) as H. now rewrite E in H. }
  pose proof (wf_s_reminder_count g1 Hg1) as Hcount.
  pose proof (reminders_menu_select_callback_ok g1 index w _ (conj (proj1 Hb) Hlt)
                Hcount Hslot) as Esel.
  do 3 eexists. split; [exact Esel|]. split; [reflexivity|].
  split.
  - apply (action_bar_click_handler_sends
             (set_s_detail_window w (set_s_current_reminder_index index g1))
             (Reminder.mk (snprintf 64 rid) (snprintf 128 rtitle) (snprintf 64 lid) false));
      cbn [s_current_reminder_index s_reminder_count s_reminders
           set_s_detail_window set_s_current_reminder_index];
      first [lia | assumption | reflexivity].
  - pose proof (field_cstring_nul_free m KEY_LIST_ID lid 64 Hlid) as Hnl'.
    pose proof (field_cstring_nul_free m KEY_REMINDER_ID rid 64 Hrid) as Hnr.
    split; [reflexivity|]. cbn [Reminder.list_id Reminder.id]. split; read_field.
Qed.

Lemma X18_select_button_requests_completion_witness :
  exists g1 calls1,
    inbox_received_callback
      (msg_reminder_slot CMD_GET_REMINDERS 2 (lit "R7") (lit "Buy milk") (lit "L1"))
      (set_s_reminder_count 5 initial_globals) = Ok tt g1 calls1 /\
    exists g2 calls2 out,
      reminders_menu_select_callback 2 (Some 9%nat) g1 = UiOk tt g2 calls2 /\
      s_current_reminder_index g2 = 2 /\
      action_bar_click_handler g2 = Ok tt g2 [app_message_outbox_send out] /\
      field_int32 out KEY_CMD = Some CMD_COMPLETE_REMINDER /\
      field_cstring out KEY_LIST_ID = Some (take 63 (lit "L1")) /\
      field_cstring out KEY_REMINDER_ID = Some (take 63 (lit "R7")).
Proof.
  assert (Hg : wf_globals (set_s_reminder_count 5 initial_globals)).
  { apply wf_set_s_reminder_count; [unfold MAX_REMINDERS; lia|exact initial_globals_wf]. }
  assert (Hne : STATUS_SUCCESS <> STATUS_ERROR) by discriminate.
  assert (Hb : 0 <= 2 < MAX_REMINDERS) by (unfold MAX_REMINDERS; lia).
  assert (Hnl : not_a_list_slot
                  (msg_reminder_slot CMD_GET_REMINDERS 2 (lit "R7") (lit "Buy milk") (lit "L1"))
                  2) by (right; left; reflexivity).
  destruct (X18_select_button_requests_completion
              (msg_reminder_slot CMD_GET_REMINDERS 2 (lit "R7") (lit "Buy milk") (lit "L1"))
              (set_s_reminder_count 5 initial_globals) CMD_GET_REMINDERS STATUS_SUCCESS 2
              (lit "R7") (lit "Buy milk") (lit "L1") (Some 9%nat)
              Hg eq_refl eq_refl Hne eq_refl eq_refl eq_refl eq_refl eq_refl Hnl Hb)
    as (g1 & calls1 & E & H).
  exists g1, calls1. split; [exact E|]. apply H.
  assert (E' := E). vm_compute in E'. injection E' as <- _. simpl. lia.
Defined.

(** X19.  A reminder is not completed twice.  After a CompleteReminder
    outcome with status SUCCESS (and no slot-index field), handled in
    well-formed globals while a reminder below the stored count is
    selected, that reminder is drawn with the subtitle of a completed one
    and the select button sends no request any more. *)
Theorem X19_completed_reminder_is_not_requested_again
    (m : DictionaryIterator) (g : Globals) :
  wf_globals g ->
  field_int32 m KEY_CMD = Some CMD_COMPLETE_REMINDER ->
  field_int32 m KEY_STATUS = Some STATUS_SUCCESS ->
  dict_find m KEY_REMINDER_INDEX = None ->
  0 <= s_current_reminder_index g < s_reminder_count g ->
  exists g' calls r,
    inbox_received_callback m g = Ok tt g' calls /\
    s_reminders g' !! Z.to_nat (s_current_reminder_index g) = Some r /\
    Reminder.completed r = true /\
    reminders_menu_draw_row_callback (s_current_reminder_index g) g'
      = UiOk tt g' [menu_cell_basic_draw (Reminder.title r) (Some subtitle_complete)] /\
    action_bar_click_handler g' = Ok tt g' [].
Proof.
  intros Hg Hc Hs Hnoslot Hsel.
  assert (Hne : STATUS_SUCCESS <> STATUS_ERROR) by discriminate.
  pose proof (wf_s_reminder_count g Hg) as Hcount.
  rewrite (inbox_received_callback_after_switch m g _ _ _ _ Hc Hs Hne
             (inbox_received_switch_complete_selected m g Hsel Hcount)).
  rewrite inbox_received_slot_absent by exact Hnoslot.
  destruct (lookup_in_table (s_reminders g) MAX_REMINDERS (s_current_reminder_index g))
    as [r0 E0]; [apply Hg|lia|].
  do 2 eexists. exists (Reminder.set_completed true r0).
  split; [reflexivity|].
  assert (Hslot : alter (Reminder.set_completed true)
                    (Z.to_nat (s_current_reminder_index g)) (s_reminders g)
                  !! Z.to_nat (s_current_reminder_index g)
                  = Some (Reminder.set_completed true r0))
    by (now rewrite list_lookup_alter_eq, E0).
  split; [exact Hslot|]. split; [reflexivity|]. split.
  - rewrite (reminders_menu_draw_row_callback_ok _ _ (Reminder.set_completed true r0));
      [reflexivity|lia|exact Hslot].
  - apply (action_bar_click_handler_completed _ (Reminder.set_completed true r0));
      cbn [s_current_reminder_index s_reminder_count s_reminders set_s_reminders];
      first [lia | assumption | reflexivity].
Qed.

Lemma X19_completed_reminder_is_not_requested_again_witness :
  exists g' calls r,
    inbox_received_callback (msg_outcome CMD_COMPLETE_REMINDER STATUS_SUCCESS)
      (set_s_current_reminder_index 2 (set_s_reminder_count 5 initial_globals))
      = Ok tt g' calls /\
    s_reminders g' !! 2%nat = Some r /\
    Reminder.completed r = true /\
    reminders_menu_draw_row_callback 2 g'
      = UiOk tt g' [menu_cell_basic_draw (Reminder.title r) (Some subtitle_complete)] /\
    action_bar_click_handler g' = Ok tt g' [].
Proof.
  assert (Hg : wf_globals
                 (set_s_current_reminder_index 2 (set_s_reminder_count 5 initial_globals))).
  { destruct initial_globals_wf. split; simpl; try assumption; unfold MAX_REMINDERS; lia. }
  apply (X19_completed_reminder_is_not_requested_again
           (msg_outcome CMD_COMPLETE_REMINDER STATUS_SUCCESS)
           (set_s_current_reminder_index 2 (set_s_reminder_count 5 initial_globals)) Hg);
    try reflexivity.
  simpl. lia.
Defined.

(** X20.  Closing the reminders window does not clear the selection.
    From well-formed globals with a reminder below the stored count
    selected, [reminders_window_unload] destroys the menu and the window
    and sets the window pointer to NULL, and leaves both selection indices
    as they were; a CompleteReminder outcome with status SUCCESS (and no
    slot-index field) that arrives afterwards still marks the reminder
    selected before as completed, and reloads the reminders menu. *)
Theorem X20_selection_outlives_the_reminders_window
    (m : DictionaryIterator) (g : Globals) (window : option Window) :
  wf_globals g ->
  field_int32 m KEY_CMD = Some CMD_COMPLETE_REMINDER ->
  field_int32 m KEY_STATUS = Some STATUS_SUCCESS ->
  dict_find m KEY_REMINDER_INDEX = None ->
  0 <= s_current_reminder_index g < s_reminder_count g ->
  exists g1 g2 r,
    reminders_window_unload window g =
      UiOk tt g1 [menu_layer_destroy s_reminders_menu_layer; window_destroy window] /\
    s_reminders_window g1 = None /\
    s_current_list_index g1 = s_current_list_index g /\
    s_current_reminder_index g1 = s_current_reminder_index g /\
    inbox_received_callback m g1 =
      Ok tt g2 [window_stack_remove (s_detail_window g);
                menu_layer_reload_data s_reminders_menu_layer] /\
    s_reminders g2 !! Z.to_nat (s_current_reminder_index g) = Some r /\
    Reminder.completed r = true.
Proof.
  intros Hg Hc Hs Hnoslot Hsel.
  assert (Hne : STATUS_SUCCESS <> STATUS_ERROR) by discriminate.
  pose proof (wf_s_reminder_count g Hg) as Hcount.
  destruct (lookup_in_table (s_reminders g) MAX_REMINDERS (s_current_reminder_index g))
    as [r0 E0]; [apply Hg|lia|].
  exists (set_s_reminders_window None g). eexists.
  exists (Reminder.set_completed true r0).
  split; [reflexivity|]. split; [reflexivity|]. split; [reflexivity|].
  split; [reflexivity|]. split.
  - rewrite (inbox_received_callback_after_switch m _ _ _ _ _ Hc Hs Hne
               (inbox_received_switch_complete_selected m
                  (set_s_reminders_window None g) Hsel Hcount)).
    rewrite inbox_received_slot_absent by exact Hnoslot. reflexivity.
  - split; [|reflexivity].
    cbn [s_reminders set_s_reminders set_s_reminders_window s_current_reminder_index].
    now rewrite list_lookup_alter_eq, E0.
Qed.

Lemma X20_selection_outlives_the_reminders_window_witness :
  exists g1 g2 r,
    reminders_window_unload (Some 4%nat)
      (set_s_current_reminder_index 2 (set_s_reminder_count 5 initial_globals)) =
      UiOk tt g1 [menu_layer_destroy s_reminders_menu_layer; window_destroy (Some 4%nat)] /\
    s_reminders_window g1 = None /\
    s_current_list_index g1 = -1 /\
    s_current_reminder_index g1 = 2 /\
    inbox_received_callback (msg_outcome CMD_COMPLETE_REMINDER STATUS_SUCCESS) g1 =
      Ok tt g2 [window_stack_remove None;
                menu_layer_reload_data s_reminders_menu_layer] /\
    s_reminders g2 !! 2%nat = Some r /\
    Reminder.completed r = true.
Proof.
  assert (Hg : wf_globals
                 (set_s_current_reminder_index 2 (set_s_reminder_count 5 initial_globals))).
  { destruct initial_globals_wf. split; simpl; try assumption; unfold MAX_REMINDERS; lia. }
  apply (X20_selection_outlives_the_reminders_window
           (msg_outcome CMD_COMPLETE_REMINDER STATUS_SUCCESS)
           (set_s_current_reminder_index 2 (set_s_reminder_count 5 initial_globals))
           (Some 4%nat) Hg);
    try reflexivity.
  simpl. lia.
Defined.

(** ** The selected list and the first login *)

(** X21.  The header of the reminders menu names the selected list.
    After [menu_select_callback] on a row below the stored lists count,
    the header callback draws the stored title of that row; while the
    current list index is negative (-1, nothing selected) or at or beyond
    the stored count, it draws nothing. *)
Theorem X21_reminders_header_names_the_selected_list
    (g : Globals) (row : Z) (w : option Window) :
  wf_globals g ->
  (0 <= row < s_list_count g ->
   exists g1 calls l,
     menu_select_callback row w g = UiOk tt g1 calls /\
     s_lists g !! Z.to_nat row = Some l /\
     reminders_menu_draw_header_callback g1
       = UiOk tt g1 [menu_cell_basic_header_draw (ReminderList.title l)]) /\
  (~ (0 <= s_current_list_index g < s_list_count g) ->
   reminders_menu_draw_header_callback g = UiOk tt g []).
Proof.
  intros Hg. split.
  - intros Hrow. pose proof (wf_s_list_count g Hg) as Hcount.
    assert (Hb : 0 <= row < MAX_LISTS) by lia.
    destruct (lookup_in_table (s_lists g) MAX_LISTS row) as [l E]; [apply Hg|exact Hb|].
    do 2 eexists. exists l.
    split; [exact (menu_select_callback_ok g row w l Hb E)|]. split; [exact E|].
    unfold reminders_menu_draw_header_callback. ui_run.
    cbn [s_current_list_index s_list_count set_s_reminders_window
         set_s_current_list_index].
    destruct (Z.geb_spec row 0), (Z.ltb_spec row (s_list_count g)); try lia.
    cbn [andb]. rewrite (s_lists_load_ok _ row l Hb) by exact E. reflexivity.
  - intros Hout. unfold reminders_menu_draw_header_callback. ui_run.
    destruct (Z.geb_spec (s_current_list_index g) 0),
      (Z.ltb_spec (s_current_list_index g) (s_list_count g));
      cbn [andb]; first [reflexivity | lia].
Qed.

Lemma X21_reminders_header_names_the_selected_list_witness :
  wf_globals (set_s_list_count 3 initial_globals) /\
  (exists g1 calls l,
     menu_select_callback 1 (Some 5%nat) (set_s_list_count 3 initial_globals)
       = UiOk tt g1 calls /\
     s_lists (set_s_list_count 3 initial_globals) !! 1%nat = Some l /\
     reminders_menu_draw_header_callback g1
       = UiOk tt g1 [menu_cell_basic_header_draw (ReminderList.title l)]) /\
  reminders_menu_draw_header_callback (set_s_list_count 3 initial_globals)
    = UiOk tt (set_s_list_count 3 initial_globals) [].
Proof.
  assert (Hg : wf_globals (set_s_list_count 3 initial_globals)).
  { apply wf_set_s_list_count; [unfold MAX_LISTS; lia|exact initial_globals_wf]. }
  split; [exact Hg|].
  destruct (X21_reminders_header_names_the_selected_list
              (set_s_list_count 3 initial_globals) 1 (Some 5%nat) Hg) as (Hsel & Hnone).
  split.
  - apply Hsel. simpl. lia.
  - apply Hnone. simpl. lia.
Defined.

Lemma init_without_token
    (persist : Z -> option cstr) (main_window settings_window : option Window) :
  persist PERSIST_KEY_TOKEN = None \/ persist PERSIST_KEY_TOKEN = Some [] ->
  exists g0,
    init persist main_window settings_window initial_globals =
      UiOk tt g0
        [app_message_register inbox_received; app_message_register inbox_dropped;
         app_message_register outbox_failed; app_message_register outbox_sent;
         app_message_open 512 512;
         window_set_window_handlers main_window main_window_handlers;
         window_stack_push main_window;
         window_set_window_handlers settings_window settings_window_handlers;
         window_stack_push settings_window] /\
    s_settings_window g0 = settings_window /\
    s_is_logged_in g0 = false /\
    s_token g0 = [].
Proof.
  intros [Ht|Ht]; unfold init, load_settings; rewrite Ht;
    destruct (persist PERSIST_KEY_USERNAME), (persist PERSIST_KEY_APPLE_ID),
      (persist PERSIST_KEY_APPLE_PASSWORD);
    run; ui_run; eexists; (split; [reflexivity|]); repeat split.
Qed.

(** X22.  The first login.  When the app starts with no token stored (or
    an empty one) it shows the settings window; the Login outcome that
    then arrives with a status other than ERROR, a token and no
    slot-index field stores the token (cut to 255 characters), saves the
    settings, removes that very settings window and sends the GetLists
    request with the new token, and the app is logged in. *)
Theorem X22_first_login_after_start
    (persist : Z -> option cstr) (main_window settings_window : option Window)
    (m : DictionaryIterator) (status : Z) (token : cstr) :
  persist PERSIST_KEY_TOKEN = None \/ persist PERSIST_KEY_TOKEN = Some [] ->
  field_int32 m KEY_CMD = Some CMD_LOGIN ->
  field_int32 m KEY_STATUS = Some status ->
  status <> STATUS_ERROR ->
  field_cstring m KEY_TOKEN = Some token ->
  dict_find m KEY_REMINDER_INDEX = None ->
  exists g0 calls0 g1,
    init persist main_window settings_window initial_globals = UiOk tt g0 calls0 /\
    s_is_logged_in g0 = false /\
    In (window_stack_push settings_window) calls0 /\
    inbox_received_callback m g0 =
      Ok tt g1
        [persist_write_string PERSIST_KEY_TOKEN (take 255 token);
         persist_write_string PERSIST_KEY_USERNAME (s_username g0);
         persist_write_string PERSIST_KEY_APPLE_ID (s_apple_id g0);
         persist_write_string PERSIST_KEY_APPLE_PASSWORD (s_apple_password g0);
         window_stack_remove settings_window;
         app_message_outbox_send
           [tuple_int KEY_CMD CMD_GET_LISTS; tuple_cstring KEY_TOKEN (take 255 token)]] /\
    s_token g1 = take 255 token /\
    s_is_logged_in g1 = true.
Proof.
  intros Hp Hc Hs Hne Ht Hnoslot.
  destruct (init_without_token persist main_window settings_window Hp)
    as (g0 & E0 & Hw & Hflag & _).
  exists g0. eexists. eexists. split; [exact E0|]. split; [exact Hflag|].
  split; [simpl; tauto|].
  rewrite (inbox_received_callback_after_switch m g0 _ _ _ _ Hc Hs Hne
             (inbox_received_switch_login m status g0 token Ht)).
  rewrite inbox_received_slot_absent by exact Hnoslot.
  rewrite Hw. split; [reflexivity|]. split; reflexivity.
Qed.

Lemma X22_first_login_after_start_witness :
  exists g0 calls0 g1,
    init (fun _ => None) (Some 1%nat) (Some 2%nat) initial_globals = UiOk tt g0 calls0 /\
    s_is_logged_in g0 = false /\
    In (window_stack_push (Some 2%nat)) calls0 /\
    inbox_received_callback (msg_login (lit "abc123")) g0 =
      Ok tt g1
        [persist_write_string PERSIST_KEY_TOKEN (take 255 (lit "abc123"));
         persist_write_string PERSIST_KEY_USERNAME (s_username g0);
         persist_write_string PERSIST_KEY_APPLE_ID (s_apple_id g0);
         persist_write_string PERSIST_KEY_APPLE_PASSWORD (s_apple_password g0);
         window_stack_remove (Some 2%nat);
         app_message_outbox_send
           [tuple_int KEY_CMD CMD_GET_LISTS;
            tuple_cstring KEY_TOKEN (take 255 (lit "abc123"))]] /\
    s_token g1 = take 255 (lit "abc123") /\
    s_is_logged_in g1 = true.
Proof.
  assert (Hne : STATUS_SUCCESS <> STATUS_ERROR) by discriminate.
  exact (X22_first_login_after_start (fun _ => None) (Some 1%nat) (Some 2%nat)
           (msg_login (lit "abc123")) STATUS_SUCCESS (lit "abc123")
           (or_introl eq_refl) eq_refl eq_refl Hne eq_refl eq_refl).
Defined.

(** ** Tuples that are not of the width or the form that is read *)

Lemma c_string_app (s rest : list byte) :
  nul_free s -> c_string (s ++ rest) = s ++ c_string rest.
Proof.
  induction 1 as [|b s Hb _ IH]; simpl; [reflexivity|].
  destruct (Byte.eqb b x00) eqn:E.
  - apply Byte.byte_dec_bl in E. contradiction.
  - now rewrite IH.
Qed.

Lemma byte_of_Z_small (z : Z) : 0 < z < 256 -> byte_of_Z z <> x00.
Proof.
  intros Hz E. pose proof (byte_of_Z_value z) as H. rewrite E in H.
  rewrite Z.mod_small in H by lia. simpl in H. lia.
Qed.

(** X23.  An integer is read as four bytes whatever the width of its
    tuple.  From a tuple whose payload is the single byte [b], followed in
    the dictionary by a tuple with a key below 2^23, the handler reads
    [b + 256 * key] where it looks for [b]: the three low bytes of the
    next key are read as the high bytes of the integer.  So a GetLists
    outcome whose command is one byte wide, followed by the status tuple
    (key 12), is read as command 3074: no case of the [switch] runs and
    the count it carries is not stored. *)
Theorem X23_narrow_integer_is_read_with_the_next_key
    (k : Z) (ty : TupleType) (b : byte) (next : Tuple) (rest : list Tuple)
    (after : list byte) :
  0 <= key next < 2 ^ 23 ->
  field_int32 (mkDictionaryIterator (mkTuple k ty [b] :: next :: rest) after) k
    = Some (Z.of_N (Byte.to_N b) + 256 * key next) /\
  field_int32 msg_narrow_cmd KEY_CMD = Some (CMD_GET_LISTS + 256 * KEY_STATUS) /\
  field_int32 msg_narrow_cmd KEY_COUNT = Some 25 /\
  forall g, inbox_received_callback msg_narrow_cmd g = Ok tt g [].
Proof.
  intros Hk. split; [|repeat split].
  unfold field_int32, dict_find, value_int32, value.
  cbn [tuples trailing find_tuple memory_from key data].
  rewrite Z.eqb_refl. cbn [fmap option_fmap option_map memory_from tuples trailing key data].
  rewrite Z.eqb_refl. f_equal.
  change (take 4 ([b] ++ flat_map tuple_bytes (next :: rest) ++ after))
    with (b :: le_bytes 3 (key next)).
  cbn [le_value]. rewrite le_value_le_bytes. change (256 ^ Z.of_nat 3) with (2 ^ 24).
  rewrite Z.mod_small by lia.
  pose proof (Byte.to_N_bounded b).
  destruct (Z.ltb_spec (Z.of_N (Byte.to_N b) + 256 * key next) (2 ^ 31)); lia.
Qed.

Lemma X23_narrow_integer_is_read_with_the_next_key_witness :
  field_int32
    (mkDictionaryIterator
       [mkTuple KEY_REMINDER_INDEX TUPLE_UINT [x03]; tuple_cstring KEY_LIST_ID (lit "L4");
        tuple_cstring KEY_LIST_TITLE (lit "Errands")] [])
    KEY_REMINDER_INDEX = Some (3 + 256 * KEY_LIST_ID).
Proof.
  apply (X23_narrow_integer_is_read_with_the_next_key
           KEY_REMINDER_INDEX TUPLE_UINT x03 (tuple_cstring KEY_LIST_ID (lit "L4"))
           [tuple_cstring KEY_LIST_TITLE (lit "Errands")] []).
  vm_compute. split; congruence.
Defined.

(** X24.  A string is read up to the first zero byte in memory, whatever
    the length of its tuple.  From a tuple whose payload holds no zero
    byte, followed in the dictionary by a tuple with a key between 1 and
    255, the handler reads the payload and one more character, the low
    byte of the next key.  So a Login outcome whose token is the three
    bytes of ["abc"] with no terminator, followed by a tuple of key 14,
    stores, persists and sends a token of four characters. *)
Theorem X24_unterminated_string_is_read_into_the_next_key
    (k : Z) (ty : TupleType) (s : cstr) (next : Tuple) (rest : list Tuple)
    (after : list byte) :
  nul_free s ->
  0 < key next < 256 ->
  field_cstring (mkDictionaryIterator (mkTuple k ty s :: next :: rest) after) k
    = Some (s ++ [byte_of_Z (key next)]) /\
  field_cstring msg_unterminated_token KEY_TOKEN = Some (lit "abc" ++ [x0e]) /\
  exists g' more_calls,
    inbox_received_callback msg_unterminated_token initial_globals =
      Ok tt g'
        ([persist_write_string PERSIST_KEY_TOKEN (lit "abc" ++ [x0e]);
          persist_write_string PERSIST_KEY_USERNAME [];
          persist_write_string PERSIST_KEY_APPLE_ID [];
          persist_write_string PERSIST_KEY_APPLE_PASSWORD [];
          window_stack_remove None;
          app_message_outbox_send
            [tuple_int KEY_CMD CMD_GET_LISTS; tuple_cstring KEY_TOKEN (lit "abc" ++ [x0e])]]
         ++ more_calls) /\
    s_token g' = lit "abc" ++ [x0e].
Proof.
  intros Hs Hk. split.
  - unfold field_cstring, dict_find, value_cstring, value.
    cbn [tuples trailing find_tuple memory_from key data].
    rewrite Z.eqb_refl.
    cbn [fmap option_fmap option_map memory_from tuples trailing key data].
    rewrite Z.eqb_refl. f_equal.
    rewrite (c_string_app s _ Hs). f_equal.
    unfold tuple_bytes. cbn [flat_map app le_bytes c_string].
    destruct (Byte.eqb (byte_of_Z (key next)) x00) eqn:E.
    + apply Byte.byte_dec_bl in E. now apply byte_of_Z_small in E.
    + rewrite (Z.div_small (key next) 256) by lia. reflexivity.
  - split; [vm_compute; reflexivity|].
    exists (set_s_is_logged_in true (set_s_token (lit "abc" ++ [x0e]) initial_globals)), [].
    split; vm_compute; reflexivity.
Qed.

Lemma X24_unterminated_string_is_read_into_the_next_key_witness :
  nul_free (lit "down") /\
  field_cstring
    (mkDictionaryIterator
       [mkTuple KEY_ERROR TUPLE_CSTRING (lit "down"); tuple_int KEY_STATUS STATUS_ERROR;
        tuple_int KEY_CMD CMD_LOGIN] [])
    KEY_ERROR = Some (lit "down" ++ [x0c]).
Proof.
  assert (Hs : nul_free (lit "down")) by (repeat constructor; discriminate).
  split; [exact Hs|].
  apply (X24_unterminated_string_is_read_into_the_next_key
           KEY_ERROR TUPLE_CSTRING (lit "down") (tuple_int KEY_STATUS STATUS_ERROR)
           [tuple_int KEY_CMD CMD_LOGIN] [] Hs).
  vm_compute. split; congruence.
Defined.
